(** * Shadow object tracking in the memory_tracker and slow_device_simulator layers

    A shallow embedding of the handle registry, the binding tracker, the
    budget admission check, the fence delay state machine and the symbol
    resolvers of

    - [src/layersvt/slow_device_simulator.cpp] (module [Simulator]),
    - [src/unnamed/part_001], the memory tracker (module [Tracker]),
    - [src/unnamed/part_000], an earlier text of the memory tracker
      (module [Tracker0], only where it differs from [part_001]).

    The global [std::unordered_map] tables become one record of [gmap]s that
    is threaded through every entry point.  Calls made through the dispatch
    table (the next layer or the driver) are not part of the program: their
    answer is an argument of the entry point ([next_result], ...) and the
    fact that the call was made is recorded in a trace.  A null pointer
    dereference and a failed [assert] end the run ([crash]). *)

From Stdlib Require Import ZArith Lia Bool.
From Stdlib Require Import Floats.SpecFloat.
From stdpp Require Import gmap strings list fin_maps.

Local Open Scope Z_scope.

(** ** Scalars and handles *)

(** Every Vulkan handle is an opaque 64-bit value; [VK_NULL_HANDLE] is 0. *)
Abbreviation VkInstance := N (only parsing).
Abbreviation VkPhysicalDevice := N (only parsing).
Abbreviation VkDevice := N (only parsing).
Abbreviation VkBuffer := N (only parsing).
Abbreviation VkImage := N (only parsing).
Abbreviation VkDeviceMemory := N (only parsing).
Abbreviation VkFence := N (only parsing).
Abbreviation VkQueue := N (only parsing).
Abbreviation VkSwapchainKHR := N (only parsing).
Abbreviation VkSemaphore := N (only parsing).
(** [VkDeviceSize] is [uint64_t]; the counters of a fence are [uint32_t]. *)
Abbreviation VkDeviceSize := Z (only parsing).

Definition VK_NULL_HANDLE : N := 0%N.

Definition is_null (h : N) : bool := N.eqb h VK_NULL_HANDLE.

Definition wrap32 (z : Z) : Z := z mod 2 ^ 32.
Definition wrap64 (z : Z) : Z := z mod 2 ^ 64.

Definition VK_MAX_MEMORY_TYPES : nat := 32.
Definition VK_MAX_MEMORY_HEAPS : nat := 16.

(** The result codes the layers name, and the other codes a driver returns. *)
Inductive VkResult : Type :=
  | VK_SUCCESS
  | VK_NOT_READY
  | VK_TIMEOUT
  | VK_INCOMPLETE
  | VK_SUBOPTIMAL_KHR
  | VK_ERROR_OUT_OF_HOST_MEMORY
  | VK_ERROR_OUT_OF_DEVICE_MEMORY
  | VK_ERROR_INITIALIZATION_FAILED
  | VK_ERROR_DEVICE_LOST
  | VK_ERROR_LAYER_NOT_PRESENT
  | VK_ERROR_OTHER (code : Z).

Definition is_success (r : VkResult) : bool :=
  match r with VK_SUCCESS => true | _ => false end.

Inductive FenceDelayType : Type :=
  | FENCE_DELAY_NONE
  | FENCE_DELAY_MS_FROM_TRIGGER
  | FENCE_DELAY_MS_FROM_FIRST_QUERY
  | FENCE_DELAY_NUM_FAIL_WAITS.

Definition is_delay_none (t : FenceDelayType) : bool :=
  match t with FENCE_DELAY_NONE => true | _ => false end.

(** ** Records of the shadow tables

    The records are those of the simulator.  The tracker's records are the
    same without [layer_enabled], [memory_percent], [allocated] and the
    fence settings, none of which a tracker function reads.  Fields that
    hold only report data (creation parameters, captured extension
    structures of buffers, images and allocations) are left out. *)

Record InstanceExtensionsEnabled : Type := {
  i_core_1_1 : bool;
  i_core_1_2 : bool;
  i_core_1_3 : bool;
  KHR_device_group_create : bool;
  KHR_external_mem_caps : bool;
  KHR_get_phys_dev_props2 : bool }.

(** A dispatch table pointer may be null, and so may its resolver member. *)
Record DispatchTable : Type := {
  has_GetProcAddr : bool }.

Record InstanceMapStruct : Type := {
  i_dispatch_table : option DispatchTable;
  i_extension_enables : InstanceExtensionsEnabled;
  i_fence_delay_type : FenceDelayType;
  i_layer_enabled : bool;
  i_fence_delay_count : Z;
  i_memory_percent : Z }.

Record DeviceExtensions : Type := {
  core_1_1 : bool;
  core_1_2 : bool;
  core_1_3 : bool;
  KHR_external_mem_fd : bool;
  KHR_swapchain : bool;
  KHR_sync2 : bool;
  EXT_display_control : bool;
  EXT_mem_budget : bool;
  EXT_swapchain_maintenance1 : bool }.

Record MemoryHeapWithBudget : Type := {
  heap_size : VkDeviceSize;
  allocated : VkDeviceSize;
  budget : VkDeviceSize;
  usage : VkDeviceSize;
  flags : Z }.

Record VkMemoryType : Type := {
  propertyFlags : Z;
  heapIndex : Z }.

Record PhysicalDeviceMemoryBudgetProperties : Type := {
  memoryTypeCount : Z;
  memoryTypes : list VkMemoryType;
  memoryHeapCount : Z;
  memoryHeaps : list MemoryHeapWithBudget }.

Record PhysDeviceMapStruct : Type := {
  pd_instance : VkInstance;
  memory_props : PhysicalDeviceMemoryBudgetProperties;
  extensions_supported : DeviceExtensions;
  memory_budget_updated : bool;
  pd_layer_enabled : bool;
  memory_percent : Z }.

Record DeviceMapStruct : Type := {
  physical_device : VkPhysicalDevice;
  d_dispatch_table : option DispatchTable;
  extension_enables : DeviceExtensions;
  memory_bindings_updated : bool;
  d_layer_enabled : bool;
  fence_delay_type : FenceDelayType;
  fence_delay_count : Z }.

Record ExternalMemFdMapStruct : Type := {
  fd_device : VkDevice;
  fd_memory_type : Z }.

(** [start_time] is a reading of the monotonic clock in nanoseconds. *)
Record FenceMapStruct : Type := {
  f_device : VkDevice;
  signalled : bool;
  wait_started : bool;
  wait_completed : bool;
  delay_type : FenceDelayType;
  delay_count : Z;
  elapsed_count : Z;
  start_time : Z }.

Record VkMemoryRequirements : Type := {
  req_size : VkDeviceSize;
  req_alignment : VkDeviceSize;
  memoryTypeBits : Z }.

Record BufferMapStruct : Type := {
  b_device : VkDevice;
  b_memory_reqs : VkMemoryRequirements }.

Record ImageMapStruct : Type := {
  im_device : VkDevice;
  im_memory_reqs : VkMemoryRequirements }.

Record BufferMemoryStruct : Type := {
  bm_buffer : VkBuffer;
  bm_offset : VkDeviceSize }.

Record AdditionalImageMemoryStruct : Type := {
  aim_flags : Z;
  plane_mem_aspect : Z;
  aim_swapchain : VkSwapchainKHR;
  swapchain_image_index : Z }.

Record ImageMemoryStruct : Type := {
  imm_image : VkImage;
  imm_offset : VkDeviceSize;
  imm_additional_info : AdditionalImageMemoryStruct }.

Record VkMemoryAllocateInfo : Type := {
  allocationSize : VkDeviceSize;
  memoryTypeIndex : Z }.

Record MemoryMapStruct : Type := {
  m_device : VkDevice;
  alloc_info : VkMemoryAllocateInfo;
  buffers : list BufferMemoryStruct;
  images : list ImageMemoryStruct }.

(** The global tables.  A table maps a handle to a pointer; only
    [g_fence_map] is read with [operator[]] on paths that go on afterwards,
    so only there an entry can hold a null pointer ([Some None]). *)
Record State : Type := {
  g_instance_map : gmap N InstanceMapStruct;
  g_phys_device_map : gmap N PhysDeviceMapStruct;
  g_device_map : gmap N DeviceMapStruct;
  g_ext_mem_fd_map : gmap Z ExternalMemFdMapStruct;
  g_fence_map : gmap N (option FenceMapStruct);
  g_buffer_map : gmap N BufferMapStruct;
  g_image_map : gmap N ImageMapStruct;
  g_memory_map : gmap N MemoryMapStruct;
  g_queue_to_device_map : gmap N N }.

Definition empty_state : State :=
  {| g_instance_map := ∅; g_phys_device_map := ∅; g_device_map := ∅;
     g_ext_mem_fd_map := ∅; g_fence_map := ∅; g_buffer_map := ∅;
     g_image_map := ∅; g_memory_map := ∅; g_queue_to_device_map := ∅ |}.

Definition set_instance_map (f : gmap N InstanceMapStruct → gmap N InstanceMapStruct)
    (s : State) : State :=
  {| g_instance_map := f (g_instance_map s); g_phys_device_map := g_phys_device_map s;
     g_device_map := g_device_map s; g_ext_mem_fd_map := g_ext_mem_fd_map s;
     g_fence_map := g_fence_map s; g_buffer_map := g_buffer_map s;
     g_image_map := g_image_map s; g_memory_map := g_memory_map s;
     g_queue_to_device_map := g_queue_to_device_map s |}.

Definition set_phys_device_map
    (f : gmap N PhysDeviceMapStruct → gmap N PhysDeviceMapStruct) (s : State) : State :=
  {| g_instance_map := g_instance_map s; g_phys_device_map := f (g_phys_device_map s);
     g_device_map := g_device_map s; g_ext_mem_fd_map := g_ext_mem_fd_map s;
     g_fence_map := g_fence_map s; g_buffer_map := g_buffer_map s;
     g_image_map := g_image_map s; g_memory_map := g_memory_map s;
     g_queue_to_device_map := g_queue_to_device_map s |}.

Definition set_device_map (f : gmap N DeviceMapStruct → gmap N DeviceMapStruct)
    (s : State) : State :=
  {| g_instance_map := g_instance_map s; g_phys_device_map := g_phys_device_map s;
     g_device_map := f (g_device_map s); g_ext_mem_fd_map := g_ext_mem_fd_map s;
     g_fence_map := g_fence_map s; g_buffer_map := g_buffer_map s;
     g_image_map := g_image_map s; g_memory_map := g_memory_map s;
     g_queue_to_device_map := g_queue_to_device_map s |}.

Definition set_ext_mem_fd_map
    (f : gmap Z ExternalMemFdMapStruct → gmap Z ExternalMemFdMapStruct) (s : State) : State :=
  {| g_instance_map := g_instance_map s; g_phys_device_map := g_phys_device_map s;
     g_device_map := g_device_map s; g_ext_mem_fd_map := f (g_ext_mem_fd_map s);
     g_fence_map := g_fence_map s; g_buffer_map := g_buffer_map s;
     g_image_map := g_image_map s; g_memory_map := g_memory_map s;
     g_queue_to_device_map := g_queue_to_device_map s |}.

Definition set_fence_map
    (f : gmap N (option FenceMapStruct) → gmap N (option FenceMapStruct)) (s : State) : State :=
  {| g_instance_map := g_instance_map s; g_phys_device_map := g_phys_device_map s;
     g_device_map := g_device_map s; g_ext_mem_fd_map := g_ext_mem_fd_map s;
     g_fence_map := f (g_fence_map s); g_buffer_map := g_buffer_map s;
     g_image_map := g_image_map s; g_memory_map := g_memory_map s;
     g_queue_to_device_map := g_queue_to_device_map s |}.

Definition set_buffer_map (f : gmap N BufferMapStruct → gmap N BufferMapStruct)
    (s : State) : State :=
  {| g_instance_map := g_instance_map s; g_phys_device_map := g_phys_device_map s;
     g_device_map := g_device_map s; g_ext_mem_fd_map := g_ext_mem_fd_map s;
     g_fence_map := g_fence_map s; g_buffer_map := f (g_buffer_map s);
     g_image_map := g_image_map s; g_memory_map := g_memory_map s;
     g_queue_to_device_map := g_queue_to_device_map s |}.

Definition set_image_map (f : gmap N ImageMapStruct → gmap N ImageMapStruct)
    (s : State) : State :=
  {| g_instance_map := g_instance_map s; g_phys_device_map := g_phys_device_map s;
     g_device_map := g_device_map s; g_ext_mem_fd_map := g_ext_mem_fd_map s;
     g_fence_map := g_fence_map s; g_buffer_map := g_buffer_map s;
     g_image_map := f (g_image_map s); g_memory_map := g_memory_map s;
     g_queue_to_device_map := g_queue_to_device_map s |}.

Definition set_memory_map (f : gmap N MemoryMapStruct → gmap N MemoryMapStruct)
    (s : State) : State :=
  {| g_instance_map := g_instance_map s; g_phys_device_map := g_phys_device_map s;
     g_device_map := g_device_map s; g_ext_mem_fd_map := g_ext_mem_fd_map s;
     g_fence_map := g_fence_map s; g_buffer_map := g_buffer_map s;
     g_image_map := g_image_map s; g_memory_map := f (g_memory_map s);
     g_queue_to_device_map := g_queue_to_device_map s |}.

Definition set_queue_to_device_map (f : gmap N N → gmap N N) (s : State) : State :=
  {| g_instance_map := g_instance_map s; g_phys_device_map := g_phys_device_map s;
     g_device_map := g_device_map s; g_ext_mem_fd_map := g_ext_mem_fd_map s;
     g_fence_map := g_fence_map s; g_buffer_map := g_buffer_map s;
     g_image_map := g_image_map s; g_memory_map := g_memory_map s;
     g_queue_to_device_map := f (g_queue_to_device_map s) |}.

(** Field updates of the records that the entry points assign to. *)
Definition set_memory_bindings_updated (b : bool) (d : DeviceMapStruct) : DeviceMapStruct :=
  {| physical_device := physical_device d; d_dispatch_table := d_dispatch_table d;
     extension_enables := extension_enables d; memory_bindings_updated := b;
     d_layer_enabled := d_layer_enabled d; fence_delay_type := fence_delay_type d;
     fence_delay_count := fence_delay_count d |}.

Definition set_memory_budget_updated (b : bool) (p : PhysDeviceMapStruct) : PhysDeviceMapStruct :=
  {| pd_instance := pd_instance p; memory_props := memory_props p;
     extensions_supported := extensions_supported p; memory_budget_updated := b;
     pd_layer_enabled := pd_layer_enabled p; memory_percent := memory_percent p |}.

Definition set_memory_props (mp : PhysicalDeviceMemoryBudgetProperties)
    (p : PhysDeviceMapStruct) : PhysDeviceMapStruct :=
  {| pd_instance := pd_instance p; memory_props := mp;
     extensions_supported := extensions_supported p;
     memory_budget_updated := memory_budget_updated p;
     pd_layer_enabled := pd_layer_enabled p; memory_percent := memory_percent p |}.

Definition set_memoryHeaps (hs : list MemoryHeapWithBudget)
    (mp : PhysicalDeviceMemoryBudgetProperties) : PhysicalDeviceMemoryBudgetProperties :=
  {| memoryTypeCount := memoryTypeCount mp; memoryTypes := memoryTypes mp;
     memoryHeapCount := memoryHeapCount mp; memoryHeaps := hs |}.

Definition set_allocated (a : VkDeviceSize) (h : MemoryHeapWithBudget) : MemoryHeapWithBudget :=
  {| heap_size := heap_size h; allocated := a; budget := budget h; usage := usage h;
     flags := flags h |}.

Definition set_buffers (bs : list BufferMemoryStruct) (m : MemoryMapStruct) : MemoryMapStruct :=
  {| m_device := m_device m; alloc_info := alloc_info m; buffers := bs;
     images := images m |}.

Definition set_images (ims : list ImageMemoryStruct) (m : MemoryMapStruct) : MemoryMapStruct :=
  {| m_device := m_device m; alloc_info := alloc_info m; buffers := buffers m;
     images := ims |}.

Definition set_signalled (b : bool) (f : FenceMapStruct) : FenceMapStruct :=
  {| f_device := f_device f; signalled := b; wait_started := wait_started f;
     wait_completed := wait_completed f; delay_type := delay_type f;
     delay_count := delay_count f; elapsed_count := elapsed_count f;
     start_time := start_time f |}.

Definition set_wait_started (b : bool) (f : FenceMapStruct) : FenceMapStruct :=
  {| f_device := f_device f; signalled := signalled f; wait_started := b;
     wait_completed := wait_completed f; delay_type := delay_type f;
     delay_count := delay_count f; elapsed_count := elapsed_count f;
     start_time := start_time f |}.

Definition set_wait_completed (b : bool) (f : FenceMapStruct) : FenceMapStruct :=
  {| f_device := f_device f; signalled := signalled f; wait_started := wait_started f;
     wait_completed := b; delay_type := delay_type f;
     delay_count := delay_count f; elapsed_count := elapsed_count f;
     start_time := start_time f |}.

Definition set_elapsed_count (e : Z) (f : FenceMapStruct) : FenceMapStruct :=
  {| f_device := f_device f; signalled := signalled f; wait_started := wait_started f;
     wait_completed := wait_completed f; delay_type := delay_type f;
     delay_count := delay_count f; elapsed_count := e;
     start_time := start_time f |}.

Definition set_start_time (t : Z) (f : FenceMapStruct) : FenceMapStruct :=
  {| f_device := f_device f; signalled := signalled f; wait_started := wait_started f;
     wait_completed := wait_completed f; delay_type := delay_type f;
     delay_count := delay_count f; elapsed_count := elapsed_count f;
     start_time := t |}.

(** ** The down-chain trace and the monad of an entry point *)

Record VkBindBufferMemoryInfo : Type := {
  bbi_buffer : VkBuffer;
  bbi_memory : VkDeviceMemory;
  bbi_memoryOffset : VkDeviceSize }.

(** The structures a [VkBindImageMemoryInfo] chains that the layers read. *)
Inductive BindImagePNext : Type :=
  | BindImagePlaneMemoryInfo (planeAspect : Z)
  | BindImageMemorySwapchainInfoKHR (swapchain : VkSwapchainKHR) (imageIndex : Z)
  | BindImageOtherStructure (sType : Z).

Record VkBindImageMemoryInfo : Type := {
  bii_pNext : list BindImagePNext;
  bii_image : VkImage;
  bii_memory : VkDeviceMemory;
  bii_memoryOffset : VkDeviceSize }.

(** A call through a dispatch table, with the arguments it is given. *)
Inductive DownCall : Type :=
  | DC_DestroyDevice (device : VkDevice)
  | DC_DestroyBuffer (device : VkDevice) (buffer : VkBuffer)
  | DC_DestroyImage (device : VkDevice) (image : VkImage)
  | DC_AllocateMemory (device : VkDevice) (info : option VkMemoryAllocateInfo)
  | DC_FreeMemory (device : VkDevice) (memory : VkDeviceMemory)
  | DC_BindBufferMemory (device : VkDevice) (buffer : VkBuffer) (memory : VkDeviceMemory)
      (offset : VkDeviceSize)
  | DC_BindImageMemory (device : VkDevice) (image : VkImage) (memory : VkDeviceMemory)
      (offset : VkDeviceSize)
  | DC_BindBufferMemory2 (device : VkDevice) (infos : list VkBindBufferMemoryInfo)
  | DC_BindImageMemory2 (device : VkDevice) (infos : list VkBindImageMemoryInfo)
  | DC_CreateFence (device : VkDevice) (create_flags : Z)
  | DC_DestroyFence (device : VkDevice) (fence : VkFence)
  | DC_ResetFences (device : VkDevice) (fences : list N)
  | DC_GetFenceStatus (device : VkDevice) (fence : VkFence)
  | DC_WaitForFences (device : VkDevice) (fences : list N) (waitAll : bool) (timeout : Z)
  | DC_AcquireNextImageKHR (device : VkDevice) (swapchain : VkSwapchainKHR) (timeout : Z)
      (semaphore : VkSemaphore) (fence : VkFence)
  | DC_QueueBindSparse (queue : VkQueue) (fence : VkFence)
  | DC_QueueSubmit (queue : VkQueue) (fence : VkFence)
  | DC_GetPhysicalDeviceMemoryProperties2 (physicalDevice : VkPhysicalDevice)
  | DC_GetPhysicalDeviceToolPropertiesEXT (physicalDevice : VkPhysicalDevice) (toolCount : Z)
  | DC_GetInstanceProcAddr (instance : VkInstance) (funcName : string)
  | DC_GetDeviceProcAddr (device : VkDevice) (funcName : string).

Inductive Event : Type :=
  | Forwarded (c : DownCall)
  | SleptFor (milliseconds : Z).

(** [clock] is the monotonic clock in nanoseconds.  Inside one entry point
    it moves only by the sleeps of that entry point; between entry points
    it is whatever the next world says. *)
Record World : Type := {
  tables : State;
  trace : list Event;
  clock : Z }.

(** How an entry point ends: it returns, it dereferences a null pointer or
    fails an [assert], or one of its loops is still running when the fuel
    given to it is used up. *)
Inductive Outcome (A : Type) : Type :=
  | Done (a : A) (w : World)
  | Crashed
  | OutOfFuel.
Arguments Done {A} a w.
Arguments Crashed {A}.
Arguments OutOfFuel {A}.

Definition M (A : Type) : Type := World → Outcome A.

#[global] Instance M_ret : MRet M := λ A a w, Done a w.

#[global] Instance M_bind : MBind M := λ A B f m w,
  match m w with
  | Done a w' => f a w'
  | Crashed => Crashed
  | OutOfFuel => OutOfFuel
  end.

(** A null pointer dereference or a failed [assert]. *)
Definition crash {A : Type} : M A := λ _, Crashed.

Definition out_of_fuel {A : Type} : M A := λ _, OutOfFuel.

Definition get_tables : M State := λ w, Done (tables w) w.

Definition modify (f : State → State) : M unit := λ w,
  Done tt {| tables := f (tables w); trace := trace w; clock := clock w |}.

Definition forward (c : DownCall) : M unit := λ w,
  Done tt {| tables := tables w; trace := trace w ++ [Forwarded c]; clock := clock w |}.

Definition now : M Z := λ w, Done (clock w) w.

Definition sleep_for (ms : Z) : M unit := λ w,
  Done tt {| tables := tables w; trace := trace w ++ [SleptFor ms];
             clock := clock w + ms * 1000000 |}.

(** [p->] on a pointer that may be null. *)
Definition deref {A : Type} (p : option A) : M A :=
  match p with
  | Some a => mret a
  | None => crash
  end.

(** [assert(b)]: with [NDEBUG] the macro expands to nothing. *)
Definition assert (ndebug b : bool) : M unit :=
  if ndebug || b then mret tt else crash.

Definition when (b : bool) (m : M unit) : M unit :=
  if b then m else mret tt.

Fixpoint for_each {A : Type} (body : A → M unit) (l : list A) : M unit :=
  match l with
  | [] => mret tt
  | x :: rest => body x;; for_each body rest
  end.

(** ** The handle registry (same text in the three files) *)

Definition GetInstanceMapEntry (s : State) (instance : VkInstance) : option InstanceMapStruct :=
  g_instance_map s !! instance.

Definition EraseInstanceMapEntry (instance : VkInstance) (s : State) : State :=
  match GetInstanceMapEntry s instance with
  | Some _ => set_instance_map (delete instance) s
  | None => s
  end.

Definition GetPhysicalDeviceMapEntry (s : State) (phys_dev : VkPhysicalDevice)
    : option PhysDeviceMapStruct :=
  g_phys_device_map s !! phys_dev.

Definition GetDeviceMapEntry (s : State) (device : VkDevice) : option DeviceMapStruct :=
  g_device_map s !! device.

Definition EraseDeviceMapEntry (device : VkDevice) (s : State) : State :=
  match GetDeviceMapEntry s device with
  | Some _ => set_device_map (delete device) s
  | None => s
  end.

Definition GetExternalMemFdMapEntry (s : State) (fd : Z) : option ExternalMemFdMapStruct :=
  g_ext_mem_fd_map s !! fd.

(** [EraseExternalMemFdMapEntries]: the range-for is left with [goto
    restart_loop] after each erase and started again; [fuel] bounds the
    number of restarts. *)
Definition first_fd_of_device (device : VkDevice) (m : gmap Z ExternalMemFdMapStruct)
    : option Z :=
  fst <$> List.find (λ kv, N.eqb (fd_device (snd kv)) device) (map_to_list m).

Fixpoint erase_fd_restart_loop (fuel : nat) (device : VkDevice)
    (m : gmap Z ExternalMemFdMapStruct) : option (gmap Z ExternalMemFdMapStruct) :=
  match first_fd_of_device device m with
  | None => Some m
  | Some fd =>
      match fuel with
      | O => None
      | S fuel' => erase_fd_restart_loop fuel' device (delete fd m)
      end
  end.

Definition EraseExternalMemFdMapEntries (device : VkDevice) (s : State) : State :=
  match erase_fd_restart_loop (size (g_ext_mem_fd_map s)) device (g_ext_mem_fd_map s) with
  | Some m => set_ext_mem_fd_map (λ _, m) s
  | None => s
  end.

(** [find] and then [it->second]: the entry may be a null pointer. *)
Definition GetFenceMapEntry (s : State) (fence : VkFence) : option FenceMapStruct :=
  match g_fence_map s !! fence with
  | Some p => p
  | None => None
  end.

Definition EraseFenceMapEntry (fence : VkFence) (s : State) : State :=
  match GetFenceMapEntry s fence with
  | Some _ => set_fence_map (delete fence) s
  | None => s
  end.

Definition GetBufferMapEntry (s : State) (buffer : VkBuffer) : option BufferMapStruct :=
  g_buffer_map s !! buffer.

(** The inner loop over [map->buffers]: erase the entries of [buffer]. *)
Fixpoint erase_buffer_entries (buffer : VkBuffer) (l : list BufferMemoryStruct)
    : list BufferMemoryStruct :=
  match l with
  | [] => []
  | e :: rest =>
      if N.eqb (bm_buffer e) buffer then erase_buffer_entries buffer rest
      else e :: erase_buffer_entries buffer rest
  end.

Fixpoint erase_image_entries (image : VkImage) (l : list ImageMemoryStruct)
    : list ImageMemoryStruct :=
  match l with
  | [] => []
  | e :: rest =>
      if N.eqb (imm_image e) image then erase_image_entries image rest
      else e :: erase_image_entries image rest
  end.

(** The outer loop [for (auto &mem_map_iter : g_memory_map)]. *)
Definition unbind_buffer (buffer : VkBuffer) (s : State) : State :=
  set_memory_map
    (fmap (λ map, set_buffers (erase_buffer_entries buffer (buffers map)) map)) s.

Definition unbind_image (image : VkImage) (s : State) : State :=
  set_memory_map
    (fmap (λ map, set_images (erase_image_entries image (images map)) map)) s.

Definition EraseBufferMapEntry (buffer : VkBuffer) (s : State) : State :=
  match GetBufferMapEntry s buffer with
  | Some _ => unbind_buffer buffer (set_buffer_map (delete buffer) s)
  | None => s
  end.

Definition GetImageMapEntry (s : State) (image : VkImage) : option ImageMapStruct :=
  g_image_map s !! image.

Definition EraseImageMapEntry (image : VkImage) (s : State) : State :=
  match GetImageMapEntry s image with
  | Some _ => unbind_image image (set_image_map (delete image) s)
  | None => s
  end.

Definition GetMemoryMapEntry (s : State) (memory : VkDeviceMemory) : option MemoryMapStruct :=
  g_memory_map s !! memory.

Definition EraseMemoryMapEntry (memory : VkDeviceMemory) (s : State) : State :=
  match GetMemoryMapEntry s memory with
  | Some _ => set_memory_map (delete memory) s
  | None => s
  end.

(** ** Function pointers and command tables *)

(** The entry points a layer can hand out. *)
Inductive LayerFn : Type :=
  | Fn_GetInstanceProcAddr | Fn_CreateInstance | Fn_CreateDevice | Fn_DestroyInstance
  | Fn_DestroyDevice | Fn_EnumeratePhysicalDevices | Fn_EnumerateInstanceLayerProperties
  | Fn_EnumerateInstanceExtensionProperties | Fn_EnumerateDeviceLayerProperties
  | Fn_EnumerateDeviceExtensionProperties | Fn_GetPhysicalDeviceProperties
  | Fn_GetPhysicalDeviceMemoryProperties | Fn_GetPhysicalDeviceToolPropertiesEXT
  | Fn_EnumeratePhysicalDeviceGroups | Fn_GetPhysicalDeviceProperties2
  | Fn_GetPhysicalDeviceMemoryProperties2 | Fn_GetPhysicalDeviceExternalBufferProperties
  | Fn_GetDeviceProcAddr | Fn_CreateBuffer | Fn_DestroyBuffer | Fn_CreateImage
  | Fn_DestroyImage | Fn_AllocateMemory | Fn_FreeMemory | Fn_BindBufferMemory
  | Fn_BindImageMemory | Fn_GetBufferMemoryRequirements | Fn_GetImageMemoryRequirements
  | Fn_GetImageSparseMemoryRequirements | Fn_GetDeviceQueue | Fn_QueueBindSparse
  | Fn_QueueSubmit | Fn_CreateFence | Fn_DestroyFence | Fn_ResetFences | Fn_GetFenceStatus
  | Fn_WaitForFences | Fn_GetImageMemoryRequirements2 | Fn_GetBufferMemoryRequirements2
  | Fn_BindBufferMemory2 | Fn_BindImageMemory2 | Fn_GetDeviceBufferMemoryRequirements
  | Fn_GetDeviceImageMemoryRequirements | Fn_QueueSubmit2 | Fn_GetMemoryFdPropertiesKHR
  | Fn_AcquireNextImageKHR | Fn_AcquireNextImage2KHR | Fn_QueuePresentKHR
  | Fn_RegisterDeviceEventEXT | Fn_RegisterDisplayEventEXT.

(** A non-null [PFN_vkVoidFunction]: a function of this layer, or whatever
    the next link answered. *)
Inductive Proc : Type :=
  | LayerProc (f : LayerFn)
  | NextProc (address : N).

(** [PFN_vkVoidFunction]; [None] is the null pointer. *)
Abbreviation PFN_vkVoidFunction := (option Proc) (only parsing).

(** [for (i ...) if (!strcmp(table[i].name, name)) return table[i].proc;] *)
Fixpoint lookup_command (table : list (string * LayerFn)) (name : string)
    : PFN_vkVoidFunction :=
  match table with
  | [] => None
  | (n, f) :: rest =>
      if String.eqb n name then Some (LayerProc f) else lookup_command rest name
  end.

(** [if (group enabled) { search the group's table }], one group after the
    other, the first hit is returned. *)
Fixpoint search_groups (groups : list (bool * list (string * LayerFn))) (name : string)
    : PFN_vkVoidFunction :=
  match groups with
  | [] => None
  | (enabled, table) :: rest =>
      match (if enabled then lookup_command table name else None) with
      | Some proc => Some proc
      | None => search_groups rest name
      end
  end.

(** A chain of [proc = ...; if (proc) return proc;]. *)
Definition or_else {A : Type} (p : option A) (k : M (option A)) : M (option A) :=
  match p with
  | Some a => mret (Some a)
  | None => k
  end.

(** ** Binding bookkeeping shared by the bind entry points

    The four bind functions of the tracker and of the simulator contain the
    same statements; they differ in the guard that leads to them. *)

(** The scan "make sure it's not associated with a memory allocation
    already" followed by the [push_back] for a non-null memory handle. *)
Definition bind_buffer (ndebug : bool) (device : VkDevice) (buffer : VkBuffer)
    (memory : VkDeviceMemory) (memoryOffset : VkDeviceSize) : M unit :=
  modify (unbind_buffer buffer);;
  when (negb (is_null memory))
    (s ← get_tables;
     memory_map_data ← deref (GetMemoryMapEntry s memory);
     assert ndebug (N.eqb (m_device memory_map_data) device);;
     let buffer_data := {| bm_buffer := buffer; bm_offset := memoryOffset |} in
     modify (set_memory_map
       (<[memory := set_buffers (buffers memory_map_data ++ [buffer_data]) memory_map_data]>))).

Definition bind_image (ndebug : bool) (device : VkDevice) (image : VkImage)
    (memory : VkDeviceMemory) (memoryOffset : VkDeviceSize)
    (additional_info : AdditionalImageMemoryStruct) : M unit :=
  modify (unbind_image image);;
  when (negb (is_null memory))
    (s ← get_tables;
     memory_map_data ← deref (GetMemoryMapEntry s memory);
     assert ndebug (N.eqb (m_device memory_map_data) device);;
     let image_data := {| imm_image := image; imm_offset := memoryOffset;
                          imm_additional_info := additional_info |} in
     modify (set_memory_map
       (<[memory := set_images (images memory_map_data ++ [image_data]) memory_map_data]>))).

Definition ADD_IMAGE_MEM_VALID_PLANE_MEM : Z := 1.
Definition ADD_IMAGE_MEM_VALID_SWAPCHAIN : Z := 2.

Definition no_additional_image_memory_info : AdditionalImageMemoryStruct :=
  {| aim_flags := 0; plane_mem_aspect := 0; aim_swapchain := 0%N;
     swapchain_image_index := 0 |}.

(** The walk over [pBindInfos[img].pNext] in [BindImageMemory2]. *)
Fixpoint walk_bind_image_chain (next_struct : list BindImagePNext)
    (info : AdditionalImageMemoryStruct) : AdditionalImageMemoryStruct :=
  match next_struct with
  | [] => info
  | BindImagePlaneMemoryInfo planeAspect :: rest =>
      walk_bind_image_chain rest
        {| aim_flags := Z.lor (aim_flags info) ADD_IMAGE_MEM_VALID_PLANE_MEM;
           plane_mem_aspect := planeAspect; aim_swapchain := aim_swapchain info;
           swapchain_image_index := swapchain_image_index info |}
  | BindImageMemorySwapchainInfoKHR swapchain imageIndex :: rest =>
      walk_bind_image_chain rest
        {| aim_flags := Z.lor (aim_flags info) ADD_IMAGE_MEM_VALID_SWAPCHAIN;
           plane_mem_aspect := plane_mem_aspect info; aim_swapchain := swapchain;
           swapchain_image_index := imageIndex |}
  | BindImageOtherStructure _ :: rest => walk_bind_image_chain rest info
  end.

(** [device_map_data->memory_bindings_updated = true] and the invalidation
    of the physical device's budget. *)
Definition mark_bindings_updated (device : VkDevice) (device_map_data : DeviceMapStruct)
    : M unit :=
  modify (set_device_map
    (<[device := set_memory_bindings_updated true device_map_data]>));;
  s ← get_tables;
  phys_dev_map_data ← deref (GetPhysicalDeviceMapEntry s (physical_device device_map_data));
  modify (set_phys_device_map
    (<[physical_device device_map_data :=
         set_memory_budget_updated false phys_dev_map_data]>)).

(** [pDisp->...]: the call goes through the device's dispatch table. *)
Definition forward_device (device_map_data : DeviceMapStruct) (c : DownCall) : M unit :=
  deref (d_dispatch_table device_map_data);; forward c.

(** The body of the loop of [BindBufferMemory2] and of [BindImageMemory2]. *)
Definition bind_buffer_info (ndebug : bool) (device : VkDevice)
    (info : VkBindBufferMemoryInfo) : M unit :=
  when (negb (is_null (bbi_buffer info)))
    (bind_buffer ndebug device (bbi_buffer info) (bbi_memory info) (bbi_memoryOffset info)).

Definition bind_image_info (ndebug : bool) (device : VkDevice)
    (info : VkBindImageMemoryInfo) : M unit :=
  when (negb (is_null (bii_image info)))
    (bind_image ndebug device (bii_image info) (bii_memory info) (bii_memoryOffset info)
       (walk_bind_image_chain (bii_pNext info) no_additional_image_memory_info)).

(** ** The pNext search of [GetPhysicalDeviceMemoryProperties2]

    [while (next_chain != nullptr) { if (next_chain->sType == ...BUDGET...)
    { mem_budget = ...; break; } }]: the body never assigns [next_chain]. *)

Record VkPhysicalDeviceMemoryBudgetPropertiesEXT : Type := {
  heapBudget : list VkDeviceSize;
  heapUsage : list VkDeviceSize }.

Inductive OutStructure : Type :=
  | MemoryBudgetPropertiesEXT (b : VkPhysicalDeviceMemoryBudgetPropertiesEXT)
  | OtherOutStructure (sType : Z).

(** One iteration: the loop is left with a result, or goes round again with
    the value [next_chain] then has. *)
Inductive ChainStep : Type :=
  | LeaveLoop (mem_budget : option VkPhysicalDeviceMemoryBudgetPropertiesEXT)
  | NextIteration (next_chain : list OutStructure).

Definition budget_search_step (next_chain : list OutStructure) : ChainStep :=
  match next_chain with
  | [] => LeaveLoop None
  | MemoryBudgetPropertiesEXT b :: _ => LeaveLoop (Some b)
  | OtherOutStructure _ :: _ => NextIteration next_chain
  end.

Fixpoint budget_search (fuel : nat) (next_chain : list OutStructure)
    : option (option VkPhysicalDeviceMemoryBudgetPropertiesEXT) :=
  match fuel with
  | O => None
  | S fuel' =>
      match budget_search_step next_chain with
      | LeaveLoop mem_budget => Some mem_budget
      | NextIteration next_chain' => budget_search fuel' next_chain'
      end
  end.

Definition run_budget_search (fuel : nat) (next_chain : list OutStructure)
    : M (option VkPhysicalDeviceMemoryBudgetPropertiesEXT) :=
  match budget_search fuel next_chain with
  | Some mem_budget => mret mem_budget
  | None => out_of_fuel
  end.

(** ** What the driver reports about memory *)

Record VkMemoryHeap : Type := {
  vk_size : VkDeviceSize;
  vk_flags : Z }.

Record VkPhysicalDeviceMemoryProperties : Type := {
  vk_memoryTypeCount : Z;
  vk_memoryTypes : list VkMemoryType;
  vk_memoryHeapCount : Z;
  vk_memoryHeaps : list VkMemoryHeap }.

(** The structure of the application after the forwarded query filled it. *)
Record VkPhysicalDeviceMemoryProperties2 : Type := {
  pNext : list OutStructure;
  memoryProperties : VkPhysicalDeviceMemoryProperties }.

(** [array[i] = x] on a fixed-size array: outside the array the behaviour
    is undefined. *)
Definition array_store {A : Type} (i : nat) (x : A) (array : list A) : option (list A) :=
  if decide (i < length array)%nat then Some (<[i := x]> array) else None.

(** [for (i = 0; i < count; ++i) body(i)] over a value that is updated. *)
Definition for_index {A : Type} (count : Z) (body : nat → A → option A) (init : A)
    : option A :=
  foldl (λ acc i, a ← acc; body i a) (Some init) (seq 0 (Z.to_nat count)).

Definition copy_memory_types (vulkan_props : VkPhysicalDeviceMemoryProperties)
    (local_types : list VkMemoryType) : option (list VkMemoryType) :=
  for_index (vk_memoryTypeCount vulkan_props)
    (λ type local,
       t ← vk_memoryTypes vulkan_props !! type;
       array_store type {| propertyFlags := propertyFlags t; heapIndex := heapIndex t |} local)
    local_types.

(** ** The memory tracker, [src/unnamed/part_001] *)

Module Tracker.

Definition CopyMemoryProperties (vulkan_props : VkPhysicalDeviceMemoryProperties)
    (local_props : PhysicalDeviceMemoryBudgetProperties)
    (budget_props : option VkPhysicalDeviceMemoryBudgetPropertiesEXT)
    : option PhysicalDeviceMemoryBudgetProperties :=
  types ← copy_memory_types vulkan_props (memoryTypes local_props);
  heaps ← for_index (vk_memoryHeapCount vulkan_props)
    (λ heap local,
       h ← vk_memoryHeaps vulkan_props !! heap;
       old ← local !! heap;
       match budget_props with
       | Some b =>
           u ← heapUsage b !! heap;
           bu ← heapBudget b !! heap;
           array_store heap {| heap_size := vk_size h; allocated := allocated old;
                               budget := bu; usage := u; flags := vk_flags h |} local
       | None =>
           array_store heap {| heap_size := vk_size h; allocated := allocated old;
                               budget := 0; usage := 0; flags := vk_flags h |} local
       end)
    (memoryHeaps local_props);
  Some {| memoryTypeCount := vk_memoryTypeCount vulkan_props; memoryTypes := types;
          memoryHeapCount := vk_memoryHeapCount vulkan_props; memoryHeaps := heaps |}.

Definition GetPhysicalDeviceMemoryProperties2 (fuel : nat) (physicalDevice : VkPhysicalDevice)
    (pMemoryProperties : option VkPhysicalDeviceMemoryProperties2) : M unit :=
  s ← get_tables;
  phys_dev_data_entry ← deref (GetPhysicalDeviceMapEntry s physicalDevice);
  instance_data_entry ← deref (GetInstanceMapEntry s (pd_instance phys_dev_data_entry));
  deref (i_dispatch_table instance_data_entry);;
  forward (DC_GetPhysicalDeviceMemoryProperties2 physicalDevice);;
  match pMemoryProperties with
  | None => mret tt
  | Some props =>
      mem_budget ← run_budget_search fuel (pNext props);
      local ← deref (CopyMemoryProperties (memoryProperties props)
                       (memory_props phys_dev_data_entry) mem_budget);
      let entry := set_memory_props local phys_dev_data_entry in
      modify (set_phys_device_map
        (<[physicalDevice :=
             match mem_budget with
             | Some _ => set_memory_budget_updated true entry
             | None => entry
             end]>))
  end.

Definition DestroyDevice (device : VkDevice) : M unit :=
  s ← get_tables;
  device_map_data ← deref (GetDeviceMapEntry s device);
  forward_device device_map_data (DC_DestroyDevice device);;
  modify (EraseExternalMemFdMapEntries device);;
  s ← get_tables;
  deref (GetPhysicalDeviceMapEntry s (physical_device device_map_data));;
  modify (EraseDeviceMapEntry device).

Definition DestroyBuffer (device : VkDevice) (buffer : VkBuffer) : M unit :=
  s ← get_tables;
  device_map_data ← deref (GetDeviceMapEntry s device);
  forward_device device_map_data (DC_DestroyBuffer device buffer);;
  modify (EraseBufferMapEntry buffer).

Definition DestroyImage (device : VkDevice) (image : VkImage) : M unit :=
  s ← get_tables;
  device_map_data ← deref (GetDeviceMapEntry s device);
  forward_device device_map_data (DC_DestroyImage device image);;
  modify (EraseImageMapEntry image).

(** [next_result] and [next_memory] are the result and the [*pMemory] of
    the forwarded [vkAllocateMemory]. *)
Definition AllocateMemory (device : VkDevice) (pAllocateInfo : option VkMemoryAllocateInfo)
    (next_result : VkResult) (next_memory : VkDeviceMemory) : M VkResult :=
  s ← get_tables;
  device_map_data ← deref (GetDeviceMapEntry s device);
  forward_device device_map_data (DC_AllocateMemory device pAllocateInfo);;
  let result := next_result in
  when (is_success result)
    (info ← deref pAllocateInfo;
     let memory_map_data :=
       {| m_device := device; alloc_info := info; buffers := []; images := [] |} in
     modify (set_memory_map (<[next_memory := memory_map_data]>)));;
  mret result.

Definition FreeMemory (device : VkDevice) (memory : VkDeviceMemory) : M unit :=
  s ← get_tables;
  device_map_data ← deref (GetDeviceMapEntry s device);
  forward_device device_map_data (DC_FreeMemory device memory);;
  modify (EraseMemoryMapEntry memory).

Definition BindBufferMemory (ndebug : bool) (device : VkDevice) (buffer : VkBuffer)
    (memory : VkDeviceMemory) (memoryOffset : VkDeviceSize) (next_result : VkResult)
    : M VkResult :=
  s ← get_tables;
  device_map_data ← deref (GetDeviceMapEntry s device);
  forward_device device_map_data (DC_BindBufferMemory device buffer memory memoryOffset);;
  let result := next_result in
  when (is_success result && negb (is_null buffer))
    (bind_buffer ndebug device buffer memory memoryOffset;;
     mark_bindings_updated device device_map_data);;
  mret result.

Definition BindImageMemory (ndebug : bool) (device : VkDevice) (image : VkImage)
    (memory : VkDeviceMemory) (memoryOffset : VkDeviceSize) (next_result : VkResult)
    : M VkResult :=
  s ← get_tables;
  device_map_data ← deref (GetDeviceMapEntry s device);
  forward_device device_map_data (DC_BindImageMemory device image memory memoryOffset);;
  let result := next_result in
  when (is_success result && negb (is_null image))
    (bind_image ndebug device image memory memoryOffset no_additional_image_memory_info;;
     mark_bindings_updated device device_map_data);;
  mret result.

Definition BindBufferMemory2 (ndebug : bool) (device : VkDevice)
    (pBindInfos : list VkBindBufferMemoryInfo) (next_result : VkResult) : M VkResult :=
  s ← get_tables;
  device_map_data ← deref (GetDeviceMapEntry s device);
  forward_device device_map_data (DC_BindBufferMemory2 device pBindInfos);;
  let result := next_result in
  when (is_success result)
    (for_each (bind_buffer_info ndebug device) pBindInfos;;
     mark_bindings_updated device device_map_data);;
  mret result.

Definition BindImageMemory2 (ndebug : bool) (device : VkDevice)
    (pBindInfos : list VkBindImageMemoryInfo) (next_result : VkResult) : M VkResult :=
  s ← get_tables;
  device_map_data ← deref (GetDeviceMapEntry s device);
  forward_device device_map_data (DC_BindImageMemory2 device pBindInfos);;
  let result := next_result in
  when (is_success result)
    (for_each (bind_image_info ndebug device) pBindInfos;;
     mark_bindings_updated device device_map_data);;
  mret result.

Definition layerName : string := "VK_LAYER_LUNARG_memory_tracker".

Definition EnumerateInstanceExtensionProperties (pLayerName : option string)
    (util_result : VkResult) : VkResult :=
  match pLayerName with
  | Some name => if String.eqb name layerName then util_result else VK_ERROR_LAYER_NOT_PRESENT
  | None => VK_ERROR_LAYER_NOT_PRESENT
  end.

(** [next_count] is [*pToolCount] after the forwarded call; the second
    component is its value at the end. *)
Definition GetPhysicalDeviceToolPropertiesEXT (physicalDevice : VkPhysicalDevice)
    (pToolCount : Z) (has_pToolProperties : bool) (next_result : VkResult)
    (next_count : Z) : M (VkResult * Z) :=
  let pToolCount := if has_pToolProperties then wrap32 (pToolCount - 1) else pToolCount in
  s ← get_tables;
  phys_dev_data_entry ← deref (GetPhysicalDeviceMapEntry s physicalDevice);
  instance_data_entry ← deref (GetInstanceMapEntry s (pd_instance phys_dev_data_entry));
  deref (i_dispatch_table instance_data_entry);;
  forward (DC_GetPhysicalDeviceToolPropertiesEXT physicalDevice pToolCount);;
  let result := next_result in
  mret (result, wrap32 (next_count + 1)).

Definition base_instance_commands : list (string * LayerFn) :=
  [ ("vkGetInstanceProcAddr", Fn_GetInstanceProcAddr);
    ("vkCreateInstance", Fn_CreateInstance);
    ("vkCreateDevice", Fn_CreateDevice);
    ("vkDestroyInstance", Fn_DestroyInstance);
    ("vkDestroyDevice", Fn_DestroyDevice);
    ("vkEnumeratePhysicalDevices", Fn_EnumeratePhysicalDevices);
    ("vkEnumerateInstanceLayerProperties", Fn_EnumerateInstanceLayerProperties);
    ("vkEnumerateInstanceExtensionProperties", Fn_EnumerateInstanceExtensionProperties);
    ("vkEnumerateDeviceLayerProperties", Fn_EnumerateDeviceLayerProperties);
    ("vkEnumerateDeviceExtensionProperties", Fn_EnumerateDeviceExtensionProperties);
    ("vkGetPhysicalDeviceProperties", Fn_GetPhysicalDeviceProperties);
    ("vkGetPhysicalDeviceMemoryProperties", Fn_GetPhysicalDeviceMemoryProperties);
    ("vkGetPhysicalDeviceToolPropertiesEXT", Fn_GetPhysicalDeviceToolPropertiesEXT) ]%string.

Definition ImplementedInstanceCommands (name : string) : PFN_vkVoidFunction :=
  lookup_command base_instance_commands name.

Definition ImplementedInstanceNewerCoreCommands (instance_map_data : InstanceMapStruct)
    (name : string) : PFN_vkVoidFunction :=
  if i_core_1_1 (i_extension_enables instance_map_data) then
    lookup_command
      [ ("vkEnumeratePhysicalDeviceGroups2", Fn_EnumeratePhysicalDeviceGroups);
        ("vkGetPhysicalDeviceProperties2", Fn_GetPhysicalDeviceProperties2);
        ("vkGetPhysicalDeviceMemoryProperties2", Fn_GetPhysicalDeviceMemoryProperties2);
        ("vkGetPhysicalDeviceExternalBufferProperties",
          Fn_GetPhysicalDeviceExternalBufferProperties) ]%string name
  else None.

Definition ImplementedInstanceExtensionCommands (instance_map_data : InstanceMapStruct)
    (name : string) : PFN_vkVoidFunction :=
  let enables := i_extension_enables instance_map_data in
  search_groups
    [ (KHR_device_group_create enables,
        [ ("vkEnumeratePhysicalDeviceGroupsKHR", Fn_EnumeratePhysicalDeviceGroups) ]);
      (KHR_external_mem_caps enables,
        [ ("vkGetPhysicalDeviceExternalBufferPropertiesKHR",
            Fn_GetPhysicalDeviceExternalBufferProperties) ]);
      (KHR_get_phys_dev_props2 enables,
        [ ("vkGetPhysicalDeviceProperties2KHR", Fn_GetPhysicalDeviceProperties2);
          ("vkGetPhysicalDeviceMemoryProperties2KHR",
            Fn_GetPhysicalDeviceMemoryProperties2) ]) ]%string name.

Definition core_device_commands : list (string * LayerFn) :=
  [ ("vkGetDeviceProcAddr", Fn_GetDeviceProcAddr);
    ("vkCreateDevice", Fn_CreateDevice);
    ("vkDestroyDevice", Fn_DestroyDevice);
    ("vkCreateBuffer", Fn_CreateBuffer);
    ("vkDestroyBuffer", Fn_DestroyBuffer);
    ("vkCreateImage", Fn_CreateImage);
    ("vkDestroyImage", Fn_DestroyImage);
    ("vkAllocateMemory", Fn_AllocateMemory);
    ("vkFreeMemory", Fn_FreeMemory);
    ("vkBindBufferMemory", Fn_BindBufferMemory);
    ("vkBindImageMemory", Fn_BindImageMemory);
    ("vkGetBufferMemoryRequirements", Fn_GetBufferMemoryRequirements);
    ("vkGetImageMemoryRequirements", Fn_GetImageMemoryRequirements);
    ("vkGetImageSparseMemoryRequirements", Fn_GetImageSparseMemoryRequirements);
    ("vkGetDeviceQueue", Fn_GetDeviceQueue);
    ("vkQueueSubmit", Fn_QueueSubmit) ]%string.

Definition ImplementedDeviceCommands (name : string) : PFN_vkVoidFunction :=
  lookup_command core_device_commands name.

(** [supported] is a pointer: [GetInstanceProcAddr] passes [nullptr]. *)
Definition ImplementedDeviceExtensionCommands (supported : option DeviceExtensions)
    (name : string) : PFN_vkVoidFunction :=
  match supported with
  | Some supported =>
      search_groups
        [ (core_1_1 supported,
            [ ("vkGetImageMemoryRequirements2", Fn_GetImageMemoryRequirements2);
              ("vkGetBufferMemoryRequirements2", Fn_GetBufferMemoryRequirements2);
              ("vkBindBufferMemory2", Fn_BindBufferMemory2);
              ("vkBindImageMemory2", Fn_BindImageMemory2) ]);
          (core_1_3 supported,
            [ ("vkGetDeviceBufferMemoryRequirements", Fn_GetDeviceBufferMemoryRequirements);
              ("vkGetDeviceImageMemoryRequirements", Fn_GetDeviceImageMemoryRequirements);
              ("vkQueueSubmit2", Fn_QueueSubmit2) ]);
          (KHR_external_mem_fd supported,
            [ ("vkGetMemoryFdPropertiesKHR", Fn_GetMemoryFdPropertiesKHR) ]);
          (KHR_sync2 supported,
            [ ("vkGetDeviceBufferMemoryRequirementsKHR",
                Fn_GetDeviceBufferMemoryRequirements);
              ("vkGetDeviceImageMemoryRequirementsKHR", Fn_GetDeviceImageMemoryRequirements);
              ("vkQueueSubmit2KHR", Fn_QueueSubmit2) ]) ]%string name
  | None => None
  end.

(** [next_proc] is what the next link's resolver answers when asked. *)
Definition GetInstanceProcAddr (instance : VkInstance) (funcName : string)
    (next_proc : PFN_vkVoidFunction) : M PFN_vkVoidFunction :=
  or_else (ImplementedInstanceCommands funcName)
    (if is_null instance then mret None
     else
       s ← get_tables;
       match GetInstanceMapEntry s instance with
       | None => mret None
       | Some instance_map_data =>
           or_else (ImplementedInstanceNewerCoreCommands instance_map_data funcName)
          (or_else (ImplementedInstanceExtensionCommands instance_map_data funcName)
          (or_else (ImplementedDeviceCommands funcName)
          (or_else (ImplementedDeviceExtensionCommands None funcName)
             match i_dispatch_table instance_map_data with
             | None => mret None
             | Some table =>
                 if has_GetProcAddr table then
                   forward (DC_GetInstanceProcAddr instance funcName);; mret next_proc
                 else mret None
             end)))
       end).

Definition GetDeviceProcAddr (dev : VkDevice) (funcName : string)
    (next_proc : PFN_vkVoidFunction) : M PFN_vkVoidFunction :=
  or_else (ImplementedDeviceCommands funcName)
    (s ← get_tables;
     device_map_entry ← deref (GetDeviceMapEntry s dev);
     phys_dev_map_entry ←
       deref (GetPhysicalDeviceMapEntry s (physical_device device_map_entry));
     or_else (ImplementedDeviceExtensionCommands
                (Some (extensions_supported phys_dev_map_entry)) funcName)
       match d_dispatch_table device_map_entry with
       | None => mret None
       | Some pDisp =>
           if has_GetProcAddr pDisp then
             forward (DC_GetDeviceProcAddr dev funcName);; mret next_proc
           else mret None
       end).

End Tracker.

(** ** The earlier memory tracker, [src/unnamed/part_000]

    Only what differs from [part_001] and is used below: the device
    extension table, which is searched also when no flags are given, and
    [DestroyDevice], which has no external-memory table to clean. *)

Module Tracker0.

Definition ImplementedInstanceNewerCoreCommands (instance_map_data : InstanceMapStruct)
    (name : string) : PFN_vkVoidFunction :=
  if i_core_1_1 (i_extension_enables instance_map_data) then
    lookup_command
      [ ("vkEnumeratePhysicalDeviceGroups2", Fn_EnumeratePhysicalDeviceGroups);
        ("vkGetPhysicalDeviceProperties2", Fn_GetPhysicalDeviceProperties2);
        ("vkGetPhysicalDeviceMemoryProperties2", Fn_GetPhysicalDeviceMemoryProperties2)
      ]%string name
  else None.

Definition ImplementedInstanceExtensionCommands (instance_map_data : InstanceMapStruct)
    (name : string) : PFN_vkVoidFunction :=
  let enables := i_extension_enables instance_map_data in
  search_groups
    [ (KHR_device_group_create enables,
        [ ("vkEnumeratePhysicalDeviceGroupsKHR", Fn_EnumeratePhysicalDeviceGroups) ]);
      (KHR_get_phys_dev_props2 enables,
        [ ("vkGetPhysicalDeviceProperties2KHR", Fn_GetPhysicalDeviceProperties2);
          ("vkGetPhysicalDeviceMemoryProperties2KHR",
            Fn_GetPhysicalDeviceMemoryProperties2) ]) ]%string name.

(** [if (supported == nullptr || supported->core_1_1)]. *)
Definition ImplementedDeviceExtensionCommands (supported : option DeviceExtensions)
    (name : string) : PFN_vkVoidFunction :=
  if match supported with None => true | Some supported => core_1_1 supported end then
    lookup_command
      [ ("vkGetImageMemoryRequirements2", Fn_GetImageMemoryRequirements2);
        ("vkGetBufferMemoryRequirements2", Fn_GetBufferMemoryRequirements2);
        ("vkBindBufferMemory2", Fn_BindBufferMemory2);
        ("vkBindImageMemory2", Fn_BindImageMemory2) ]%string name
  else None.

Definition GetInstanceProcAddr (instance : VkInstance) (funcName : string)
    (next_proc : PFN_vkVoidFunction) : M PFN_vkVoidFunction :=
  or_else (Tracker.ImplementedInstanceCommands funcName)
    (if is_null instance then mret None
     else
       s ← get_tables;
       match GetInstanceMapEntry s instance with
       | None => mret None
       | Some instance_map_data =>
           or_else (ImplementedInstanceNewerCoreCommands instance_map_data funcName)
          (or_else (ImplementedInstanceExtensionCommands instance_map_data funcName)
          (or_else (Tracker.ImplementedDeviceCommands funcName)
          (or_else (ImplementedDeviceExtensionCommands None funcName)
             match i_dispatch_table instance_map_data with
             | None => mret None
             | Some table =>
                 if has_GetProcAddr table then
                   forward (DC_GetInstanceProcAddr instance funcName);; mret next_proc
                 else mret None
             end)))
       end).

Definition GetDeviceProcAddr (dev : VkDevice) (funcName : string)
    (next_proc : PFN_vkVoidFunction) : M PFN_vkVoidFunction :=
  or_else (Tracker.ImplementedDeviceCommands funcName)
    (s ← get_tables;
     device_map_entry ← deref (GetDeviceMapEntry s dev);
     phys_dev_map_entry ←
       deref (GetPhysicalDeviceMapEntry s (physical_device device_map_entry));
     or_else (ImplementedDeviceExtensionCommands
                (Some (extensions_supported phys_dev_map_entry)) funcName)
       match d_dispatch_table device_map_entry with
       | None => mret None
       | Some pDisp =>
           if has_GetProcAddr pDisp then
             forward (DC_GetDeviceProcAddr dev funcName);; mret next_proc
           else mret None
       end).

Definition DestroyDevice (device : VkDevice) : M unit :=
  s ← get_tables;
  device_map_data ← deref (GetDeviceMapEntry s device);
  forward_device device_map_data (DC_DestroyDevice device);;
  modify (EraseDeviceMapEntry device).

End Tracker0.

(** ** The slow device simulator, [src/layersvt/slow_device_simulator.cpp] *)

Module Simulator.

(** *** Memory budget *)

(** [static_cast<double>] of an unsigned integer: binary64, round to
    nearest even. *)
Definition double_of_Z (z : Z) : spec_float := binary_normalize 53 1024 z 0 false.

(** [static_cast<VkDeviceSize>] of a double: truncation; outside
    [0, 2^64) the conversion is undefined. *)
Definition uint64_of_double (x : spec_float) : option Z :=
  match x with
  | S754_zero _ => Some 0
  | S754_finite false m e =>
      let z := if 0 <=? e then Z.pos m * 2 ^ e else Z.pos m / 2 ^ (- e) in
      if z <? 2 ^ 64 then Some z else None
  | S754_finite true m e =>
      if (e <? 0) && (Z.pos m / 2 ^ (- e) =? 0) then Some 0 else None
  | _ => None
  end.

Definition AdjustMemoryByPercent (in_size : VkDeviceSize) (percent : Z) : option VkDeviceSize :=
  let double_size := double_of_Z in_size in
  let double_perc := SFdiv 53 1024 (double_of_Z percent) (double_of_Z 100) in
  let adjusted_size := SFmul 53 1024 double_size double_perc in
  uint64_of_double adjusted_size.

(** The heap loop of [ManageMemoryProperties] updates three arrays: the
    layer's heaps, the heaps of the structure handed back to the
    application, and the application's [heapUsage]. *)
Definition manage_heap (percent : Z) (heapBudget : option (list VkDeviceSize)) (heap : nat)
    (acc : list MemoryHeapWithBudget * list VkMemoryHeap * option (list VkDeviceSize))
    : option (list MemoryHeapWithBudget * list VkMemoryHeap * option (list VkDeviceSize)) :=
  let '(local, vulkan_heaps, usage_array) := acc in
  '(vulkan_heaps, usage_array) ←
    (if percent <? 100 then
       h ← vulkan_heaps !! heap;
       new_size ← AdjustMemoryByPercent (vk_size h) (wrap32 percent);
       vulkan_heaps ← array_store heap {| vk_size := new_size; vk_flags := vk_flags h |}
                        vulkan_heaps;
       match usage_array with
       | Some us =>
           u ← us !! heap;
           new_usage ← AdjustMemoryByPercent u (wrap32 percent);
           us ← array_store heap new_usage us;
           Some (vulkan_heaps, Some us)
       | None => Some (vulkan_heaps, None)
       end
     else Some (vulkan_heaps, usage_array));
  h ← vulkan_heaps !! heap;
  old ← local !! heap;
  match usage_array, heapBudget with
  | Some us, Some bs =>
      u ← us !! heap;
      b ← bs !! heap;
      local ← array_store heap {| heap_size := vk_size h; allocated := allocated old;
                                  budget := b; usage := u; flags := vk_flags h |} local;
      Some (local, vulkan_heaps, usage_array)
  | _, _ =>
      local ← array_store heap {| heap_size := vk_size h; allocated := allocated old;
                                  budget := 0; usage := 0; flags := vk_flags h |} local;
      Some (local, vulkan_heaps, usage_array)
  end.

(** The result is the updated record of the physical device together with
    the two structures of the application as the function leaves them;
    [None] when an array is indexed outside its bounds or a conversion is
    undefined. *)
Definition ManageMemoryProperties (phys_dev_data_entry : PhysDeviceMapStruct)
    (vulkan_props : VkPhysicalDeviceMemoryProperties)
    (budget_props : option VkPhysicalDeviceMemoryBudgetPropertiesEXT)
    : option (PhysDeviceMapStruct * VkPhysicalDeviceMemoryProperties *
              option VkPhysicalDeviceMemoryBudgetPropertiesEXT) :=
  let local_props := memory_props phys_dev_data_entry in
  types ← copy_memory_types vulkan_props (memoryTypes local_props);
  '(heaps, vulkan_heaps, usage_array) ←
    for_index (vk_memoryHeapCount vulkan_props)
      (manage_heap (memory_percent phys_dev_data_entry) (heapBudget <$> budget_props))
      (memoryHeaps local_props, vk_memoryHeaps vulkan_props, heapUsage <$> budget_props);
  let local_props' :=
    {| memoryTypeCount := vk_memoryTypeCount vulkan_props; memoryTypes := types;
       memoryHeapCount := vk_memoryHeapCount vulkan_props; memoryHeaps := heaps |} in
  let entry := set_memory_props local_props' phys_dev_data_entry in
  let entry :=
    match budget_props with
    | Some _ =>
        if 0 <? Z.of_nat (Z.to_nat (vk_memoryHeapCount vulkan_props))
        then set_memory_budget_updated true entry else entry
    | None => entry
    end in
  Some (entry,
        {| vk_memoryTypeCount := vk_memoryTypeCount vulkan_props;
           vk_memoryTypes := vk_memoryTypes vulkan_props;
           vk_memoryHeapCount := vk_memoryHeapCount vulkan_props;
           vk_memoryHeaps := vulkan_heaps |},
        match budget_props, usage_array with
        | Some b, Some us => Some {| heapBudget := heapBudget b; heapUsage := us |}
        | _, _ => budget_props
        end).

(** [pMemoryProperties] is the structure of the application after the
    forwarded query filled it; the result is what the application sees. *)
Definition GetPhysicalDeviceMemoryProperties2 (fuel : nat) (physicalDevice : VkPhysicalDevice)
    (pMemoryProperties : option VkPhysicalDeviceMemoryProperties2)
    : M (option (VkPhysicalDeviceMemoryProperties *
                 option VkPhysicalDeviceMemoryBudgetPropertiesEXT)) :=
  s ← get_tables;
  phys_dev_data_entry ← deref (GetPhysicalDeviceMapEntry s physicalDevice);
  instance_data_entry ← deref (GetInstanceMapEntry s (pd_instance phys_dev_data_entry));
  deref (i_dispatch_table instance_data_entry);;
  forward (DC_GetPhysicalDeviceMemoryProperties2 physicalDevice);;
  match pMemoryProperties with
  | Some props =>
      if pd_layer_enabled phys_dev_data_entry then
        mem_budget ← run_budget_search fuel (pNext props);
        '(entry, vulkan_props, budget_props) ←
          deref (ManageMemoryProperties phys_dev_data_entry (memoryProperties props)
                   mem_budget);
        modify (set_phys_device_map (<[physicalDevice := entry]>));;
        mret (Some (vulkan_props, budget_props))
      else mret (Some (memoryProperties props, None))
  | None => mret None
  end.

Definition DestroyDevice (device : VkDevice) : M unit :=
  s ← get_tables;
  device_map_data ← deref (GetDeviceMapEntry s device);
  forward_device device_map_data (DC_DestroyDevice device);;
  modify (EraseExternalMemFdMapEntries device);;
  s ← get_tables;
  deref (GetPhysicalDeviceMapEntry s (physical_device device_map_data));;
  modify (EraseDeviceMapEntry device).

Definition DestroyBuffer (device : VkDevice) (buffer : VkBuffer) : M unit :=
  s ← get_tables;
  device_map_data ← deref (GetDeviceMapEntry s device);
  forward_device device_map_data (DC_DestroyBuffer device buffer);;
  modify (EraseBufferMapEntry buffer).

Definition DestroyImage (device : VkDevice) (image : VkImage) : M unit :=
  s ← get_tables;
  device_map_data ← deref (GetDeviceMapEntry s device);
  forward_device device_map_data (DC_DestroyImage device image);;
  modify (EraseImageMapEntry image).

(** [&phys->memory_props.memoryHeaps[memoryTypes[memoryTypeIndex].heapIndex]]:
    the index of the heap and the heap. *)
Definition budget_heap_of (phys : PhysDeviceMapStruct) (memoryTypeIndex : Z)
    : option (nat * MemoryHeapWithBudget) :=
  type ← memoryTypes (memory_props phys) !! Z.to_nat memoryTypeIndex;
  let heap := Z.to_nat (heapIndex type) in
  budget_heap ← memoryHeaps (memory_props phys) !! heap;
  Some (heap, budget_heap).

Definition store_budget_heap (physical_device : VkPhysicalDevice) (phys : PhysDeviceMapStruct)
    (heap : nat) (budget_heap : MemoryHeapWithBudget) : State → State :=
  set_phys_device_map
    (<[physical_device :=
         set_memory_props
           (set_memoryHeaps (<[heap := budget_heap]> (memoryHeaps (memory_props phys)))
              (memory_props phys)) phys]>).

(** The check in front of the forwarded call: [true] when the function
    returns [VK_ERROR_OUT_OF_DEVICE_MEMORY] there. *)
Definition over_budget (device_map_data : DeviceMapStruct)
    (phys_device_map_data : option PhysDeviceMapStruct)
    (pAllocateInfo : option VkMemoryAllocateInfo) : M bool :=
  if d_layer_enabled device_map_data then
    match pAllocateInfo with
    | Some info =>
        phys ← deref phys_device_map_data;
        if memory_percent phys <? 100 then
          '(_, budget_heap) ← deref (budget_heap_of phys (memoryTypeIndex info));
          let potential_alloc := wrap64 (allocated budget_heap + allocationSize info) in
          if 0 <? budget budget_heap then mret (budget budget_heap <? potential_alloc)
          else mret (heap_size budget_heap <? potential_alloc)
        else mret false
    | None => mret false
    end
  else mret false.

Definition AllocateMemory (device : VkDevice) (pAllocateInfo : option VkMemoryAllocateInfo)
    (next_result : VkResult) (next_memory : VkDeviceMemory) : M VkResult :=
  s ← get_tables;
  device_map_data ← deref (GetDeviceMapEntry s device);
  let phys_device_map_data :=
    GetPhysicalDeviceMapEntry s (physical_device device_map_data) in
  rejected ← over_budget device_map_data phys_device_map_data pAllocateInfo;
  if rejected : bool then mret VK_ERROR_OUT_OF_DEVICE_MEMORY
  else
    forward_device device_map_data (DC_AllocateMemory device pAllocateInfo);;
    let result := next_result in
    when (d_layer_enabled device_map_data && is_success result)
      (info ← deref pAllocateInfo;
       let memory_map_data :=
         {| m_device := device; alloc_info := info; buffers := []; images := [] |} in
       modify (set_memory_map (<[next_memory := memory_map_data]>));;
       phys ← deref phys_device_map_data;
       when (memory_percent phys <? 100)
         ('(heap, budget_heap) ← deref (budget_heap_of phys (memoryTypeIndex info));
          modify (store_budget_heap (physical_device device_map_data) phys heap
                    (set_allocated
                       (wrap64 (allocated budget_heap + allocationSize info))
                       budget_heap))));;
    mret result.

(** [g_memory_map[memory]] inserts a null pointer for a handle that has no
    entry, and the next statement reads through it. *)
Definition FreeMemory (device : VkDevice) (memory : VkDeviceMemory) : M unit :=
  s ← get_tables;
  device_map_data ← deref (GetDeviceMapEntry s device);
  forward_device device_map_data (DC_FreeMemory device memory);;
  when (d_layer_enabled device_map_data)
    (phys_device_map_data ←
       deref (GetPhysicalDeviceMapEntry s (physical_device device_map_data));
     when (memory_percent phys_device_map_data <? 100)
       (memory_map_data ← deref (g_memory_map s !! memory);
        '(heap, budget_heap) ←
          deref (budget_heap_of phys_device_map_data
                   (memoryTypeIndex (alloc_info memory_map_data)));
        modify (store_budget_heap (physical_device device_map_data) phys_device_map_data heap
                  (set_allocated
                     (wrap64 (allocated budget_heap
                              - allocationSize (alloc_info memory_map_data)))
                     budget_heap)));;
     modify (EraseMemoryMapEntry memory)).

Definition BindBufferMemory (ndebug : bool) (device : VkDevice) (buffer : VkBuffer)
    (memory : VkDeviceMemory) (memoryOffset : VkDeviceSize) (next_result : VkResult)
    : M VkResult :=
  s ← get_tables;
  device_map_data ← deref (GetDeviceMapEntry s device);
  forward_device device_map_data (DC_BindBufferMemory device buffer memory memoryOffset);;
  let result := next_result in
  when (d_layer_enabled device_map_data && is_success result && negb (is_null buffer))
    (bind_buffer ndebug device buffer memory memoryOffset;;
     mark_bindings_updated device device_map_data);;
  mret result.

Definition BindImageMemory (ndebug : bool) (device : VkDevice) (image : VkImage)
    (memory : VkDeviceMemory) (memoryOffset : VkDeviceSize) (next_result : VkResult)
    : M VkResult :=
  s ← get_tables;
  device_map_data ← deref (GetDeviceMapEntry s device);
  forward_device device_map_data (DC_BindImageMemory device image memory memoryOffset);;
  let result := next_result in
  when (d_layer_enabled device_map_data && is_success result && negb (is_null image))
    (bind_image ndebug device image memory memoryOffset no_additional_image_memory_info;;
     mark_bindings_updated device device_map_data);;
  mret result.

Definition BindBufferMemory2 (ndebug : bool) (device : VkDevice)
    (pBindInfos : list VkBindBufferMemoryInfo) (next_result : VkResult) : M VkResult :=
  s ← get_tables;
  device_map_data ← deref (GetDeviceMapEntry s device);
  forward_device device_map_data (DC_BindBufferMemory2 device pBindInfos);;
  let result := next_result in
  when (d_layer_enabled device_map_data && is_success result)
    (for_each (bind_buffer_info ndebug device) pBindInfos;;
     mark_bindings_updated device device_map_data);;
  mret result.

Definition BindImageMemory2 (ndebug : bool) (device : VkDevice)
    (pBindInfos : list VkBindImageMemoryInfo) (next_result : VkResult) : M VkResult :=
  s ← get_tables;
  device_map_data ← deref (GetDeviceMapEntry s device);
  forward_device device_map_data (DC_BindImageMemory2 device pBindInfos);;
  let result := next_result in
  when (d_layer_enabled device_map_data && is_success result)
    (for_each (bind_image_info ndebug device) pBindInfos;;
     mark_bindings_updated device device_map_data);;
  mret result.

(** *** Fences *)

(** [g_fence_map[fence]]: a handle without an entry gets one, holding a
    null pointer. *)
Definition index_fence_map (fence : VkFence) : M (option FenceMapStruct) :=
  s ← get_tables;
  match g_fence_map s !! fence with
  | Some p => mret p
  | None => modify (set_fence_map (<[fence := None]>));; mret None
  end.

(** A write through [fence_map_data]. *)
Definition store_fence (fence : VkFence) (f : FenceMapStruct) : M unit :=
  modify (set_fence_map (<[fence := Some f]>)).

Definition VK_FENCE_CREATE_SIGNALED_BIT : Z := 1.

(** [next_result] and [next_fence] are the result and the [*pFence] of the
    forwarded [vkCreateFence]. *)
Definition CreateFence (device : VkDevice) (create_flags : Z) (next_result : VkResult)
    (next_fence : VkFence) : M VkResult :=
  s ← get_tables;
  device_map_data ← deref (GetDeviceMapEntry s device);
  forward_device device_map_data (DC_CreateFence device create_flags);;
  let result := next_result in
  when (d_layer_enabled device_map_data && is_success result)
    (store_fence next_fence
       {| f_device := device;
          signalled := negb (Z.land create_flags VK_FENCE_CREATE_SIGNALED_BIT =? 0);
          wait_started := false; wait_completed := false;
          delay_type := fence_delay_type device_map_data;
          delay_count := wrap32 (fence_delay_count device_map_data);
          elapsed_count := 0; start_time := 0 |});;
  mret result.

Definition DestroyFence (device : VkDevice) (fence : VkFence) : M unit :=
  s ← get_tables;
  device_map_data ← deref (GetDeviceMapEntry s device);
  forward_device device_map_data (DC_DestroyFence device fence);;
  when (d_layer_enabled device_map_data) (modify (EraseFenceMapEntry fence)).

Definition reset_fence (fence : VkFence) : M unit :=
  fence_map_data ← index_fence_map fence;
  match fence_map_data with
  | None => mret tt
  | Some f =>
      store_fence fence
        (set_elapsed_count 0
           (set_wait_completed false (set_wait_started false (set_signalled false f))))
  end.

Definition ResetFences (device : VkDevice) (pFences : list N) (next_result : VkResult)
    : M VkResult :=
  s ← get_tables;
  device_map_data ← deref (GetDeviceMapEntry s device);
  when (d_layer_enabled device_map_data) (for_each reset_fence pFences);;
  forward_device device_map_data (DC_ResetFences device pFences);;
  mret next_result.

(** [duration_cast<milliseconds>(cur_time - start_time).count()]. *)
Definition milliseconds_since (start cur_time : Z) : Z :=
  Z.quot (cur_time - start) 1000000.

(** The [switch] of [GetFenceStatus] on the delay type. *)
Definition advance_on_status (f : FenceMapStruct) : M FenceMapStruct :=
  match delay_type f with
  | FENCE_DELAY_MS_FROM_TRIGGER =>
      cur_time ← now;
      mret (set_elapsed_count
              (wrap32 (elapsed_count f + milliseconds_since (start_time f) cur_time)) f)
  | FENCE_DELAY_MS_FROM_FIRST_QUERY =>
      cur_time ← now;
      if wait_started f then
        mret (set_elapsed_count
                (wrap32 (elapsed_count f + milliseconds_since (start_time f) cur_time)) f)
      else mret (set_start_time cur_time f)
  | FENCE_DELAY_NUM_FAIL_WAITS => mret (set_elapsed_count (wrap32 (elapsed_count f + 1)) f)
  | FENCE_DELAY_NONE => mret f
  end.

(** The part of [GetFenceStatus] in front of the forwarded call: [false]
    when the function returns [VK_NOT_READY] there. *)
Definition status_gate (fence : VkFence) : M bool :=
  fence_map_data ← index_fence_map fence;
  match fence_map_data with
  | Some f =>
      if negb (is_delay_none (delay_type f)) then
        f ← advance_on_status f;
        let f := if wait_started f then f else set_wait_started true f in
        if negb (signalled f) || (elapsed_count f <? delay_count f) then
          store_fence fence f;; mret false
        else store_fence fence (set_wait_completed true f);; mret true
      else mret true
  | None => mret true
  end.

Definition GetFenceStatus (device : VkDevice) (fence : VkFence) (next_result : VkResult)
    : M VkResult :=
  s ← get_tables;
  device_map_data ← deref (GetDeviceMapEntry s device);
  ready ← (if d_layer_enabled device_map_data then status_gate fence else mret true);
  if ready : bool then
    forward_device device_map_data (DC_GetFenceStatus device fence);;
    mret next_result
  else mret VK_NOT_READY.

(** What the [switch] of [WaitForFences] leaves in its local variables. *)
Record WaitLocals : Type := {
  can_timeout : bool;
  can_sleep : bool;
  sleep_time : Z }.

Definition ms_wait_locals (milliseconds_till_timeout : Z) (f : FenceMapStruct) : WaitLocals :=
  if (0 <? milliseconds_till_timeout) && (elapsed_count f <? delay_count f) then
    {| can_timeout := true; can_sleep := true;
       sleep_time := wrap32 (delay_count f - elapsed_count f) |}
  else {| can_timeout := true; can_sleep := false; sleep_time := 0 |}.

Definition advance_on_wait (timeout milliseconds_till_timeout : Z) (f : FenceMapStruct)
    : M (FenceMapStruct * WaitLocals) :=
  match delay_type f with
  | FENCE_DELAY_MS_FROM_TRIGGER =>
      cur_time ← now;
      let f := set_elapsed_count
                 (wrap32 (elapsed_count f + milliseconds_since (start_time f) cur_time)) f in
      mret (f, ms_wait_locals milliseconds_till_timeout f)
  | FENCE_DELAY_MS_FROM_FIRST_QUERY =>
      cur_time ← now;
      let f := if wait_started f then
                 set_elapsed_count
                   (wrap32 (elapsed_count f + milliseconds_since (start_time f) cur_time)) f
               else set_start_time cur_time f in
      mret (f, ms_wait_locals milliseconds_till_timeout f)
  | FENCE_DELAY_NUM_FAIL_WAITS =>
      if 1000000000 <=? timeout then
        mret (f, {| can_timeout := false; can_sleep := true;
                    sleep_time := wrap32 (delay_count f * 10) |})
      else
        mret (set_elapsed_count (wrap32 (elapsed_count f + 1)) f,
              {| can_timeout := true; can_sleep := false; sleep_time := 0 |})
  | FENCE_DELAY_NONE =>
      mret (f, {| can_timeout := true; can_sleep := false; sleep_time := 0 |})
  end.

(** [delay_count > total_max_elapsed_count] under [can_timeout]: the fence
    is held back by its delay in this wait. *)
Definition held_back (milliseconds_till_timeout : Z) (f : FenceMapStruct) (l : WaitLocals)
    : bool :=
  let total_max_elapsed_count :=
    if can_sleep l then wrap32 (elapsed_count f + milliseconds_till_timeout)
    else elapsed_count f in
  can_timeout l && (negb (signalled f) || (total_max_elapsed_count <? delay_count f)).

(** The loop over [pFences]: [None] is the [return VK_TIMEOUT] inside the
    loop, [Some] the vector [wait_for_fences] at the end of the loop. *)
Fixpoint wait_loop (waitAll : bool) (timeout milliseconds_till_timeout : Z)
    (pFences : list N) (wait_for_fences : list N) : M (option (list N)) :=
  match pFences with
  | [] => mret (Some wait_for_fences)
  | fence :: rest =>
      fence_map_data ← index_fence_map fence;
      match fence_map_data with
      | Some f =>
          if signalled f && negb (is_delay_none (delay_type f)) then
            '(f, locals) ← advance_on_wait timeout milliseconds_till_timeout f;
            let f := if wait_started f then f else set_wait_started true f in
            if held_back milliseconds_till_timeout f locals then
              store_fence fence f;;
              if waitAll then mret None
              else wait_loop waitAll timeout milliseconds_till_timeout rest wait_for_fences
            else
              when (can_sleep locals && negb (sleep_time locals =? 0))
                (sleep_for (sleep_time locals));;
              store_fence fence (set_wait_completed true f);;
              wait_loop waitAll timeout milliseconds_till_timeout rest
                (wait_for_fences ++ [fence])
          else
            wait_loop waitAll timeout milliseconds_till_timeout rest
              (wait_for_fences ++ [fence])
      | None =>
          wait_loop waitAll timeout milliseconds_till_timeout rest
            (wait_for_fences ++ [fence])
      end
  end.

(** [fenceCount] is the length of [pFences]. *)
Definition WaitForFences (device : VkDevice) (pFences : list N) (waitAll : bool)
    (timeout : Z) (next_result : VkResult) : M VkResult :=
  s ← get_tables;
  device_map_data ← deref (GetDeviceMapEntry s device);
  if d_layer_enabled device_map_data then
    let milliseconds_till_timeout := wrap32 (timeout / 1000000) in
    collected ← wait_loop waitAll timeout milliseconds_till_timeout pFences [];
    match collected with
    | None => mret VK_TIMEOUT
    | Some wait_for_fences =>
        if (0 <? Z.of_nat (length pFences)) && (length wait_for_fences =? 0)%nat then
          mret VK_TIMEOUT
        else
          forward_device device_map_data
            (DC_WaitForFences device wait_for_fences waitAll timeout);;
          mret next_result
    end
  else
    forward_device device_map_data (DC_WaitForFences device pFences waitAll timeout);;
    mret next_result.

(** "If a fence is there, and we need to signal it, do so." *)
Definition signal_fence (fence : VkFence) : M unit :=
  when (negb (is_null fence))
    (fence_map_data ← index_fence_map fence;
     match fence_map_data with
     | Some f =>
         if negb (is_delay_none (delay_type f)) then
           f ← match delay_type f with
               | FENCE_DELAY_MS_FROM_TRIGGER =>
                   cur_time ← now; mret (set_start_time cur_time f)
               | _ => mret f
               end;
           store_fence fence (set_signalled true f)
         else mret tt
     | None => mret tt
     end).

Definition AcquireNextImageKHR (device : VkDevice) (swapchain : VkSwapchainKHR)
    (timeout : Z) (semaphore : VkSemaphore) (fence : VkFence) (next_result : VkResult)
    : M VkResult :=
  s ← get_tables;
  device_map_data ← deref (GetDeviceMapEntry s device);
  when (d_layer_enabled device_map_data) (signal_fence fence);;
  forward_device device_map_data
    (DC_AcquireNextImageKHR device swapchain timeout semaphore fence);;
  mret next_result.

(** [g_queue_to_device_map[queue]]: a queue without an entry gets one,
    holding the null device. *)
Definition index_queue_map (queue : VkQueue) : M VkDevice :=
  s ← get_tables;
  match g_queue_to_device_map s !! queue with
  | Some device => mret device
  | None =>
      modify (set_queue_to_device_map (<[queue := VK_NULL_HANDLE]>));;
      mret VK_NULL_HANDLE
  end.

Definition QueueBindSparse (queue : VkQueue) (fence : VkFence) (next_result : VkResult)
    : M VkResult :=
  device ← index_queue_map queue;
  s ← get_tables;
  device_map_data ← deref (GetDeviceMapEntry s device);
  when (d_layer_enabled device_map_data) (signal_fence fence);;
  forward_device device_map_data (DC_QueueBindSparse queue fence);;
  mret next_result.

(** [next_props] and [next_budget] are what the nested memory query gets
    from the next link. *)
Definition QueueSubmit (queue : VkQueue) (fence : VkFence) (next_result : VkResult)
    (next_props : VkPhysicalDeviceMemoryProperties)
    (next_budget : VkPhysicalDeviceMemoryBudgetPropertiesEXT) : M VkResult :=
  device ← index_queue_map queue;
  s ← get_tables;
  device_map_data ← deref (GetDeviceMapEntry s device);
  forward_device device_map_data (DC_QueueSubmit queue fence);;
  let result := next_result in
  when (d_layer_enabled device_map_data && is_success result)
    (signal_fence fence;;
     when (memory_bindings_updated device_map_data)
       (s ← get_tables;
        phys_dev_data_entry ←
          deref (GetPhysicalDeviceMapEntry s (physical_device device_map_data));
        when (negb (memory_budget_updated phys_dev_data_entry))
          (GetPhysicalDeviceMemoryProperties2 1 (physical_device device_map_data)
             (Some {| pNext := [MemoryBudgetPropertiesEXT next_budget];
                      memoryProperties := next_props |});;
           mret tt);;
        modify (set_device_map
          (<[device := set_memory_bindings_updated false device_map_data]>))));;
  mret result.

(** *** Instance-level queries *)

(** [result] of the outer scope is never assigned on the enabled path (the
    inner declaration shadows it); [indeterminate] is the value the
    function then returns.  The second component is [*pToolCount] at the
    end, [next_count] being its value after the forwarded call. *)
Definition GetPhysicalDeviceToolPropertiesEXT (physicalDevice : VkPhysicalDevice)
    (pToolCount : Z) (has_pToolProperties : bool) (next_result : VkResult)
    (next_count : Z) (indeterminate : VkResult) : M (VkResult * Z) :=
  s ← get_tables;
  phys_dev_data_entry ← deref (GetPhysicalDeviceMapEntry s physicalDevice);
  let instance_data_entry := GetInstanceMapEntry s (pd_instance phys_dev_data_entry) in
  if pd_layer_enabled phys_dev_data_entry then
    let pToolCount := if has_pToolProperties then wrap32 (pToolCount - 1) else pToolCount in
    instance_data_entry ← deref instance_data_entry;
    deref (i_dispatch_table instance_data_entry);;
    forward (DC_GetPhysicalDeviceToolPropertiesEXT physicalDevice pToolCount);;
    mret (indeterminate, wrap32 (next_count + 1))
  else
    instance_data_entry ← deref instance_data_entry;
    deref (i_dispatch_table instance_data_entry);;
    forward (DC_GetPhysicalDeviceToolPropertiesEXT physicalDevice pToolCount);;
    mret (next_result, next_count).

(** [util_result] is what [util_GetExtensionProperties] returns; it is
    assigned to [result] and the function then returns the constant. *)
Definition layerName : string := "VK_LAYER_LUNARG_slow_device_simulator".

Definition EnumerateInstanceExtensionProperties (pLayerName : option string)
    (util_result : VkResult) : VkResult :=
  let result := VK_ERROR_LAYER_NOT_PRESENT in
  let result :=
    match pLayerName with
    | Some name => if String.eqb name layerName then util_result else result
    | None => result
    end in
  VK_ERROR_LAYER_NOT_PRESENT.

(** *** Symbol resolution *)

Definition ImplementedInstanceCommands (name : string) : PFN_vkVoidFunction :=
  lookup_command Tracker.base_instance_commands name.

Definition ImplementedInstanceNewerCoreCommands (instance_map_data : InstanceMapStruct)
    (name : string) : PFN_vkVoidFunction :=
  Tracker.ImplementedInstanceNewerCoreCommands instance_map_data name.

Definition ImplementedInstanceExtensionCommands (instance_map_data : InstanceMapStruct)
    (name : string) : PFN_vkVoidFunction :=
  Tracker.ImplementedInstanceExtensionCommands instance_map_data name.

Definition core_device_commands : list (string * LayerFn) :=
  [ ("vkGetDeviceProcAddr", Fn_GetDeviceProcAddr);
    ("vkCreateDevice", Fn_CreateDevice);
    ("vkDestroyDevice", Fn_DestroyDevice);
    ("vkCreateBuffer", Fn_CreateBuffer);
    ("vkDestroyBuffer", Fn_DestroyBuffer);
    ("vkCreateImage", Fn_CreateImage);
    ("vkDestroyImage", Fn_DestroyImage);
    ("vkAllocateMemory", Fn_AllocateMemory);
    ("vkFreeMemory", Fn_FreeMemory);
    ("vkBindBufferMemory", Fn_BindBufferMemory);
    ("vkBindImageMemory", Fn_BindImageMemory);
    ("vkGetBufferMemoryRequirements", Fn_GetBufferMemoryRequirements);
    ("vkGetImageMemoryRequirements", Fn_GetImageMemoryRequirements);
    ("vkGetDeviceQueue", Fn_GetDeviceQueue);
    ("vkQueueBindSparse", Fn_QueueBindSparse);
    ("vkQueueSubmit", Fn_QueueSubmit);
    ("vkCreateFence", Fn_CreateFence);
    ("vkDestroyFence", Fn_DestroyFence);
    ("vkResetFences", Fn_ResetFences);
    ("vkGetFenceStatus", Fn_GetFenceStatus);
    ("vkWaitForFences", Fn_WaitForFences) ]%string.

Definition ImplementedDeviceCommands (name : string) : PFN_vkVoidFunction :=
  lookup_command core_device_commands name.

Definition ImplementedDeviceExtensionCommands (supported : option DeviceExtensions)
    (name : string) : PFN_vkVoidFunction :=
  match supported with
  | Some supported =>
      search_groups
        [ (core_1_1 supported,
            [ ("vkGetImageMemoryRequirements2", Fn_GetImageMemoryRequirements2);
              ("vkGetBufferMemoryRequirements2", Fn_GetBufferMemoryRequirements2);
              ("vkBindBufferMemory2", Fn_BindBufferMemory2);
              ("vkBindImageMemory2", Fn_BindImageMemory2) ]);
          (core_1_3 supported, [ ("vkQueueSubmit2", Fn_QueueSubmit2) ]);
          (KHR_external_mem_fd supported,
            [ ("vkGetMemoryFdPropertiesKHR", Fn_GetMemoryFdPropertiesKHR) ]);
          (KHR_sync2 supported, [ ("vkQueueSubmit2KHR", Fn_QueueSubmit2) ]);
          (KHR_swapchain supported,
            [ ("vkAcquireNextImageKHR", Fn_AcquireNextImageKHR);
              ("vkAcquireNextImage2KHR", Fn_AcquireNextImage2KHR);
              ("vkQueuePresentKHR", Fn_QueuePresentKHR) ]);
          (EXT_display_control supported,
            [ ("vkRegisterDeviceEventEXT", Fn_RegisterDeviceEventEXT);
              ("vkRegisterDisplayEventEXT", Fn_RegisterDisplayEventEXT) ]) ]%string name
  | None => None
  end.

Definition GetInstanceProcAddr (instance : VkInstance) (funcName : string)
    (next_proc : PFN_vkVoidFunction) : M PFN_vkVoidFunction :=
  or_else (ImplementedInstanceCommands funcName)
    (if is_null instance then mret None
     else
       s ← get_tables;
       match GetInstanceMapEntry s instance with
       | None => mret None
       | Some instance_map_data =>
           or_else (ImplementedInstanceNewerCoreCommands instance_map_data funcName)
          (or_else (ImplementedInstanceExtensionCommands instance_map_data funcName)
          (or_else (ImplementedDeviceCommands funcName)
          (or_else (ImplementedDeviceExtensionCommands None funcName)
             match i_dispatch_table instance_map_data with
             | None => mret None
             | Some table =>
                 if has_GetProcAddr table then
                   forward (DC_GetInstanceProcAddr instance funcName);; mret next_proc
                 else mret None
             end)))
       end).

Definition GetDeviceProcAddr (dev : VkDevice) (funcName : string)
    (next_proc : PFN_vkVoidFunction) : M PFN_vkVoidFunction :=
  or_else (ImplementedDeviceCommands funcName)
    (s ← get_tables;
     device_map_entry ← deref (GetDeviceMapEntry s dev);
     phys_dev_map_entry ←
       deref (GetPhysicalDeviceMapEntry s (physical_device device_map_entry));
     or_else (ImplementedDeviceExtensionCommands
                (Some (extensions_supported phys_dev_map_entry)) funcName)
       match d_dispatch_table device_map_entry with
       | None => mret None
       | Some pDisp =>
           if has_GetProcAddr pDisp then
             forward (DC_GetDeviceProcAddr dev funcName);; mret next_proc
           else mret None
       end).

End Simulator.

(** * Properties

    Definitions used to state the properties, and the worlds on which the
    statements are instantiated. *)

(** ** What an entry point returned and left behind *)

Definition returned {A : Type} (o : Outcome A) : option A :=
  match o with Done a _ => Some a | _ => None end.

Definition world_after {A : Type} (o : Outcome A) : option World :=
  match o with Done _ w => Some w | _ => None end.

Definition tables_after {A : Type} (o : Outcome A) : option State :=
  tables <$> world_after o.

Definition fence_after {A : Type} (fence : VkFence) (o : Outcome A)
    : option (option FenceMapStruct) :=
  s ← tables_after o; g_fence_map s !! fence.

(** The calls an entry point forwarded, in order. *)
Definition forwarded (t : list Event) : list DownCall :=
  omap (λ e, match e with Forwarded c => Some c | SleptFor _ => None end) t.

(** ** The six erase operations of the registry *)

Inductive EraseOp : Type :=
  | EraseBuffer | EraseImage | EraseMemory | EraseFence | EraseDevice | EraseInstance.

Definition erase (op : EraseOp) (h : N) : State → State :=
  match op with
  | EraseBuffer => EraseBufferMapEntry h
  | EraseImage => EraseImageMapEntry h
  | EraseMemory => EraseMemoryMapEntry h
  | EraseFence => EraseFenceMapEntry h
  | EraseDevice => EraseDeviceMapEntry h
  | EraseInstance => EraseInstanceMapEntry h
  end.

(** The handle has no record: the lookup of the erase function finds
    nothing (for a fence also: finds a null pointer). *)
Definition absent (op : EraseOp) (h : N) (s : State) : Prop :=
  match op with
  | EraseBuffer => GetBufferMapEntry s h = None
  | EraseImage => GetImageMapEntry s h = None
  | EraseMemory => GetMemoryMapEntry s h = None
  | EraseFence => GetFenceMapEntry s h = None
  | EraseDevice => GetDeviceMapEntry s h = None
  | EraseInstance => GetInstanceMapEntry s h = None
  end.

(** ** A world with one instance, one adapter and one device

    Instance 100, physical device 2, device 1 with queue 9; the simulator
    is configured with [num_fail_waits], count 3 and 50 percent memory. *)

Definition no_device_extensions : DeviceExtensions :=
  {| core_1_1 := false; core_1_2 := false; core_1_3 := false;
     KHR_external_mem_fd := false; KHR_swapchain := false; KHR_sync2 := false;
     EXT_display_control := false; EXT_mem_budget := false;
     EXT_swapchain_maintenance1 := false |}.

Definition core_1_1_supported : DeviceExtensions :=
  {| core_1_1 := true; core_1_2 := false; core_1_3 := false;
     KHR_external_mem_fd := false; KHR_swapchain := false; KHR_sync2 := false;
     EXT_display_control := false; EXT_mem_budget := false;
     EXT_swapchain_maintenance1 := false |}.

Definition instance_enables (v11 : bool) : InstanceExtensionsEnabled :=
  {| i_core_1_1 := v11; i_core_1_2 := false; i_core_1_3 := false;
     KHR_device_group_create := false; KHR_external_mem_caps := false;
     KHR_get_phys_dev_props2 := false |}.

Definition sample_instance (v11 : bool) (resolver : bool) : InstanceMapStruct :=
  {| i_dispatch_table := Some {| has_GetProcAddr := resolver |};
     i_extension_enables := instance_enables v11;
     i_fence_delay_type := FENCE_DELAY_NUM_FAIL_WAITS; i_layer_enabled := true;
     i_fence_delay_count := 3; i_memory_percent := 50 |}.

(** The [memset] of [EnumeratePhysicalDevices]. *)
Definition zero_memory_props : PhysicalDeviceMemoryBudgetProperties :=
  {| memoryTypeCount := 0;
     memoryTypes := replicate VK_MAX_MEMORY_TYPES {| propertyFlags := 0; heapIndex := 0 |};
     memoryHeapCount := 0;
     memoryHeaps := replicate VK_MAX_MEMORY_HEAPS
       {| heap_size := 0; allocated := 0; budget := 0; usage := 0; flags := 0 |} |}.

Definition sample_phys (supported : DeviceExtensions) : PhysDeviceMapStruct :=
  {| pd_instance := 100%N; memory_props := zero_memory_props;
     extensions_supported := supported; memory_budget_updated := false;
     pd_layer_enabled := true; memory_percent := 50 |}.

Definition sample_device : DeviceMapStruct :=
  {| physical_device := 2%N; d_dispatch_table := Some {| has_GetProcAddr := true |};
     extension_enables := no_device_extensions; memory_bindings_updated := false;
     d_layer_enabled := true; fence_delay_type := FENCE_DELAY_NUM_FAIL_WAITS;
     fence_delay_count := 3 |}.

Definition sample_tables (v11 : bool) (resolver : bool) : State :=
  {| g_instance_map := {[ 100%N := sample_instance v11 resolver ]};
     g_phys_device_map :=
       {[ 2%N := sample_phys (if v11 then core_1_1_supported else no_device_extensions) ]};
     g_device_map := {[ 1%N := sample_device ]};
     g_ext_mem_fd_map := ∅; g_fence_map := ∅; g_buffer_map := ∅; g_image_map := ∅;
     g_memory_map := ∅; g_queue_to_device_map := {[ 9%N := 1%N ]} |}.

Definition world_of (s : State) : World := {| tables := s; trace := []; clock := 0 |}.

Definition sample_world : World := world_of (sample_tables false true).

(** The device owns buffer 10, image 11, allocation 20 with both bound to
    it, fence 5 and the imported descriptor 3. *)
Definition no_requirements : VkMemoryRequirements :=
  {| req_size := 0; req_alignment := 0; memoryTypeBits := 0 |}.

Definition fresh_fence (is_signalled : bool) (elapsed : Z) : FenceMapStruct :=
  {| f_device := 1%N; signalled := is_signalled; wait_started := false;
     wait_completed := false; delay_type := FENCE_DELAY_NUM_FAIL_WAITS; delay_count := 3;
     elapsed_count := elapsed; start_time := 0 |}.

Definition populated_tables : State :=
  set_buffer_map (<[10%N := {| b_device := 1%N; b_memory_reqs := no_requirements |}]>)
 (set_image_map (<[11%N := {| im_device := 1%N; im_memory_reqs := no_requirements |}]>)
 (set_memory_map
    (<[20%N := {| m_device := 1%N;
                  alloc_info := {| allocationSize := 256; memoryTypeIndex := 0 |};
                  buffers := [ {| bm_buffer := 10%N; bm_offset := 0 |} ];
                  images := [ {| imm_image := 11%N; imm_offset := 128;
                                 imm_additional_info := no_additional_image_memory_info |} ]
               |}]>)
 (set_fence_map (<[5%N := Some (fresh_fence false 0)]>)
 (set_ext_mem_fd_map (<[3 := {| fd_device := 1%N; fd_memory_type := 1 |}]>)
    (sample_tables false true))))).

Definition populated_world : World := world_of populated_tables.

(** ** Cascade on device destruction, as the specification words it *)

Definition destroy_device_removes_children : Prop :=
  ∀ (w w' : World) (device : VkDevice),
    Simulator.DestroyDevice device w = Done tt w' →
    (∀ b r, g_buffer_map (tables w') !! b = Some r → b_device r ≠ device) ∧
    (∀ i r, g_image_map (tables w') !! i = Some r → im_device r ≠ device) ∧
    (∀ m r, g_memory_map (tables w') !! m = Some r → m_device r ≠ device) ∧
    (∀ f r, g_fence_map (tables w') !! f = Some (Some r) → f_device r ≠ device).

(** ** Gated resolution through [GetInstanceProcAddr], as the specification
    words it: null while the instance's core-1.1 flag is false, the layer's
    function once it is true. *)

Definition vkBindBufferMemory2 : string := "vkBindBufferMemory2".

Definition instance_path_is_gated
    (resolver : VkInstance → string → PFN_vkVoidFunction → M PFN_vkVoidFunction) : Prop :=
  ∀ (w : World) (instance : VkInstance) (record : InstanceMapStruct)
    (next_proc : PFN_vkVoidFunction),
    GetInstanceMapEntry (tables w) instance = Some record →
    ∃ w', resolver instance vkBindBufferMemory2 next_proc w
          = Done (if i_core_1_1 (i_extension_enables record)
                  then Some (LayerProc Fn_BindBufferMemory2) else None) w'.

(** The device-level symbols of the versioned and extension-gated groups
    of each text, each with the flag of its group and the function of the
    layer that implements it. *)
Definition GatedSymbol : Type := string * (DeviceExtensions → bool) * LayerFn.

Definition simulator_gated_symbols : list GatedSymbol :=
  [ ("vkGetImageMemoryRequirements2", core_1_1, Fn_GetImageMemoryRequirements2);
    ("vkGetBufferMemoryRequirements2", core_1_1, Fn_GetBufferMemoryRequirements2);
    ("vkBindBufferMemory2", core_1_1, Fn_BindBufferMemory2);
    ("vkBindImageMemory2", core_1_1, Fn_BindImageMemory2);
    ("vkQueueSubmit2", core_1_3, Fn_QueueSubmit2);
    ("vkGetMemoryFdPropertiesKHR", KHR_external_mem_fd, Fn_GetMemoryFdPropertiesKHR);
    ("vkQueueSubmit2KHR", KHR_sync2, Fn_QueueSubmit2);
    ("vkAcquireNextImageKHR", KHR_swapchain, Fn_AcquireNextImageKHR);
    ("vkAcquireNextImage2KHR", KHR_swapchain, Fn_AcquireNextImage2KHR);
    ("vkQueuePresentKHR", KHR_swapchain, Fn_QueuePresentKHR);
    ("vkRegisterDeviceEventEXT", EXT_display_control, Fn_RegisterDeviceEventEXT);
    ("vkRegisterDisplayEventEXT", EXT_display_control, Fn_RegisterDisplayEventEXT)
  ]%string.

Definition tracker_gated_symbols : list GatedSymbol :=
  [ ("vkGetImageMemoryRequirements2", core_1_1, Fn_GetImageMemoryRequirements2);
    ("vkGetBufferMemoryRequirements2", core_1_1, Fn_GetBufferMemoryRequirements2);
    ("vkBindBufferMemory2", core_1_1, Fn_BindBufferMemory2);
    ("vkBindImageMemory2", core_1_1, Fn_BindImageMemory2);
    ("vkGetDeviceBufferMemoryRequirements", core_1_3, Fn_GetDeviceBufferMemoryRequirements);
    ("vkGetDeviceImageMemoryRequirements", core_1_3, Fn_GetDeviceImageMemoryRequirements);
    ("vkQueueSubmit2", core_1_3, Fn_QueueSubmit2);
    ("vkGetMemoryFdPropertiesKHR", KHR_external_mem_fd, Fn_GetMemoryFdPropertiesKHR);
    ("vkGetDeviceBufferMemoryRequirementsKHR", KHR_sync2,
      Fn_GetDeviceBufferMemoryRequirements);
    ("vkGetDeviceImageMemoryRequirementsKHR", KHR_sync2,
      Fn_GetDeviceImageMemoryRequirements);
    ("vkQueueSubmit2KHR", KHR_sync2, Fn_QueueSubmit2) ]%string.

Definition tracker0_gated_symbols : list GatedSymbol :=
  [ ("vkGetImageMemoryRequirements2", core_1_1, Fn_GetImageMemoryRequirements2);
    ("vkGetBufferMemoryRequirements2", core_1_1, Fn_GetBufferMemoryRequirements2);
    ("vkBindBufferMemory2", core_1_1, Fn_BindBufferMemory2);
    ("vkBindImageMemory2", core_1_1, Fn_BindImageMemory2) ]%string.

(** What the gate promises for a symbol: null while its flag is false, the
    function of the layer once it is true. *)
Definition gated_answer (symbol : GatedSymbol) (supported : DeviceExtensions)
    : PFN_vkVoidFunction :=
  if symbol.1.2 supported then Some (LayerProc symbol.2) else None.

(** The answer [proc] to [name] is the function of one of the symbols,
    whose flag is true. *)
Definition resolved_by (symbols : list GatedSymbol) (supported : DeviceExtensions)
    (name : string) (proc : Proc) : Prop :=
  ∃ symbol, symbol ∈ symbols ∧ symbol.1.1 = name ∧ symbol.1.2 supported = true ∧
            proc = LayerProc symbol.2.

(** What a resolver does once the tables of the layer gave nothing: ask
    the next link if the dispatch table has a resolver. *)
Definition ask_next_link (table : option DispatchTable) (call : DownCall)
    (next_proc : PFN_vkVoidFunction) (w : World) : Outcome PFN_vkVoidFunction :=
  match table with
  | Some {| has_GetProcAddr := true |} =>
      Done next_proc {| tables := tables w; trace := trace w ++ [Forwarded call];
                        clock := clock w |}
  | _ => Done None w
  end.

(** ** A query whose chain starts with a structure other than the budget
    structure *)

Definition driver_props : VkPhysicalDeviceMemoryProperties :=
  {| vk_memoryTypeCount := 1;
     vk_memoryTypes := [ {| propertyFlags := 1; heapIndex := 0 |} ];
     vk_memoryHeapCount := 1;
     vk_memoryHeaps := [ {| vk_size := 1000; vk_flags := 1 |} ] |}.

Definition driver_budget : VkPhysicalDeviceMemoryBudgetPropertiesEXT :=
  {| heapBudget := [ 900 ]; heapUsage := [ 100 ] |}.

Definition query_with_other_first : VkPhysicalDeviceMemoryProperties2 :=
  {| pNext := [ OtherOutStructure 1000238000; MemoryBudgetPropertiesEXT driver_budget ];
     memoryProperties := driver_props |}.

(** A device that lost in the forwarded call. *)
Definition failing_result : VkResult := VK_ERROR_DEVICE_LOST.

(** ** Budget admission *)

(** The [allocated] counter of a heap of a physical device. *)
Definition allocated_in (s : State) (physical_device : VkPhysicalDevice) (heap : nat)
    : option VkDeviceSize :=
  phys ← g_phys_device_map s !! physical_device;
  h ← memoryHeaps (memory_props phys) !! heap;
  Some (allocated h).

(** The record of the physical device with one heap counter replaced. *)
Definition with_allocated (phys : PhysDeviceMapStruct) (heap : nat)
    (budget_heap : MemoryHeapWithBudget) (a : VkDeviceSize) : PhysDeviceMapStruct :=
  set_memory_props
    (set_memoryHeaps (<[heap := set_allocated a budget_heap]> (memoryHeaps (memory_props phys)))
       (memory_props phys)) phys.

(** The world of the sample device after the driver reported one heap of
    1000 units and no budget structure was chained: the layer recorded the
    heap at 50 percent. *)
Definition budget_phys : PhysDeviceMapStruct :=
  match Simulator.ManageMemoryProperties (sample_phys no_device_extensions) driver_props None
  with
  | Some (entry, _, _) => entry
  | None => sample_phys no_device_extensions
  end.

Definition budget_world : World :=
  world_of (set_phys_device_map (<[2%N := budget_phys]>) (sample_tables false true)).

(** The same after the driver reported the heap with a budget structure
    chained (a budget of 900 units, 100 of them in use). *)
Definition budgeted_phys : PhysDeviceMapStruct :=
  match Simulator.ManageMemoryProperties (sample_phys no_device_extensions) driver_props
          (Some driver_budget)
  with
  | Some (entry, _, _) => entry
  | None => sample_phys no_device_extensions
  end.

Definition budgeted_world : World :=
  world_of (set_phys_device_map (<[2%N := budgeted_phys]>) (sample_tables false true)).

(** The same when the driver reported a budget of 300 units for the
    heap. *)
Definition scarce_budget : VkPhysicalDeviceMemoryBudgetPropertiesEXT :=
  {| heapBudget := [ 300 ]; heapUsage := [ 100 ] |}.

Definition scarce_phys : PhysDeviceMapStruct :=
  match Simulator.ManageMemoryProperties (sample_phys no_device_extensions) driver_props
          (Some scarce_budget)
  with
  | Some (entry, _, _) => entry
  | None => sample_phys no_device_extensions
  end.

Definition scarce_world : World :=
  world_of (set_phys_device_map (<[2%N := scarce_phys]>) (sample_tables false true)).

Definition request (n : VkDeviceSize) (type_index : Z) : option VkMemoryAllocateInfo :=
  Some {| allocationSize := n; memoryTypeIndex := type_index |}.

(** The claim of C2 on the first allocation, as the specification words
    it: the heap was recorded with a size of 500 units (1000 units at 50
    percent) and nothing is allocated from it; a request of 400 units that
    the driver would grant returns [VK_SUCCESS]. *)
Definition admitted_within_recorded_size : Prop :=
  ∀ (w : World) (device : VkDevice) (dev : DeviceMapStruct) (phys : PhysDeviceMapStruct)
    (type_index : Z) (heap : nat) (budget_heap : MemoryHeapWithBudget)
    (m1 : VkDeviceMemory) (result : VkResult),
    GetDeviceMapEntry (tables w) device = Some dev →
    d_layer_enabled dev = true →
    GetPhysicalDeviceMapEntry (tables w) (physical_device dev) = Some phys →
    memory_percent phys < 100 →
    Simulator.budget_heap_of phys type_index = Some (heap, budget_heap) →
    heap_size budget_heap = 500 →
    allocated budget_heap = 0 →
    returned (Simulator.AllocateMemory device (request 400 type_index) VK_SUCCESS m1 w)
    = Some result →
    result = VK_SUCCESS.

(** The claim of C2 on the second allocation, as the specification words
    it: the heap was recorded with a size of 500 units (1000 units at 50
    percent) and nothing is allocated from it; once 400 units are granted,
    a request of 200 units is answered [VK_ERROR_OUT_OF_DEVICE_MEMORY]. *)
Definition refused_beyond_recorded_size : Prop :=
  ∀ (w w1 : World) (device : VkDevice) (dev : DeviceMapStruct) (phys : PhysDeviceMapStruct)
    (type_index : Z) (heap : nat) (budget_heap : MemoryHeapWithBudget)
    (m1 next_memory : VkDeviceMemory) (next_result result : VkResult),
    GetDeviceMapEntry (tables w) device = Some dev →
    d_layer_enabled dev = true →
    GetPhysicalDeviceMapEntry (tables w) (physical_device dev) = Some phys →
    memory_percent phys < 100 →
    Simulator.budget_heap_of phys type_index = Some (heap, budget_heap) →
    heap_size budget_heap = 500 →
    allocated budget_heap = 0 →
    Simulator.AllocateMemory device (request 400 type_index) VK_SUCCESS m1 w
    = Done VK_SUCCESS w1 →
    returned (Simulator.AllocateMemory device (request 200 type_index) next_result
                next_memory w1) = Some result →
    result = VK_ERROR_OUT_OF_DEVICE_MEMORY.

(** ** The fail-count fence *)

(** Status queries in a row; [answers] is what the driver would answer to
    each of them if it were asked. *)
Fixpoint status_queries (device : VkDevice) (fence : VkFence) (answers : list VkResult)
    : M (list VkResult) :=
  match answers with
  | [] => mret []
  | answer :: rest =>
      r ← Simulator.GetFenceStatus device fence answer;
      rs ← status_queries device fence rest;
      mret (r :: rs)
  end.

(** [n] status queries in a row, the results dropped. *)
Definition poll (n : N) (device : VkDevice) (fence : VkFence) (answer : VkResult) : M unit :=
  N.iter n (λ k, Simulator.GetFenceStatus device fence answer;; k) (mret tt).

(** The device is enabled and can forward; the fence has a record in
    fail-count mode with count 3, the given signal state and counter. *)
Definition fail_count_fence (w : World) (device : VkDevice) (fence : VkFence)
    (is_signalled : bool) (elapsed : Z) : Prop :=
  ∃ (dev : DeviceMapStruct) (dt : DispatchTable) (f : FenceMapStruct),
    GetDeviceMapEntry (tables w) device = Some dev ∧
    d_dispatch_table dev = Some dt ∧
    d_layer_enabled dev = true ∧
    g_fence_map (tables w) !! fence = Some (Some f) ∧
    delay_type f = FENCE_DELAY_NUM_FAIL_WAITS ∧
    delay_count f = 3 ∧
    signalled f = is_signalled ∧
    elapsed_count f = elapsed.

(** The two states have the same instances, physical devices, devices
    and queues. *)
Definition same_registry (s s' : State) : Prop :=
  g_instance_map s' = g_instance_map s ∧
  g_phys_device_map s' = g_phys_device_map s ∧
  g_device_map s' = g_device_map s ∧
  g_queue_to_device_map s' = g_queue_to_device_map s.

(** [QueueSubmit] looks at the memory budget again when a bind has set
    [memory_bindings_updated] on the device since the last submit.  It can
    do so: the physical device of the device has a record and, unless a
    budget was recorded for it before, its instance has a record with a
    dispatch table and the layer can record the heaps that the driver
    reports ([props] and [budget]).  Nothing is asked of a device on which
    the flag is not set. *)
Definition budget_refresh_answered (s : State) (device : VkDevice)
    (props : VkPhysicalDeviceMemoryProperties)
    (budget : VkPhysicalDeviceMemoryBudgetPropertiesEXT) : Prop :=
  ∀ dev : DeviceMapStruct,
    GetDeviceMapEntry s device = Some dev →
    memory_bindings_updated dev = true →
    ∃ phys : PhysDeviceMapStruct,
      GetPhysicalDeviceMapEntry s (physical_device dev) = Some phys ∧
      (memory_budget_updated phys = false →
       ∃ (inst : InstanceMapStruct) (dt : DispatchTable),
         GetInstanceMapEntry s (pd_instance phys) = Some inst ∧
         i_dispatch_table inst = Some dt ∧
         (pd_layer_enabled phys = true →
          is_Some (Simulator.ManageMemoryProperties phys props (Some budget)))).

(** The claim of C3 on the first status query after the signal, as the
    specification words it: whatever status queries were made on the fence
    before it is signalled, the first one after the signal is answered
    [VK_NOT_READY]. *)
Definition not_ready_after_signal : Prop :=
  ∀ (w : World) (device : VkDevice) (fence : VkFence) (queue : VkQueue)
    (earlier : list VkResult) (answer result : VkResult)
    (props : VkPhysicalDeviceMemoryProperties)
    (budget : VkPhysicalDeviceMemoryBudgetPropertiesEXT),
    fail_count_fence w device fence false 0 →
    returned ((status_queries device fence earlier;;
               Simulator.QueueSubmit queue fence VK_SUCCESS props budget;;
               Simulator.GetFenceStatus device fence answer) w) = Some result →
    result = VK_NOT_READY.

(** The claim of C3 on the later queries, as the specification words it:
    after two or more status queries on a signalled fence, each further
    query is answered by the driver. *)
Definition ready_from_third_query_on : Prop :=
  ∀ (w : World) (device : VkDevice) (fence : VkFence) (n : N) (answer result : VkResult),
    fail_count_fence w device fence true 0 →
    (2 ≤ n)%N →
    returned ((poll n device fence answer;;
               Simulator.GetFenceStatus device fence answer) w) = Some result →
    result = answer.

(** The fence of the populated world, signalled and not yet queried. *)
Definition signalled_world : World :=
  world_of (set_fence_map (<[5%N := Some (fresh_fence true 0)]>) populated_tables).

(** The same after a successful bind on device 1: the flag that makes the
    next [QueueSubmit] look at the memory budget is set. *)
Definition signalled_world_after_bind : World :=
  world_of (set_device_map (<[1%N := set_memory_bindings_updated true sample_device]>)
              (tables signalled_world)).

(** ** Waiting for delayed fences *)

(** The fence has a record that is signalled and in one of the delay
    modes: the loop of [WaitForFences] takes the delay branch for it. *)
Definition delayed_fence (s : State) (fence : VkFence) (f : FenceMapStruct) : Prop :=
  g_fence_map s !! fence = Some (Some f) ∧
  signalled f = true ∧
  is_delay_none (delay_type f) = false.

(** What the loop of [WaitForFences] decides on the record [f] when its
    turn comes in the world [w]: the record with its counter advanced, the
    local variables of the [switch], and whether the fence is held back. *)
Definition wait_decision (timeout : Z) (f : FenceMapStruct) (w : World)
    : option (FenceMapStruct * Simulator.WaitLocals * bool) :=
  let milliseconds_till_timeout := wrap32 (timeout / 1000000) in
  '(f, locals) ← returned (Simulator.advance_on_wait timeout milliseconds_till_timeout f w);
  let f := if wait_started f then f else set_wait_started true f in
  Some (f, locals, Simulator.held_back milliseconds_till_timeout f locals).

(** The decision of the gate: the fence is held back in this wait. *)
Definition excluded_by_delay (timeout : Z) (f : FenceMapStruct) (w : World) : bool :=
  match wait_decision timeout f w with
  | Some (_, _, held) => held
  | None => false
  end.

(** The decision of the gate: the fence is let through, and the loop has
    no reason to sleep for it first. *)
Definition past_delay (timeout : Z) (f : FenceMapStruct) (w : World) : bool :=
  match wait_decision timeout f w with
  | Some (_, locals, held) =>
      negb held &&
      negb (Simulator.can_sleep locals && negb (Simulator.sleep_time locals =? 0))
  | None => false
  end.

(** The elapsed count of the record once this wait has advanced it, by
    the strategy of its delay mode: in the millisecond modes the
    milliseconds since the start time are added (counted from the first
    query: only once a query has set the start time); in fail-count mode
    the wait counts as one more failed wait, provided its timeout is below
    one second (a longer wait is slept out instead and leaves the counter
    alone).  The counter is a [uint32_t]. *)
Definition elapsed_in_wait (timeout cur_time : Z) (f : FenceMapStruct) : Z :=
  let since_start := Z.quot (cur_time - start_time f) 1000000 in
  match delay_type f with
  | FENCE_DELAY_MS_FROM_TRIGGER => (elapsed_count f + since_start) mod 2 ^ 32
  | FENCE_DELAY_MS_FROM_FIRST_QUERY =>
      if wait_started f then (elapsed_count f + since_start) mod 2 ^ 32
      else elapsed_count f
  | FENCE_DELAY_NUM_FAIL_WAITS =>
      if timeout <? 1000000000 then (elapsed_count f + 1) mod 2 ^ 32 else elapsed_count f
  | FENCE_DELAY_NONE => elapsed_count f
  end.

(** The fence is past its configured delay in this wait: its elapsed
    count has reached its delay count (for a delay counted in failed
    waits, in a wait that can fail: one with a timeout below a second). *)
Definition past_its_delay (timeout cur_time : Z) (f : FenceMapStruct) : Prop :=
  delay_count f ≤ elapsed_in_wait timeout cur_time f ∧
  (delay_type f = FENCE_DELAY_NUM_FAIL_WAITS → timeout < 1000000000).

(** The fence is excluded by its delay in this wait: its elapsed count is
    below its delay count and the timeout does not make up for the rest.
    In fail-count mode that is a timeout below one second; in the
    millisecond modes the elapsed count with the milliseconds of the
    timeout added (a [uint32_t] sum) is still below the delay count. *)
Definition held_by_its_delay (timeout cur_time : Z) (f : FenceMapStruct) : Prop :=
  let elapsed := elapsed_in_wait timeout cur_time f in
  let milliseconds_till_timeout := (timeout / 1000000) mod 2 ^ 32 in
  elapsed < delay_count f ∧
  match delay_type f with
  | FENCE_DELAY_NUM_FAIL_WAITS => timeout < 1000000000
  | _ => milliseconds_till_timeout = 0 ∨
         (elapsed + milliseconds_till_timeout) mod 2 ^ 32 < delay_count f
  end.

(** The world after a write through [fence_map_data]. *)
Definition with_fence (fence : VkFence) (f : FenceMapStruct) (w : World) : World :=
  {| tables := set_fence_map (<[fence := Some f]>) (tables w);
     trace := trace w; clock := clock w |}.

(** The claim of C4 on wait-for-all, as the specification words it, for
    two fences in fail-count mode with count 3: one has been counted three
    times, the other never. *)
Definition wait_all_times_out : Prop :=
  ∀ (w : World) (device : VkDevice) (a b : VkFence) (timeout : Z)
    (next_result result : VkResult),
    a ≠ b →
    0 ≤ timeout < 2 ^ 64 →
    fail_count_fence w device a true 3 →
    fail_count_fence w device b true 0 →
    returned (Simulator.WaitForFences device [a; b] true timeout next_result w)
    = Some result →
    result = VK_TIMEOUT.

(** Fence 5 has been counted three times, fence 6 never. *)
Definition two_fence_world : World :=
  world_of (set_fence_map (<[5%N := Some (fresh_fence true 3)]>)
           (set_fence_map (<[6%N := Some (fresh_fence true 0)]>) populated_tables)).

(** Fence 5 has been counted twice, fence 6 once: with this wait counted
    fence 5 reaches its three failed waits, fence 6 does not. *)
Definition boundary_fence_world : World :=
  world_of (set_fence_map (<[5%N := Some (fresh_fence true 2)]>)
           (set_fence_map (<[6%N := Some (fresh_fence true 1)]>) populated_tables)).

(** Fence 5 was signalled at time 0 with a delay of 20 ms from the
    trigger, fence 6 with one of 50 ms; the clock stands at 30 ms. *)
Definition from_trigger_fence (count : Z) : FenceMapStruct :=
  {| f_device := 1%N; signalled := true; wait_started := false;
     wait_completed := false; delay_type := FENCE_DELAY_MS_FROM_TRIGGER;
     delay_count := count; elapsed_count := 0; start_time := 0 |}.

Definition from_trigger_world : World :=
  {| tables := set_fence_map (<[5%N := Some (from_trigger_fence 20)]>)
              (set_fence_map (<[6%N := Some (from_trigger_fence 50)]>) populated_tables);
     trace := []; clock := 30000000 |}.

(** ** Binding exclusivity *)

Definition bound_buffers (m : MemoryMapStruct) : list VkBuffer := bm_buffer <$> buffers m.

Definition bound_images (m : MemoryMapStruct) : list VkImage := imm_image <$> images m.

(** No buffer and no image is in the binding lists of two allocations. *)
Definition exclusive_map (allocations : gmap N MemoryMapStruct) : Prop :=
  ∀ (k1 k2 : VkDeviceMemory) (m1 m2 : MemoryMapStruct),
    allocations !! k1 = Some m1 →
    allocations !! k2 = Some m2 →
    (∀ buffer, buffer ∈ bound_buffers m1 → buffer ∈ bound_buffers m2 → k1 = k2) ∧
    (∀ image, image ∈ bound_images m1 → image ∈ bound_images m2 → k1 = k2).

Definition binding_exclusive (s : State) : Prop := exclusive_map (g_memory_map s).









(** * Further entry points of the simulator

    [src/layersvt/slow_device_simulator.cpp], the entry points that the
    claims above do not reach.  The calls they hand down have no
    constructor in [DownCall]: each entry point returns, beside its
    result, the calls it made through a dispatch table, in order. *)

Record VkAcquireNextImageInfoKHR : Type := {
  ani_swapchain : VkSwapchainKHR;
  ani_timeout : Z;
  ani_semaphore : VkSemaphore;
  ani_fence : VkFence }.

Inductive DispatchCall : Type :=
  | DC_GetDeviceQueue (device : VkDevice) (queueFamilyIndex queueIndex : Z)
  | DC_QueueSubmit2 (queue : VkQueue) (fence : VkFence)
  | DC_QueuePresentKHR (queue : VkQueue)
  | DC_AcquireNextImage2KHR (device : VkDevice)
      (pAcquireInfo : option VkAcquireNextImageInfoKHR)
  | DC_RegisterDeviceEventEXT (device : VkDevice)
  | DC_RegisterDisplayEventEXT (device : VkDevice) (display : N)
  | DC_GetMemoryFdPropertiesKHR (device : VkDevice) (handleType : Z) (fd : Z)
  | DC_EnumeratePhysicalDevices (instance : VkInstance)
  | DC_EnumeratePhysicalDeviceGroups (instance : VkInstance)
  | DC_CreateInstance.

(** [pDisp->...] for these calls. *)
Definition dispatch_device (device_map_data : DeviceMapStruct) (c : DispatchCall)
    : M (list DispatchCall) :=
  deref (d_dispatch_table device_map_data);; mret [c].

(** [instance_data_entry->dispatch_table->...] *)
Definition dispatch_instance (instance_data_entry : InstanceMapStruct) (c : DispatchCall)
    : M (list DispatchCall) :=
  deref (i_dispatch_table instance_data_entry);; mret [c].

Module SimulatorSync.

(** *** Fences of events and of the second acquire *)

Definition AcquireNextImage2KHR (device : VkDevice)
    (pAcquireInfo : option VkAcquireNextImageInfoKHR) (next_result : VkResult)
    : M (VkResult * list DispatchCall) :=
  s ← get_tables;
  device_map_data ← deref (GetDeviceMapEntry s device);
  when (d_layer_enabled device_map_data)
    (match pAcquireInfo with
     | Some info => Simulator.signal_fence (ani_fence info)
     | None => mret tt
     end);;
  calls ← dispatch_device device_map_data (DC_AcquireNextImage2KHR device pAcquireInfo);
  mret (next_result, calls).

(** The record that [RegisterDeviceEventEXT] and [RegisterDisplayEventEXT]
    build; [start_time] is default-constructed. *)
Definition event_fence_record (device : VkDevice) (device_map_data : DeviceMapStruct)
    : FenceMapStruct :=
  {| f_device := device; signalled := false; wait_started := false;
     wait_completed := false; delay_type := fence_delay_type device_map_data;
     delay_count := wrap32 (fence_delay_count device_map_data);
     elapsed_count := 0; start_time := 0 |}.

(** [next_fence] is the [*pFence] of the forwarded call. *)
Definition RegisterDeviceEventEXT (device : VkDevice) (next_result : VkResult)
    (next_fence : VkFence) : M (VkResult * list DispatchCall) :=
  s ← get_tables;
  device_map_data ← deref (GetDeviceMapEntry s device);
  calls ← dispatch_device device_map_data (DC_RegisterDeviceEventEXT device);
  let result := next_result in
  when (d_layer_enabled device_map_data && is_success result)
    (Simulator.store_fence next_fence (event_fence_record device device_map_data));;
  mret (result, calls).

Definition RegisterDisplayEventEXT (device : VkDevice) (display : N)
    (next_result : VkResult) (next_fence : VkFence) : M (VkResult * list DispatchCall) :=
  s ← get_tables;
  device_map_data ← deref (GetDeviceMapEntry s device);
  calls ← dispatch_device device_map_data (DC_RegisterDisplayEventEXT device display);
  let result := next_result in
  when (d_layer_enabled device_map_data && is_success result)
    (Simulator.store_fence next_fence (event_fence_record device device_map_data));;
  mret (result, calls).

(** *** Queues *)

(** [next_queue] is the [*pQueue] of the forwarded call. *)
Definition GetDeviceQueue (device : VkDevice) (queueFamilyIndex queueIndex : Z)
    (next_queue : VkQueue) : M (list DispatchCall) :=
  s ← get_tables;
  device_map_data ← deref (GetDeviceMapEntry s device);
  calls ← dispatch_device device_map_data
             (DC_GetDeviceQueue device queueFamilyIndex queueIndex);
  modify (set_queue_to_device_map (<[next_queue := device]>));;
  mret calls.

(** The text of [QueueSubmit] with the other call through the table. *)
Definition QueueSubmit2 (queue : VkQueue) (fence : VkFence) (next_result : VkResult)
    (next_props : VkPhysicalDeviceMemoryProperties)
    (next_budget : VkPhysicalDeviceMemoryBudgetPropertiesEXT)
    : M (VkResult * list DispatchCall) :=
  device ← Simulator.index_queue_map queue;
  s ← get_tables;
  device_map_data ← deref (GetDeviceMapEntry s device);
  calls ← dispatch_device device_map_data (DC_QueueSubmit2 queue fence);
  let result := next_result in
  when (d_layer_enabled device_map_data && is_success result)
    (Simulator.signal_fence fence;;
     when (memory_bindings_updated device_map_data)
       (s ← get_tables;
        phys_dev_data_entry ←
          deref (GetPhysicalDeviceMapEntry s (physical_device device_map_data));
        when (negb (memory_budget_updated phys_dev_data_entry))
          (Simulator.GetPhysicalDeviceMemoryProperties2 1 (physical_device device_map_data)
             (Some {| pNext := [MemoryBudgetPropertiesEXT next_budget];
                      memoryProperties := next_props |});;
           mret tt);;
        modify (set_device_map
          (<[device := set_memory_bindings_updated false device_map_data]>))));;
  mret (result, calls).

(** The structures chained to a [VkPresentInfoKHR]. *)
Inductive PresentPNext : Type :=
  | SwapchainPresentFenceInfoEXT (pFences : list VkFence)
  | PresentOtherStructure (sType : Z).

(** The walk [while (cur_struct != nullptr)] of [QueuePresentKHR].  Its
    last statement is [cur_struct = pPresentInfo->pNext]: the cursor goes
    back to the head of the chain, [chain]. *)
Fixpoint present_walk (fuel : nat) (device_map_data : DeviceMapStruct)
    (chain cur_struct : list PresentPNext) : M unit :=
  match cur_struct with
  | [] => mret tt
  | structure :: _ =>
      match fuel with
      | O => out_of_fuel
      | S fuel' =>
          match structure with
          | SwapchainPresentFenceInfoEXT pFences =>
              when (EXT_swapchain_maintenance1 (extension_enables device_map_data))
                (for_each Simulator.signal_fence pFences)
          | PresentOtherStructure _ => mret tt
          end;;
          present_walk fuel' device_map_data chain chain
      end
  end.

(** [pPresentInfo] is given by the chain of its [pNext]. *)
Definition QueuePresentKHR (fuel : nat) (queue : VkQueue)
    (pPresentInfo : option (list PresentPNext)) (next_result : VkResult)
    : M (VkResult * list DispatchCall) :=
  device ← Simulator.index_queue_map queue;
  s ← get_tables;
  device_map_data ← deref (GetDeviceMapEntry s device);
  calls ← dispatch_device device_map_data (DC_QueuePresentKHR queue);
  let result := next_result in
  when (d_layer_enabled device_map_data && is_success result)
    (chain ← deref pPresentInfo;
     present_walk fuel device_map_data chain chain);;
  mret (result, calls).

End SimulatorSync.

Module SimulatorSetup.

(** *** The configuration that [CreateInstance] reads *)

(** What the settings library answers: [None] where [vkuHasLayerSetting]
    is false, and else the value [vkuGetLayerSettingValue] stores. *)
Record LayerSettings : Type := {
  fence_delay_type_setting : option string;
  fence_delay_count_setting : option Z;
  memory_percent_setting : option Z }.

(** [::tolower] in the C locale. *)
Definition tolower (c : Ascii.ascii) : Ascii.ascii :=
  let n := Ascii.nat_of_ascii c in
  if (65 <=? n)%nat && (n <=? 90)%nat then Ascii.ascii_of_nat (n + 32) else c.

(** [std::transform(value.begin(), value.end(), value.begin(), ::tolower)] *)
Fixpoint transform_tolower (value : string) : string :=
  match value with
  | EmptyString => EmptyString
  | String c rest => String (tolower c) (transform_tolower rest)
  end.

Definition read_fence_delay_type (settings : LayerSettings) : FenceDelayType :=
  match fence_delay_type_setting settings with
  | Some value =>
      let value := transform_tolower value in
      if String.eqb value "ms_from_trigger" then FENCE_DELAY_MS_FROM_TRIGGER
      else if String.eqb value "ms_from_first_query" then FENCE_DELAY_MS_FROM_FIRST_QUERY
      else if String.eqb value "num_fail_waits" then FENCE_DELAY_NUM_FAIL_WAITS
      else FENCE_DELAY_NONE
  | None => FENCE_DELAY_NONE
  end.

(** [std::max(fence_delay_count, 0)]; without the setting the member keeps
    its initialiser [0]. *)
Definition read_fence_delay_count (settings : LayerSettings) : Z :=
  match fence_delay_count_setting settings with
  | Some value => Z.max value 0
  | None => 0
  end.

(** [std::max(std::min(memory_percent, 100), 1)]; without the setting the
    member keeps its initialiser [100]. *)
Definition read_memory_percent (settings : LayerSettings) : Z :=
  match memory_percent_setting settings with
  | Some value => Z.max (Z.min value 100) 1
  | None => 100
  end.

(** [VK_VERSION_MINOR(version)] is [((uint32_t)(version) >> 12) & 0x3FF]. *)
Definition VK_VERSION_MINOR (version : Z) : Z := Z.land (Z.shiftr (wrap32 version) 12) 1023.

Definition VK_KHR_DEVICE_GROUP_CREATION_EXTENSION_NAME : string :=
  "VK_KHR_device_group_creation".
Definition VK_KHR_EXTERNAL_MEMORY_CAPABILITIES_EXTENSION_NAME : string :=
  "VK_KHR_external_memory_capabilities".
Definition VK_KHR_GET_PHYSICAL_DEVICE_PROPERTIES_2_EXTENSION_NAME : string :=
  "VK_KHR_get_physical_device_properties2".

(** [0 == strcmp(names[ext], name)] for some [ext]. *)
Definition names_include (names : list string) (name : string) : bool :=
  existsb (String.eqb name) names.

(** The flags of the new record; [apiVersion] is [None] without
    [pApplicationInfo]. *)
Definition read_extension_enables (apiVersion : option Z) (enabled_extensions : list string)
    : InstanceExtensionsEnabled :=
  let minor_api_version :=
    match apiVersion with
    | Some version => if version =? 0 then 0 else VK_VERSION_MINOR version
    | None => 0
    end in
  {| i_core_1_1 := 0 <? minor_api_version;
     i_core_1_2 := 1 <? minor_api_version;
     i_core_1_3 := 2 <? minor_api_version;
     KHR_device_group_create :=
       names_include enabled_extensions VK_KHR_DEVICE_GROUP_CREATION_EXTENSION_NAME;
     KHR_external_mem_caps :=
       names_include enabled_extensions VK_KHR_EXTERNAL_MEMORY_CAPABILITIES_EXTENSION_NAME;
     KHR_get_phys_dev_props2 :=
       names_include enabled_extensions
         VK_KHR_GET_PHYSICAL_DEVICE_PROPERTIES_2_EXTENSION_NAME |}.

(** The record [CreateInstance] stores for the new instance. *)
Definition new_instance_record (dispatch_table : DispatchTable) (apiVersion : option Z)
    (enabled_extensions : list string) (settings : LayerSettings) : InstanceMapStruct :=
  let delay_type := read_fence_delay_type settings in
  let percent := read_memory_percent settings in
  {| i_dispatch_table := Some dispatch_table;
     i_extension_enables := read_extension_enables apiVersion enabled_extensions;
     i_fence_delay_type := delay_type;
     i_layer_enabled := negb (is_delay_none delay_type && (percent =? 100));
     i_fence_delay_count := read_fence_delay_count settings;
     i_memory_percent := percent |}.

(** [fpCreateInstance] is [false] when the next link has no
    [vkCreateInstance]; [next_instance] and [next_table] are the instance
    the next link created and the dispatch table built for it. *)
Definition CreateInstance (fpCreateInstance : bool) (apiVersion : option Z)
    (enabled_extensions : list string) (settings : LayerSettings) (next_result : VkResult)
    (next_instance : VkInstance) (next_table : DispatchTable)
    : M (VkResult * list DispatchCall) :=
  if negb fpCreateInstance then mret (VK_ERROR_INITIALIZATION_FAILED, [])
  else
    let result := next_result in
    when (is_success result)
      (modify (set_instance_map
         (<[next_instance :=
              new_instance_record next_table apiVersion enabled_extensions settings]>)));;
    mret (result, [DC_CreateInstance]).

(** *** Physical devices *)

Definition set_pd_instance (instance : VkInstance) (p : PhysDeviceMapStruct)
    : PhysDeviceMapStruct :=
  {| pd_instance := instance; memory_props := memory_props p;
     extensions_supported := extensions_supported p;
     memory_budget_updated := memory_budget_updated p;
     pd_layer_enabled := pd_layer_enabled p; memory_percent := memory_percent p |}.

(** The body of the loops of [EnumeratePhysicalDevices] and of
    [EnumeratePhysicalDeviceGroups]. *)
Definition register_physical_device (instance : VkInstance)
    (instance_data_entry : InstanceMapStruct) (physicalDevice : VkPhysicalDevice) : M unit :=
  s ← get_tables;
  let entry :=
    match g_phys_device_map s !! physicalDevice with
    | Some entry => entry
    | None =>
        {| pd_instance := instance; memory_props := zero_memory_props;
           extensions_supported := no_device_extensions; memory_budget_updated := false;
           pd_layer_enabled := i_layer_enabled instance_data_entry;
           memory_percent := i_memory_percent instance_data_entry |}
    end in
  modify (set_phys_device_map (<[physicalDevice := set_pd_instance instance entry]>)).

(** [next_devices] is [None] when [pPhysicalDevices] is null, and else the
    [*pPhysicalDeviceCount] handles the forwarded call wrote. *)
Definition EnumeratePhysicalDevices (instance : VkInstance) (next_result : VkResult)
    (next_devices : option (list VkPhysicalDevice)) : M (VkResult * list DispatchCall) :=
  s ← get_tables;
  instance_data_entry ← deref (GetInstanceMapEntry s instance);
  calls ← dispatch_instance instance_data_entry (DC_EnumeratePhysicalDevices instance);
  let result := next_result in
  when (is_success result)
    (match next_devices with
     | Some devices => for_each (register_physical_device instance instance_data_entry) devices
     | None => mret tt
     end);;
  mret (result, calls).

(** [next_groups] holds the [physicalDevices] of each group returned. *)
Definition EnumeratePhysicalDeviceGroups (instance : VkInstance) (next_result : VkResult)
    (next_groups : option (list (list VkPhysicalDevice)))
    : M (VkResult * list DispatchCall) :=
  s ← get_tables;
  instance_data_entry ← deref (GetInstanceMapEntry s instance);
  calls ← dispatch_instance instance_data_entry (DC_EnumeratePhysicalDeviceGroups instance);
  let result := next_result in
  when (is_success result)
    (match next_groups with
     | Some groups =>
         for_each (for_each (register_physical_device instance instance_data_entry)) groups
     | None => mret tt
     end);;
  mret (result, calls).

(** The inner loop of [DestroyInstance] over [g_device_map].  Where it
    finds a device of the physical device it calls [DestroyDevice], which
    erases the element the iterator is at, and goes on with that iterator:
    the behaviour is undefined from there. *)
Definition destroy_devices_of (phs_dev : VkPhysicalDevice) : M unit :=
  s ← get_tables;
  match List.find (λ entry, N.eqb (physical_device entry.2) phs_dev)
          (map_to_list (g_device_map s)) with
  | Some (device, _) => Simulator.DestroyDevice device;; crash
  | None => mret tt
  end.

(** The function hands nothing down the chain. *)
Definition DestroyInstance (instance : VkInstance) : M unit :=
  s ← get_tables;
  for_each
    (λ entry : VkPhysicalDevice * PhysDeviceMapStruct,
       when (N.eqb (pd_instance entry.2) instance)
         (destroy_devices_of entry.1;;
          modify (set_phys_device_map (delete entry.1))))
    (map_to_list (g_phys_device_map s));;
  modify (EraseInstanceMapEntry instance).

(** *** Memory *)

(** [next_memoryTypeBits] is [None] when [pMemoryFdProperties] is null.
    The key is [static_cast<uint64_t>(fd)] converted to the [int64_t] of
    the table, which is [fd] again. *)
Definition GetMemoryFdPropertiesKHR (device : VkDevice) (handleType : Z) (fd : Z)
    (next_result : VkResult) (next_memoryTypeBits : option Z)
    : M (VkResult * list DispatchCall) :=
  s ← get_tables;
  device_map_data ← deref (GetDeviceMapEntry s device);
  calls ← dispatch_device device_map_data (DC_GetMemoryFdPropertiesKHR device handleType fd);
  let result := next_result in
  match next_memoryTypeBits with
  | Some memoryTypeBits =>
      when (d_layer_enabled device_map_data && is_success result)
        (modify (set_ext_mem_fd_map
           (<[fd := {| fd_device := device; fd_memory_type := memoryTypeBits |}]>)))
  | None => mret tt
  end;;
  mret (result, calls).

(** *** The extensions of a new device *)

Definition VK_EXT_MEMORY_BUDGET_EXTENSION_NAME : string := "VK_EXT_memory_budget".
Definition VK_KHR_SYNCHRONIZATION_2_EXTENSION_NAME : string := "VK_KHR_synchronization2".
Definition VK_KHR_EXTERNAL_MEMORY_FD_EXTENSION_NAME : string := "VK_KHR_external_memory_fd".
Definition VK_KHR_SWAPCHAIN_EXTENSION_NAME : string := "VK_KHR_swapchain".
Definition VK_EXT_DISPLAY_CONTROL_EXTENSION_NAME : string := "VK_EXT_display_control".
Definition VK_EXT_SWAPCHAIN_MAINTENANCE_1_EXTENSION_NAME : string :=
  "VK_EXT_swapchain_maintenance1".

(** "Force on mem budge if it's available": the extension names of
    [local_create] in [CreateDevice]. *)
Definition force_memory_budget (supported : DeviceExtensions) (requested : list string)
    : list string :=
  if core_1_1 supported && EXT_mem_budget supported then
    if names_include requested VK_EXT_MEMORY_BUDGET_EXTENSION_NAME then requested
    else requested ++ [VK_EXT_MEMORY_BUDGET_EXTENSION_NAME]
  else requested.

(** "Look through extensions": [extension_enables] of the new device
    record. *)
Definition read_device_extension_enables (names : list string) : DeviceExtensions :=
  {| core_1_1 := false; core_1_2 := false; core_1_3 := false;
     KHR_external_mem_fd := names_include names VK_KHR_EXTERNAL_MEMORY_FD_EXTENSION_NAME;
     KHR_swapchain := names_include names VK_KHR_SWAPCHAIN_EXTENSION_NAME;
     KHR_sync2 := names_include names VK_KHR_SYNCHRONIZATION_2_EXTENSION_NAME;
     EXT_display_control := names_include names VK_EXT_DISPLAY_CONTROL_EXTENSION_NAME;
     EXT_mem_budget := names_include names VK_EXT_MEMORY_BUDGET_EXTENSION_NAME;
     EXT_swapchain_maintenance1 :=
       names_include names VK_EXT_SWAPCHAIN_MAINTENANCE_1_EXTENSION_NAME |}.

End SimulatorSetup.

(** * Further properties of the layers

    Definitions used to state properties of the code beyond the ones
    above. *)

(** ** Fences *)

(** What [ResetFences] leaves of a record. *)
Definition cleared (f : FenceMapStruct) : FenceMapStruct :=
  set_elapsed_count 0 (set_wait_completed false (set_wait_started false (set_signalled false f))).

(** The entry of a fence after it was reset: a handle without a record
    keeps, or gets, a null entry. *)
Definition reset_entry (entry : option (option FenceMapStruct)) : option (option FenceMapStruct) :=
  match entry with
  | Some (Some f) => Some (Some (cleared f))
  | _ => Some None
  end.

(** The two states agree on every table but the fence table. *)
Definition only_fences_differ (s s' : State) : Prop :=
  s' = set_fence_map (λ _, g_fence_map s') s.

(** ** A device for which the simulator is disabled *)

(** The world after a call was handed down the chain and nothing else
    happened. *)
Definition after_forward (c : DownCall) (w : World) : World :=
  {| tables := tables w; trace := trace w ++ [Forwarded c]; clock := clock w |}.

(** Device 8 of the populated world: no delay and 100 percent are
    configured, so the layer is disabled for it. *)
Definition disabled_device : DeviceMapStruct :=
  {| physical_device := 2%N; d_dispatch_table := Some {| has_GetProcAddr := true |};
     extension_enables := no_device_extensions; memory_bindings_updated := false;
     d_layer_enabled := false; fence_delay_type := FENCE_DELAY_NONE;
     fence_delay_count := 0 |}.

Definition disabled_world : World :=
  world_of (set_device_map (<[8%N := disabled_device]>) populated_tables).

(** ** Delays in milliseconds *)

(** The same world when the clock shows [c] nanoseconds. *)
Definition at_clock (c : Z) (w : World) : World :=
  {| tables := tables w; trace := trace w; clock := c |}.

Definition milliseconds (n : Z) : Z := n * 1000000.

(** Fence 5 was signalled when the clock showed 0 and is to be held back
    for 100 ms from then on. *)
Definition triggered_fence : FenceMapStruct :=
  {| f_device := 1%N; signalled := true; wait_started := false; wait_completed := false;
     delay_type := FENCE_DELAY_MS_FROM_TRIGGER; delay_count := 100; elapsed_count := 0;
     start_time := 0 |}.

Definition triggered_world : World :=
  world_of (set_fence_map (<[5%N := Some triggered_fence]>) populated_tables).

(** ** Waits with a timeout of a second or more *)

(** What such a wait sleeps for a fence in fail-count mode: ten
    milliseconds for each failed wait of its delay count, the product being
    a [uint32_t]; it does not sleep when that is zero. *)
Definition long_wait_sleep (s : State) (fence : VkFence) : list Event :=
  match g_fence_map s !! fence with
  | Some (Some f) =>
      let sleep_time := (delay_count f * 10) mod 2 ^ 32 in
      if sleep_time =? 0 then [] else [SleptFor sleep_time]
  | _ => []
  end.

(** Fence 5 is to fail 3 waits, fence 6 none (the default count), fence 7
    so many that ten times the count no longer fits 32 bits. *)
Definition fail_count_record (count : Z) : FenceMapStruct :=
  {| f_device := 1%N; signalled := true; wait_started := false; wait_completed := false;
     delay_type := FENCE_DELAY_NUM_FAIL_WAITS; delay_count := count; elapsed_count := 0;
     start_time := 0 |}.

Definition three_count_world : World :=
  world_of (set_fence_map (<[5%N := Some (fail_count_record 3)]>)
           (set_fence_map (<[6%N := Some (fail_count_record 0)]>)
           (set_fence_map (<[7%N := Some (fail_count_record 429496730)]>)
              populated_tables))).

(** ** The allocation counters of the simulator *)

(** The only heap of the budget world. *)
Definition half_heap : MemoryHeapWithBudget :=
  {| heap_size := 500; allocated := 0; budget := 0; usage := 0; flags := 1 |}.

(** The budget world after 400 units were allocated from its heap. *)
Definition allocated_world : World :=
  world_of (set_phys_device_map (<[2%N := with_allocated budget_phys 0 half_heap 400]>)
              (sample_tables false true)).

Definition oversized_request : VkMemoryAllocateInfo :=
  {| allocationSize := 2 ^ 64 - 300; memoryTypeIndex := 0 |}.

(** ** Physical devices *)

(** The record of a physical device that the layer sees for the first
    time, and the record after the instance of a known one was set. *)
Definition registered (instance : VkInstance) (instance_data_entry : InstanceMapStruct)
    (entry : option PhysDeviceMapStruct) : PhysDeviceMapStruct :=
  SimulatorSetup.set_pd_instance instance
    (default {| pd_instance := instance; memory_props := zero_memory_props;
                extensions_supported := no_device_extensions;
                memory_budget_updated := false;
                pd_layer_enabled := i_layer_enabled instance_data_entry;
                memory_percent := i_memory_percent instance_data_entry |} entry).

(** The two states agree on every table but the table of the physical
    devices. *)
Definition only_phys_devices_differ (s s' : State) : Prop :=
  s' = set_phys_device_map (λ _, g_phys_device_map s') s.

(** What the outer loop of [DestroyInstance] leaves of the table of the
    physical devices after it went through the entries [entries]. *)
Definition erase_physical_devices_of (instance : VkInstance)
    (entries : list (VkPhysicalDevice * PhysDeviceMapStruct))
    (m : gmap N PhysDeviceMapStruct) : gmap N PhysDeviceMapStruct :=
  foldl (λ m entry, if N.eqb (pd_instance entry.2) instance then delete entry.1 m else m)
    m entries.

(** No device of a physical device of the instance is left. *)
Definition no_device_of (instance : VkInstance) (s : State) : Prop :=
  ∀ device dev p,
    g_device_map s !! device = Some dev →
    g_phys_device_map s !! physical_device dev = Some p →
    pd_instance p ≠ instance.

(** Instance 100 with physical device 2, instance 101 with physical
    device 4, and no device. *)
Definition two_instance_world : World :=
  world_of
    {| g_instance_map := {[ 100%N := sample_instance false true;
                            101%N := sample_instance false true ]};
       g_phys_device_map :=
         {[ 2%N := sample_phys no_device_extensions;
            4%N := SimulatorSetup.set_pd_instance 101%N (sample_phys no_device_extensions) ]};
       g_device_map := ∅; g_ext_mem_fd_map := ∅; g_fence_map := ∅; g_buffer_map := ∅;
       g_image_map := ∅; g_memory_map := ∅; g_queue_to_device_map := ∅ |}.

(** * Proofs *)

(** ** The registry *)

Lemma erase_absent op h s : absent op h s → erase op h s = s.
Proof.
  destruct op; cbn; intros H;
    [ unfold EraseBufferMapEntry | unfold EraseImageMapEntry | unfold EraseMemoryMapEntry
    | unfold EraseFenceMapEntry | unfold EraseDeviceMapEntry | unfold EraseInstanceMapEntry ];
    by rewrite H.
Qed.

Lemma absent_after_erase op h s : absent op h (erase op h s).
Proof.
  destruct op; cbn.
  - unfold EraseBufferMapEntry. destruct (GetBufferMapEntry s h) eqn:E; [|done].
    unfold GetBufferMapEntry. cbn. apply lookup_delete_eq.
  - unfold EraseImageMapEntry. destruct (GetImageMapEntry s h) eqn:E; [|done].
    unfold GetImageMapEntry. cbn. apply lookup_delete_eq.
  - unfold EraseMemoryMapEntry. destruct (GetMemoryMapEntry s h) eqn:E; [|done].
    unfold GetMemoryMapEntry. cbn. apply lookup_delete_eq.
  - unfold EraseFenceMapEntry. destruct (GetFenceMapEntry s h) eqn:E; [|done].
    unfold GetFenceMapEntry. cbn. by rewrite lookup_delete_eq.
  - unfold EraseDeviceMapEntry. destruct (GetDeviceMapEntry s h) eqn:E; [|done].
    unfold GetDeviceMapEntry. cbn. apply lookup_delete_eq.
  - unfold EraseInstanceMapEntry. destruct (GetInstanceMapEntry s h) eqn:E; [|done].
    unfold GetInstanceMapEntry. cbn. apply lookup_delete_eq.
Qed.

(** C8. Idempotent erase: for each of the six erase operations of the
    registry (buffer, image, memory, fence, device, instance) and every
    handle, erasing a handle that has no record leaves every shadow table
    as it is, and erasing a handle twice leaves the tables as erasing it
    once does. *)
Theorem erase_idempotent (op : EraseOp) (h : N) (s : State) :
  (absent op h s → erase op h s = s) ∧
  erase op h (erase op h s) = erase op h s.
Proof.
  split.
  - apply erase_absent.
  - apply erase_absent, absent_after_erase.
Qed.

Lemma erase_idempotent_witness :
  absent EraseBuffer 7%N populated_tables ∧
  erase EraseBuffer 7%N populated_tables = populated_tables.
Proof.
  split; [reflexivity|].
  apply (proj1 (erase_idempotent EraseBuffer 7%N populated_tables)). reflexivity.
Defined.

(** *** The restart loop of [EraseExternalMemFdMapEntries] *)

Lemma first_fd_None device (m : gmap Z ExternalMemFdMapStruct) :
  first_fd_of_device device m = None →
  ∀ fd r, m !! fd = Some r → fd_device r ≠ device.
Proof.
  unfold first_fd_of_device. intros H fd r Hr Hd.
  destruct (List.find _ _) eqn:E; [done|].
  assert (Hin : In (fd, r) (map_to_list m))
    by apply list_elem_of_In, elem_of_map_to_list, Hr.
  pose proof (find_none _ _ E (fd, r) Hin) as Hf. cbn in Hf.
  apply N.eqb_neq in Hf. contradiction.
Qed.

Lemma first_fd_Some device (m : gmap Z ExternalMemFdMapStruct) fd :
  first_fd_of_device device m = Some fd →
  ∃ r, m !! fd = Some r ∧ fd_device r = device.
Proof.
  unfold first_fd_of_device. intros H.
  destruct (List.find _ _) as [[k r]|] eqn:E; [|done].
  injection H as <-. apply find_some in E as [Hin Heq].
  exists r. split.
  - by apply elem_of_map_to_list, list_elem_of_In.
  - by apply N.eqb_eq.
Qed.

(** The loop ends within [size m] restarts, with the entries of the other
    devices. *)
Lemma erase_fd_restart_loop_filter device fuel :
  ∀ m : gmap Z ExternalMemFdMapStruct, (size m ≤ fuel)%nat →
  erase_fd_restart_loop fuel device m
  = Some (filter (λ kv, fd_device kv.2 ≠ device) m).
Proof.
  induction fuel as [|fuel IH]; intros m Hsize.
  - assert (m = ∅) as -> by (apply map_size_empty_iff; lia).
    cbn. unfold first_fd_of_device. rewrite map_to_list_empty. cbn.
    by rewrite map_filter_empty.
  - cbn. destruct (first_fd_of_device device m) as [fd|] eqn:E.
    + apply first_fd_Some in E as (r & Hr & Hd).
      rewrite IH.
      * f_equal. rewrite map_filter_delete.
        apply delete_id. apply map_lookup_filter_None. right.
        intros x Hx. cbn. rewrite Hr in Hx. injection Hx as <-. tauto.
      * rewrite map_size_delete, Hr. assert (size m ≠ 0%nat); [|lia].
        intros Hz. apply map_size_empty_iff in Hz. subst. by rewrite lookup_empty in Hr.
    + f_equal. symmetry. apply map_filter_id.
      intros fd r Hr. cbn. by eapply first_fd_None.
Qed.

Lemma EraseExternalMemFdMapEntries_spec device s :
  EraseExternalMemFdMapEntries device s
  = set_ext_mem_fd_map (λ m, filter (λ kv, fd_device kv.2 ≠ device) m) s.
Proof.
  unfold EraseExternalMemFdMapEntries.
  by rewrite erase_fd_restart_loop_filter.
Qed.

(** ** Running an entry point *)

Ltac run_monad :=
  repeat (progress
    (unfold mbind, M_bind, mret, M_ret, deref, crash, out_of_fuel, when, assert,
       forward_device, forward, modify, get_tables, now, sleep_for;
     cbn [tables trace clock])).

(** Run on, using what is known about the lookups. *)
Tactic Notation "run_with" constr(H) := rewrite H; run_monad.

Lemma DestroyDevice_runs (device : VkDevice) (w : World) dev phys dt :
  GetDeviceMapEntry (tables w) device = Some dev →
  d_dispatch_table dev = Some dt →
  GetPhysicalDeviceMapEntry (tables w) (physical_device dev) = Some phys →
  Simulator.DestroyDevice device w
  = Done tt {| tables := EraseDeviceMapEntry device
                           (EraseExternalMemFdMapEntries device (tables w));
               trace := trace w ++ [Forwarded (DC_DestroyDevice device)];
               clock := clock w |}.
Proof.
  intros Hdev Hdt Hphys. unfold Simulator.DestroyDevice. run_monad.
  run_with Hdev. run_with Hdt.
  rewrite EraseExternalMemFdMapEntries_spec.
  unfold GetPhysicalDeviceMapEntry in *. cbn. by rewrite Hphys.
Qed.

Lemma Tracker_DestroyDevice_eq device w :
  Tracker.DestroyDevice device w = Simulator.DestroyDevice device w.
Proof. reflexivity. Qed.

Lemma erase_buffer_entries_spec buffer (l : list BufferMemoryStruct) (x : N) :
  x ∈ bm_buffer <$> erase_buffer_entries buffer l ↔ x ≠ buffer ∧ x ∈ bm_buffer <$> l.
Proof.
  induction l as [|e l IH]; cbn.
  - split; [intros H | intros [_ H]]; by apply elem_of_nil in H.
  - destruct (N.eqb_spec (bm_buffer e) buffer) as [Heq|Hne].
    + rewrite IH. rewrite elem_of_cons. intuition congruence.
    + cbn. rewrite !elem_of_cons, IH. intuition congruence.
Qed.

Lemma erase_image_entries_spec image (l : list ImageMemoryStruct) (x : N) :
  x ∈ imm_image <$> erase_image_entries image l ↔ x ≠ image ∧ x ∈ imm_image <$> l.
Proof.
  induction l as [|e l IH]; cbn.
  - split; [intros H | intros [_ H]]; by apply elem_of_nil in H.
  - destruct (N.eqb_spec (imm_image e) image) as [Heq|Hne].
    + rewrite IH. rewrite elem_of_cons. intuition congruence.
    + cbn. rewrite !elem_of_cons, IH. intuition congruence.
Qed.

Lemma unbind_buffer_lookup buffer s m r :
  g_memory_map (unbind_buffer buffer s) !! m = Some r →
  ∃ r0, g_memory_map s !! m = Some r0 ∧
        r = set_buffers (erase_buffer_entries buffer (buffers r0)) r0.
Proof.
  unfold unbind_buffer. cbn. rewrite lookup_fmap.
  destruct (g_memory_map s !! m) as [r0|]; cbn; [|done].
  intros [= <-]. eauto.
Qed.

Lemma unbind_image_lookup image s m r :
  g_memory_map (unbind_image image s) !! m = Some r →
  ∃ r0, g_memory_map s !! m = Some r0 ∧
        r = set_images (erase_image_entries image (images r0)) r0.
Proof.
  unfold unbind_image. cbn. rewrite lookup_fmap.
  destruct (g_memory_map s !! m) as [r0|]; cbn; [|done].
  intros [= <-]. eauto.
Qed.

(** The claim of C5 about device destruction fails: the records of the
    children of the device stay in their tables. *)
Lemma destroy_device_keeps_children : ¬ destroy_device_removes_children.
Proof.
  intros H.
  destruct (H populated_world
              {| tables := EraseDeviceMapEntry 1%N
                             (EraseExternalMemFdMapEntries 1%N populated_tables);
                 trace := [Forwarded (DC_DestroyDevice 1%N)]; clock := 0 |}
              1%N) as (Hb & _).
  - vm_compute. reflexivity.
  - eapply (Hb 10%N); [vm_compute; reflexivity | reflexivity].
Qed.

(** C5, as the code has it.  Erasing the record of an allocation leaves
    the buffer table and the image table as they are.  Erasing the record
    of a buffer (of an image) that has one removes the handle from the
    binding list of every allocation.  Destroying a device, in the
    simulator and in the tracker, removes the record of the device and
    every imported-descriptor record of the device, and leaves the buffer,
    image, allocation and fence tables as they are. *)
Theorem cascade_correctness (s : State) (memory : VkDeviceMemory) (buffer : VkBuffer)
    (image : VkImage) (device : VkDevice) (w : World)
    (buffer_record : BufferMapStruct) (image_record : ImageMapStruct)
    (dev : DeviceMapStruct) (phys : PhysDeviceMapStruct) (dt : DispatchTable)
    (Hbuffer : GetBufferMapEntry s buffer = Some buffer_record)
    (Himage : GetImageMapEntry s image = Some image_record)
    (Hdev : GetDeviceMapEntry (tables w) device = Some dev)
    (Hdt : d_dispatch_table dev = Some dt)
    (Hphys : GetPhysicalDeviceMapEntry (tables w) (physical_device dev) = Some phys) :
  (g_buffer_map (EraseMemoryMapEntry memory s) = g_buffer_map s ∧
   g_image_map (EraseMemoryMapEntry memory s) = g_image_map s) ∧
  (∀ m r, g_memory_map (EraseBufferMapEntry buffer s) !! m = Some r →
          buffer ∉ bm_buffer <$> buffers r) ∧
  (∀ m r, g_memory_map (EraseImageMapEntry image s) !! m = Some r →
          image ∉ imm_image <$> images r) ∧
  (∃ w', Simulator.DestroyDevice device w = Done tt w' ∧
         Tracker.DestroyDevice device w = Done tt w' ∧
         g_device_map (tables w') !! device = None ∧
         (∀ fd r, g_ext_mem_fd_map (tables w') !! fd = Some r → fd_device r ≠ device) ∧
         g_buffer_map (tables w') = g_buffer_map (tables w) ∧
         g_image_map (tables w') = g_image_map (tables w) ∧
         g_memory_map (tables w') = g_memory_map (tables w) ∧
         g_fence_map (tables w') = g_fence_map (tables w)).
Proof.
  split; [|split; [|split]].
  - unfold EraseMemoryMapEntry. by destruct (GetMemoryMapEntry s memory).
  - intros m r. unfold EraseBufferMapEntry. rewrite Hbuffer.
    intros (r0 & _ & ->)%unbind_buffer_lookup. cbn.
    rewrite erase_buffer_entries_spec. tauto.
  - intros m r. unfold EraseImageMapEntry. rewrite Himage.
    intros (r0 & _ & ->)%unbind_image_lookup. cbn.
    rewrite erase_image_entries_spec. tauto.
  - eexists. split; [by eapply DestroyDevice_runs|].
    split; [rewrite Tracker_DestroyDevice_eq; by eapply DestroyDevice_runs|].
    cbn. rewrite EraseExternalMemFdMapEntries_spec.
    unfold EraseDeviceMapEntry, GetDeviceMapEntry in *. cbn. rewrite Hdev. cbn.
    split; [apply lookup_delete_eq|].
    split; [|done].
    intros fd r (_ & Hr)%map_lookup_filter_Some. exact Hr.
Qed.

Lemma cascade_correctness_witness :
  ∃ w', Simulator.DestroyDevice 1%N populated_world = Done tt w' ∧
        g_device_map (tables w') !! 1%N = None ∧
        g_buffer_map (tables w') = g_buffer_map populated_tables.
Proof.
  destruct (cascade_correctness populated_tables 20%N 10%N 11%N 1%N populated_world
              {| b_device := 1%N; b_memory_reqs := no_requirements |}
              {| im_device := 1%N; im_memory_reqs := no_requirements |}
              sample_device (sample_phys no_device_extensions)
              {| has_GetProcAddr := true |}
              eq_refl eq_refl eq_refl eq_refl eq_refl)
    as (_ & _ & _ & w' & H1 & _ & H2 & _ & H3 & _).
  exists w'. auto.
Defined.

(** ** Symbol resolution *)

Lemma is_null_false (h : N) : h ≠ VK_NULL_HANDLE → is_null h = false.
Proof. intros H. by apply N.eqb_neq. Qed.

Lemma ask_next_link_instance record instance name next_proc w :
  match i_dispatch_table record with
  | Some table =>
      if has_GetProcAddr table then
        forward (DC_GetInstanceProcAddr instance name);; mret next_proc
      else mret None
  | None => mret None
  end w
  = ask_next_link (i_dispatch_table record) (DC_GetInstanceProcAddr instance name)
      next_proc w.
Proof. by destruct (i_dispatch_table record) as [[[]]|]. Qed.

Lemma ask_next_link_device record dev name next_proc w :
  match d_dispatch_table record with
  | Some table =>
      if has_GetProcAddr table then
        forward (DC_GetDeviceProcAddr dev name);; mret next_proc
      else mret None
  | None => mret None
  end w
  = ask_next_link (d_dispatch_table record) (DC_GetDeviceProcAddr dev name) next_proc w.
Proof. by destruct (d_dispatch_table record) as [[[]]|]. Qed.

(** A member of a list of gated symbols is one of its entries. *)
Ltac each_gated_symbol H :=
  repeat (apply elem_of_cons in H as [-> | H]); [.. | by apply elem_of_nil in H].

(** The gated symbols are in no table of the layers that is searched
    before the gated table. *)
Lemma gated_symbols_not_core (symbol : GatedSymbol) :
  symbol ∈ simulator_gated_symbols ∨ symbol ∈ tracker_gated_symbols
  ∨ symbol ∈ tracker0_gated_symbols →
  Simulator.ImplementedDeviceCommands symbol.1.1 = None ∧
  Tracker.ImplementedDeviceCommands symbol.1.1 = None ∧
  Simulator.ImplementedInstanceCommands symbol.1.1 = None ∧
  Tracker.ImplementedInstanceCommands symbol.1.1 = None ∧
  ∀ record : InstanceMapStruct,
    Tracker.ImplementedInstanceNewerCoreCommands record symbol.1.1 = None ∧
    Tracker.ImplementedInstanceExtensionCommands record symbol.1.1 = None ∧
    Tracker0.ImplementedInstanceNewerCoreCommands record symbol.1.1 = None ∧
    Tracker0.ImplementedInstanceExtensionCommands record symbol.1.1 = None.
Proof.
  intros [H | [H | H]]; each_gated_symbol H;
    (repeat (split; [reflexivity|]);
     intros [t [[] c12 c13 [] [] []] ty en cnt pct]; repeat split; reflexivity).
Qed.

(** The gated table of each text answers each of its symbols by the flag
    of the symbol's group. *)
Lemma device_extension_commands_gated (symbol : GatedSymbol)
    (supported : DeviceExtensions) :
  (symbol ∈ simulator_gated_symbols →
   Simulator.ImplementedDeviceExtensionCommands (Some supported) symbol.1.1
   = gated_answer symbol supported) ∧
  (symbol ∈ tracker_gated_symbols →
   Tracker.ImplementedDeviceExtensionCommands (Some supported) symbol.1.1
   = gated_answer symbol supported) ∧
  (symbol ∈ tracker0_gated_symbols →
   Tracker0.ImplementedDeviceExtensionCommands (Some supported) symbol.1.1
   = gated_answer symbol supported).
Proof.
  split; [|split]; intros H; each_gated_symbol H;
    destruct supported as [[] c12 [] [] [] [] [] e1 e2]; reflexivity.
Qed.

(** Without flags the gated table is skipped, except in the earlier
    tracker, where the core-1.1 group is searched. *)
Lemma device_extension_commands_without_flags (symbol : GatedSymbol) :
  Simulator.ImplementedDeviceExtensionCommands None symbol.1.1 = None ∧
  Tracker.ImplementedDeviceExtensionCommands None symbol.1.1 = None ∧
  (symbol ∈ tracker0_gated_symbols →
   Tracker0.ImplementedDeviceExtensionCommands None symbol.1.1
   = Some (LayerProc symbol.2)).
Proof.
  split; [reflexivity|]. split; [reflexivity|].
  intros H; each_gated_symbol H; reflexivity.
Qed.

Lemma lookup_command_Some (table : list (string * LayerFn)) (name : string) (proc : Proc) :
  lookup_command table name = Some proc →
  ∃ fn, (name, fn) ∈ table ∧ proc = LayerProc fn.
Proof.
  induction table as [|[n f] table IH]; cbn [lookup_command]; [done|].
  destruct (String.eqb_spec n name) as [-> | _].
  - intros [= <-]. exists f. split; [left|done].
  - intros (fn & Hin & ->)%IH. exists fn. split; [by right|done].
Qed.

Lemma search_groups_Some (groups : list (bool * list (string * LayerFn))) (name : string)
    (proc : Proc) :
  search_groups groups name = Some proc →
  ∃ table fn, (true, table) ∈ groups ∧ (name, fn) ∈ table ∧ proc = LayerProc fn.
Proof.
  induction groups as [|[enabled table] groups IH]; cbn [search_groups]; [done|].
  destruct enabled.
  - destruct (lookup_command table name) as [p|] eqn:Hhit.
    + intros [= <-]. apply lookup_command_Some in Hhit as (fn & Hin & ->).
      exists table, fn. split; [left|done].
    + intros (t & fn & Hin & Hname & ->)%IH. exists t, fn. split; [by right|done].
  - intros (t & fn & Hin & Hname & ->)%IH. exists t, fn. split; [by right|done].
Qed.

(** Each entry of the table of an enabled group is one of the gated
    symbols. *)
Ltac each_entry H :=
  repeat (apply elem_of_cons in H as [H | H]); [.. | by apply elem_of_nil in H].

Ltac found_in_list :=
  match goal with
  | |- ∃ _, _ ∧ _ = ?name ∧ _ =>
      eexists (name, _, _); split;
      [ repeat first [apply list_elem_of_here | apply list_elem_of_further]
      | by repeat split ]
  end.

(** The gated tables resolve no other name. *)
Lemma gated_tables_complete (supported : DeviceExtensions) (name : string) (proc : Proc) :
  (Simulator.ImplementedDeviceExtensionCommands (Some supported) name = Some proc →
   resolved_by simulator_gated_symbols supported name proc) ∧
  (Tracker.ImplementedDeviceExtensionCommands (Some supported) name = Some proc →
   resolved_by tracker_gated_symbols supported name proc) ∧
  (Tracker0.ImplementedDeviceExtensionCommands (Some supported) name = Some proc →
   resolved_by tracker0_gated_symbols supported name proc).
Proof.
  unfold resolved_by. split; [|split].
  - intros (table & fn & Hgroup & Hentry & ->)%search_groups_Some.
    each_entry Hgroup; injection Hgroup as Hflag ->; each_entry Hentry;
      injection Hentry as -> ->;
      found_in_list.
  - intros (table & fn & Hgroup & Hentry & ->)%search_groups_Some.
    each_entry Hgroup; injection Hgroup as Hflag ->; each_entry Hentry;
      injection Hentry as -> ->;
      found_in_list.
  - unfold Tracker0.ImplementedDeviceExtensionCommands.
    destruct (core_1_1 supported) eqn:Hflag; [|done].
    intros (fn & Hentry & ->)%lookup_command_Some.
    each_entry Hentry; injection Hentry as -> ->;
      found_in_list.
Qed.

(** The resolvers of devices, for a name that the core table of the
    layer does not have. *)
Lemma Simulator_GetDeviceProcAddr_run (w : World) (dev : VkDevice) (name : string)
    (device_record : DeviceMapStruct) (phys : PhysDeviceMapStruct)
    (next_proc : PFN_vkVoidFunction) :
  GetDeviceMapEntry (tables w) dev = Some device_record →
  GetPhysicalDeviceMapEntry (tables w) (physical_device device_record) = Some phys →
  Simulator.ImplementedDeviceCommands name = None →
  Simulator.GetDeviceProcAddr dev name next_proc w
  = match Simulator.ImplementedDeviceExtensionCommands
            (Some (extensions_supported phys)) name with
    | Some proc => Done (Some proc) w
    | None => ask_next_link (d_dispatch_table device_record)
                (DC_GetDeviceProcAddr dev name) next_proc w
    end.
Proof.
  intros Hdevice Hphys Hcore. unfold Simulator.GetDeviceProcAddr.
  rewrite Hcore. unfold or_else at 1. run_monad. run_with Hdevice. run_with Hphys.
  destruct (Simulator.ImplementedDeviceExtensionCommands _ _); [reflexivity|].
  cbn [or_else]. apply ask_next_link_device.
Qed.

Lemma Tracker_GetDeviceProcAddr_run (w : World) (dev : VkDevice) (name : string)
    (device_record : DeviceMapStruct) (phys : PhysDeviceMapStruct)
    (next_proc : PFN_vkVoidFunction) :
  GetDeviceMapEntry (tables w) dev = Some device_record →
  GetPhysicalDeviceMapEntry (tables w) (physical_device device_record) = Some phys →
  Tracker.ImplementedDeviceCommands name = None →
  Tracker.GetDeviceProcAddr dev name next_proc w
  = match Tracker.ImplementedDeviceExtensionCommands
            (Some (extensions_supported phys)) name with
    | Some proc => Done (Some proc) w
    | None => ask_next_link (d_dispatch_table device_record)
                (DC_GetDeviceProcAddr dev name) next_proc w
    end.
Proof.
  intros Hdevice Hphys Hcore. unfold Tracker.GetDeviceProcAddr.
  rewrite Hcore. unfold or_else at 1. run_monad. run_with Hdevice. run_with Hphys.
  destruct (Tracker.ImplementedDeviceExtensionCommands _ _); [reflexivity|].
  cbn [or_else]. apply ask_next_link_device.
Qed.

Lemma Tracker0_GetDeviceProcAddr_run (w : World) (dev : VkDevice) (name : string)
    (device_record : DeviceMapStruct) (phys : PhysDeviceMapStruct)
    (next_proc : PFN_vkVoidFunction) :
  GetDeviceMapEntry (tables w) dev = Some device_record →
  GetPhysicalDeviceMapEntry (tables w) (physical_device device_record) = Some phys →
  Tracker.ImplementedDeviceCommands name = None →
  Tracker0.GetDeviceProcAddr dev name next_proc w
  = match Tracker0.ImplementedDeviceExtensionCommands
            (Some (extensions_supported phys)) name with
    | Some proc => Done (Some proc) w
    | None => ask_next_link (d_dispatch_table device_record)
                (DC_GetDeviceProcAddr dev name) next_proc w
    end.
Proof.
  intros Hdevice Hphys Hcore. unfold Tracker0.GetDeviceProcAddr.
  rewrite Hcore. unfold or_else at 1. run_monad. run_with Hdevice. run_with Hphys.
  destruct (Tracker0.ImplementedDeviceExtensionCommands _ _); [reflexivity|].
  cbn [or_else]. apply ask_next_link_device.
Qed.

(** The claim of C6 fails on the [GetInstanceProcAddr] path of each of the
    three texts: the simulator and the tracker do not hand out the layer's
    function when the flag is true, the earlier tracker hands it out when
    the flag is false. *)
Lemma instance_path_not_gated :
  ¬ instance_path_is_gated Simulator.GetInstanceProcAddr ∧
  ¬ instance_path_is_gated Tracker.GetInstanceProcAddr ∧
  ¬ instance_path_is_gated Tracker0.GetInstanceProcAddr.
Proof.
  split; [|split]; intros H.
  - destruct (H (world_of (sample_tables true true)) 100%N (sample_instance true true) None
                eq_refl) as [w' Hw'].
    vm_compute in Hw'. discriminate.
  - destruct (H (world_of (sample_tables true true)) 100%N (sample_instance true true) None
                eq_refl) as [w' Hw'].
    vm_compute in Hw'. discriminate.
  - destruct (H (world_of (sample_tables false true)) 100%N (sample_instance false true) None
                eq_refl) as [w' Hw'].
    vm_compute in Hw'. discriminate.
Qed.

(** C6, as the code has it.  For every device-level symbol of a versioned
    or extension-gated group, in each of the three texts (the twelve
    symbols of the simulator, the eleven of the tracker, the four of the
    earlier tracker, which are all the names that the gated table of the
    text resolves; ["vkBindBufferMemory2"] with the flag [core_1_1] is one
    of them in all three): [ImplementedDeviceExtensionCommands], given the
    flags of a physical device, returns null while the flag of the
    symbol's group is false and the layer's function once it is true.
    [GetDeviceProcAddr] passes the flags of the physical device of the
    device: it returns the layer's function when the flag is true and
    otherwise the answer of the next link (null when the dispatch table has
    no resolver).  [GetInstanceProcAddr] passes no flags: in the simulator
    and the tracker it then returns the answer of the next link whatever
    the instance's flags are, in the earlier tracker it returns the layer's
    function whatever they are. *)
Theorem gated_symbol_resolution (w : World) (instance : VkInstance) (dev : VkDevice)
    (instance_record : InstanceMapStruct) (device_record : DeviceMapStruct)
    (phys : PhysDeviceMapStruct) (next_proc : PFN_vkVoidFunction)
    (Hnonnull : instance ≠ VK_NULL_HANDLE)
    (Hinstance : GetInstanceMapEntry (tables w) instance = Some instance_record)
    (Hdevice : GetDeviceMapEntry (tables w) dev = Some device_record)
    (Hphys : GetPhysicalDeviceMapEntry (tables w) (physical_device device_record)
             = Some phys) :
  let device_path (symbol : GatedSymbol) :=
    match gated_answer symbol (extensions_supported phys) with
    | Some proc => Done (Some proc) w
    | None => ask_next_link (d_dispatch_table device_record)
                (DC_GetDeviceProcAddr dev symbol.1.1) next_proc w
    end in
  let next_instance (symbol : GatedSymbol) :=
    ask_next_link (i_dispatch_table instance_record)
      (DC_GetInstanceProcAddr instance symbol.1.1) next_proc w in
  (∀ symbol, symbol ∈ simulator_gated_symbols →
     (∀ supported,
        Simulator.ImplementedDeviceExtensionCommands (Some supported) symbol.1.1
        = gated_answer symbol supported) ∧
     Simulator.GetDeviceProcAddr dev symbol.1.1 next_proc w = device_path symbol ∧
     Simulator.GetInstanceProcAddr instance symbol.1.1 next_proc w
     = next_instance symbol) ∧
  (∀ symbol, symbol ∈ tracker_gated_symbols →
     (∀ supported,
        Tracker.ImplementedDeviceExtensionCommands (Some supported) symbol.1.1
        = gated_answer symbol supported) ∧
     Tracker.GetDeviceProcAddr dev symbol.1.1 next_proc w = device_path symbol ∧
     Tracker.GetInstanceProcAddr instance symbol.1.1 next_proc w
     = next_instance symbol) ∧
  (∀ symbol, symbol ∈ tracker0_gated_symbols →
     (∀ supported,
        Tracker0.ImplementedDeviceExtensionCommands (Some supported) symbol.1.1
        = gated_answer symbol supported) ∧
     Tracker0.GetDeviceProcAddr dev symbol.1.1 next_proc w = device_path symbol ∧
     Tracker0.GetInstanceProcAddr instance symbol.1.1 next_proc w
     = Done (Some (LayerProc symbol.2)) w) ∧
  (vkBindBufferMemory2, core_1_1, Fn_BindBufferMemory2) ∈ simulator_gated_symbols ∧
  (vkBindBufferMemory2, core_1_1, Fn_BindBufferMemory2) ∈ tracker_gated_symbols ∧
  (vkBindBufferMemory2, core_1_1, Fn_BindBufferMemory2) ∈ tracker0_gated_symbols ∧
  (∀ supported name proc,
     (Simulator.ImplementedDeviceExtensionCommands (Some supported) name = Some proc →
      resolved_by simulator_gated_symbols supported name proc) ∧
     (Tracker.ImplementedDeviceExtensionCommands (Some supported) name = Some proc →
      resolved_by tracker_gated_symbols supported name proc) ∧
     (Tracker0.ImplementedDeviceExtensionCommands (Some supported) name = Some proc →
      resolved_by tracker0_gated_symbols supported name proc)).
Proof.
  intros device_path next_instance.
  pose proof (is_null_false _ Hnonnull) as Hnull.
  split; [|split; [|split]].
  - intros symbol Hin.
    destruct (gated_symbols_not_core symbol (or_introl Hin))
      as (Hds & _ & His & _ & Hrecord).
    destruct (Hrecord instance_record) as (Hn & He & _ & _).
    destruct (device_extension_commands_without_flags symbol) as (Hnone & _ & _).
    split; [intros supported; by apply device_extension_commands_gated|].
    split.
    + rewrite (Simulator_GetDeviceProcAddr_run w dev _ device_record phys next_proc
                 Hdevice Hphys Hds).
      by rewrite (proj1 (device_extension_commands_gated symbol _) Hin).
    + unfold Simulator.GetInstanceProcAddr. rewrite His, Hnull. unfold or_else at 1.
      run_monad. rewrite Hinstance.
      unfold Simulator.ImplementedInstanceNewerCoreCommands,
        Simulator.ImplementedInstanceExtensionCommands.
      rewrite Hn, He, Hds, Hnone. cbn [or_else]. apply ask_next_link_instance.
  - intros symbol Hin.
    destruct (gated_symbols_not_core symbol (or_intror (or_introl Hin)))
      as (_ & Hdt & _ & Hit & Hrecord).
    destruct (Hrecord instance_record) as (Hn & He & _ & _).
    destruct (device_extension_commands_without_flags symbol) as (_ & Hnone & _).
    split; [intros supported; by apply device_extension_commands_gated|].
    split.
    + rewrite (Tracker_GetDeviceProcAddr_run w dev _ device_record phys next_proc
                 Hdevice Hphys Hdt).
      by rewrite (proj1 (proj2 (device_extension_commands_gated symbol _)) Hin).
    + unfold Tracker.GetInstanceProcAddr. rewrite Hit, Hnull. unfold or_else at 1.
      run_monad. rewrite Hinstance.
      rewrite Hn, He, Hdt, Hnone. cbn [or_else]. apply ask_next_link_instance.
  - intros symbol Hin.
    destruct (gated_symbols_not_core symbol (or_intror (or_intror Hin)))
      as (_ & Hdt & _ & Hit & Hrecord).
    destruct (Hrecord instance_record) as (_ & _ & Hn0 & He0).
    destruct (device_extension_commands_without_flags symbol) as (_ & _ & Hsome).
    split; [intros supported; by apply device_extension_commands_gated|].
    split.
    + rewrite (Tracker0_GetDeviceProcAddr_run w dev _ device_record phys next_proc
                 Hdevice Hphys Hdt).
      by rewrite (proj2 (proj2 (device_extension_commands_gated symbol _)) Hin).
    + unfold Tracker0.GetInstanceProcAddr. rewrite Hit, Hnull. unfold or_else at 1.
      run_monad. rewrite Hinstance.
      rewrite Hn0, He0, Hdt, (Hsome Hin). reflexivity.
  - unfold simulator_gated_symbols, tracker_gated_symbols, tracker0_gated_symbols.
    repeat (split; [do 2 apply list_elem_of_further; apply list_elem_of_here|]).
    apply gated_tables_complete.
Qed.

Lemma gated_symbol_resolution_witness :
  Simulator.GetDeviceProcAddr 1%N "vkQueuePresentKHR" (Some (NextProc 77%N))
    (world_of (sample_tables true true))
  = Done (Some (NextProc 77%N))
      {| tables := sample_tables true true;
         trace := [Forwarded (DC_GetDeviceProcAddr 1%N "vkQueuePresentKHR")];
         clock := 0 |} ∧
  Simulator.GetDeviceProcAddr 1%N vkBindBufferMemory2 (Some (NextProc 77%N))
    (world_of (sample_tables true true))
  = Done (Some (LayerProc Fn_BindBufferMemory2)) (world_of (sample_tables true true)).
Proof.
  pose proof (gated_symbol_resolution (world_of (sample_tables true true))
    100%N 1%N (sample_instance true true) sample_device (sample_phys core_1_1_supported)
    (Some (NextProc 77%N)) ltac:(discriminate) eq_refl eq_refl eq_refl) as (H & _).
  split.
  - refine (proj1 (proj2 (H ("vkQueuePresentKHR"%string, KHR_swapchain, Fn_QueuePresentKHR)
                            _))).
    do 9 apply list_elem_of_further. apply list_elem_of_here.
  - refine (proj1 (proj2 (H (vkBindBufferMemory2, core_1_1, Fn_BindBufferMemory2) _))).
    do 2 apply list_elem_of_further. apply list_elem_of_here.
Defined.

(** ** The pNext search *)

Lemma budget_search_stuck (fuel : nat) (sType : Z) (rest : list OutStructure) :
  budget_search fuel (OtherOutStructure sType :: rest) = None.
Proof. induction fuel as [|fuel IH]; [reflexivity | exact IH]. Qed.

(** C9 fails on the code.  The search leaves its loop at once on an empty
    chain and on a chain that starts with the budget structure; on a chain
    that starts with any other structure no number of iterations ends it,
    and with such a chain neither the simulator's nor the tracker's
    [GetPhysicalDeviceMemoryProperties2] returns. *)
Theorem budget_search_does_not_terminate (fuel : nat) (w : World)
    (physicalDevice : VkPhysicalDevice) (phys : PhysDeviceMapStruct)
    (instance_record : InstanceMapStruct) (dt : DispatchTable)
    (sType : Z) (rest : list OutStructure) (props : VkPhysicalDeviceMemoryProperties)
    (Hphys : GetPhysicalDeviceMapEntry (tables w) physicalDevice = Some phys)
    (Hinstance : GetInstanceMapEntry (tables w) (pd_instance phys) = Some instance_record)
    (Hdt : i_dispatch_table instance_record = Some dt)
    (Henabled : pd_layer_enabled phys = true) :
  let query := {| pNext := OtherOutStructure sType :: rest; memoryProperties := props |} in
  budget_search (S fuel) [] = Some None ∧
  (∀ b, budget_search (S fuel) (MemoryBudgetPropertiesEXT b :: rest) = Some (Some b)) ∧
  budget_search fuel (pNext query) = None ∧
  Simulator.GetPhysicalDeviceMemoryProperties2 fuel physicalDevice (Some query) w = OutOfFuel ∧
  Tracker.GetPhysicalDeviceMemoryProperties2 fuel physicalDevice (Some query) w = OutOfFuel.
Proof.
  intros query. split; [reflexivity|]. split; [reflexivity|].
  split; [apply budget_search_stuck|]. split.
  - unfold Simulator.GetPhysicalDeviceMemoryProperties2. run_monad.
    run_with Hphys. run_with Hinstance. run_with Hdt. rewrite Henabled.
    unfold run_budget_search. cbn [pNext query]. rewrite budget_search_stuck. reflexivity.
  - unfold Tracker.GetPhysicalDeviceMemoryProperties2. run_monad.
    run_with Hphys. run_with Hinstance. run_with Hdt.
    unfold run_budget_search. cbn [pNext query]. rewrite budget_search_stuck. reflexivity.
Qed.

Lemma budget_search_does_not_terminate_witness :
  Simulator.GetPhysicalDeviceMemoryProperties2 1000 2%N (Some query_with_other_first)
    sample_world = OutOfFuel ∧
  Tracker.GetPhysicalDeviceMemoryProperties2 1000 2%N (Some query_with_other_first)
    sample_world = OutOfFuel.
Proof.
  exact (proj2 (proj2 (proj2 (budget_search_does_not_terminate 1000 sample_world 2%N
    (sample_phys no_device_extensions) (sample_instance false true)
    {| has_GetProcAddr := true |} 1000238000 [MemoryBudgetPropertiesEXT driver_budget]
    driver_props eq_refl eq_refl eq_refl eq_refl)))).
Defined.

(** ** Freeing a handle that has no record *)

(** C10 fails on the code.  With the layer enabled and a memory percentage
    below 100, the simulator's [FreeMemory] of a handle without a record
    (the null handle among them) reads through the null pointer that
    [g_memory_map[memory]] has just inserted; the tracker's [FreeMemory],
    which goes through [EraseMemoryMapEntry], returns and leaves the tables
    as they are. *)
Theorem FreeMemory_without_record (w : World) (device : VkDevice) (memory : VkDeviceMemory)
    (dev : DeviceMapStruct) (phys : PhysDeviceMapStruct) (dt : DispatchTable)
    (Hdev : GetDeviceMapEntry (tables w) device = Some dev)
    (Hdt : d_dispatch_table dev = Some dt)
    (Henabled : d_layer_enabled dev = true)
    (Hphys : GetPhysicalDeviceMapEntry (tables w) (physical_device dev) = Some phys)
    (Hpercent : memory_percent phys < 100)
    (Habsent : GetMemoryMapEntry (tables w) memory = None) :
  Simulator.FreeMemory device memory w = Crashed ∧
  Tracker.FreeMemory device memory w
  = Done tt {| tables := tables w;
               trace := trace w ++ [Forwarded (DC_FreeMemory device memory)];
               clock := clock w |}.
Proof.
  split.
  - unfold Simulator.FreeMemory. run_monad. run_with Hdev. run_with Hdt.
    rewrite Henabled. run_with Hphys.
    apply Z.ltb_lt in Hpercent. rewrite Hpercent.
    unfold GetMemoryMapEntry in Habsent. rewrite Habsent. reflexivity.
  - unfold Tracker.FreeMemory. run_monad. run_with Hdev. run_with Hdt.
    unfold EraseMemoryMapEntry. by rewrite Habsent.
Qed.

Lemma FreeMemory_without_record_witness :
  Simulator.FreeMemory 1%N VK_NULL_HANDLE populated_world = Crashed.
Proof.
  exact (proj1 (FreeMemory_without_record populated_world 1%N VK_NULL_HANDLE sample_device
    (sample_phys no_device_extensions) {| has_GetProcAddr := true |}
    eq_refl eq_refl eq_refl eq_refl eq_refl eq_refl)).
Defined.

(** ** A forwarded call that fails *)

(** C7 fails on the code.  In the simulator with the layer enabled,
    [GetPhysicalDeviceToolPropertiesEXT] returns the value of a variable it
    never assigned, whatever the forwarded call returned (the tracker
    returns the forwarded result); [AcquireNextImageKHR] and
    [QueueBindSparse] mark the fence signalled before they forward, so the
    fence table is changed although the forwarded call failed (after a
    failed [QueueSubmit] the tables are as before); and [ResetFences]
    clears the record of the fence before it forwards. *)
Theorem upstream_failure_is_not_passed_through (next_result indeterminate : VkResult) :
  returned (Simulator.GetPhysicalDeviceToolPropertiesEXT 2%N 0 false next_result 0
              indeterminate populated_world) = Some (indeterminate, 1) ∧
  returned (Tracker.GetPhysicalDeviceToolPropertiesEXT 2%N 0 false next_result 0
              populated_world) = Some (next_result, 1) ∧
  g_fence_map populated_tables !! 5%N = Some (Some (fresh_fence false 0)) ∧
  (let run := Simulator.AcquireNextImageKHR 1%N 30%N 0 0%N 5%N failing_result
                populated_world in
   returned run = Some failing_result ∧
   fence_after 5%N run = Some (Some (fresh_fence true 0))) ∧
  (let run := Simulator.QueueBindSparse 9%N 5%N failing_result populated_world in
   returned run = Some failing_result ∧
   fence_after 5%N run = Some (Some (fresh_fence true 0))) ∧
  (let run := Simulator.QueueSubmit 9%N 5%N failing_result driver_props driver_budget
                populated_world in
   returned run = Some failing_result ∧ tables_after run = Some populated_tables) ∧
  (let run := (Simulator.QueueSubmit 9%N 5%N VK_SUCCESS driver_props driver_budget;;
               Simulator.ResetFences 1%N [5%N] failing_result) populated_world in
   fence_after 5%N (Simulator.QueueSubmit 9%N 5%N VK_SUCCESS driver_props driver_budget
                      populated_world) = Some (Some (fresh_fence true 0)) ∧
   returned run = Some failing_result ∧
   fence_after 5%N run = Some (Some (fresh_fence false 0))).
Proof. repeat split; vm_compute; reflexivity. Qed.

(** ** Budget admission *)

Example AdjustMemoryByPercent_1000_50 : Simulator.AdjustMemoryByPercent 1000 50 = Some 500.
Proof. vm_compute. reflexivity. Qed.

Example budget_phys_heap :
  Simulator.budget_heap_of budget_phys 0
  = Some (0%nat, {| heap_size := 500; allocated := 0; budget := 0; usage := 0; flags := 1 |}).
Proof. vm_compute. reflexivity. Qed.

Lemma budget_heap_of_with_allocated phys type_index heap budget_heap a :
  Simulator.budget_heap_of phys type_index = Some (heap, budget_heap) →
  Simulator.budget_heap_of (with_allocated phys heap budget_heap a) type_index
  = Some (heap, set_allocated a budget_heap).
Proof.
  unfold Simulator.budget_heap_of, with_allocated. cbn.
  destruct (memoryTypes (memory_props phys) !! Z.to_nat type_index) as [ty|]; cbn; [|done].
  destruct (memoryHeaps (memory_props phys) !! Z.to_nat (heapIndex ty)) as [h|] eqn:E;
    cbn; [|done].
  intros [= <- <-]. rewrite list_lookup_insert_eq; [done|].
  by eapply lookup_lt_Some.
Qed.

(** What [AllocateMemory] does with the layer enabled and a percentage
    below 100. *)
Lemma AllocateMemory_enabled (w : World) (device : VkDevice) (dev : DeviceMapStruct)
    (phys : PhysDeviceMapStruct) (dt : DispatchTable) (info : VkMemoryAllocateInfo)
    (heap : nat) (budget_heap : MemoryHeapWithBudget)
    (next_result : VkResult) (next_memory : VkDeviceMemory) :
  GetDeviceMapEntry (tables w) device = Some dev →
  d_dispatch_table dev = Some dt →
  d_layer_enabled dev = true →
  GetPhysicalDeviceMapEntry (tables w) (physical_device dev) = Some phys →
  memory_percent phys < 100 →
  Simulator.budget_heap_of phys (memoryTypeIndex info) = Some (heap, budget_heap) →
  let potential_alloc := wrap64 (allocated budget_heap + allocationSize info) in
  let limit := if 0 <? budget budget_heap then budget budget_heap
               else heap_size budget_heap in
  let sent := trace w ++ [Forwarded (DC_AllocateMemory device (Some info))] in
  Simulator.AllocateMemory device (Some info) next_result next_memory w
  = if limit <? potential_alloc then Done VK_ERROR_OUT_OF_DEVICE_MEMORY w
    else if is_success next_result then
      Done next_result
        {| tables :=
             set_phys_device_map
               (<[physical_device dev := with_allocated phys heap budget_heap potential_alloc]>)
               (set_memory_map
                  (<[next_memory := {| m_device := device; alloc_info := info;
                                       buffers := []; images := [] |}]>) (tables w));
           trace := sent; clock := clock w |}
    else Done next_result {| tables := tables w; trace := sent; clock := clock w |}.
Proof.
  intros Hdev Hdt Henabled Hphys Hpercent%Z.ltb_lt Hheap potential_alloc limit sent.
  unfold Simulator.AllocateMemory, Simulator.over_budget. run_monad.
  run_with Hdev. rewrite Henabled. run_with Hphys. rewrite Hpercent. run_with Hheap.
  subst limit. fold potential_alloc.
  destruct (0 <? budget budget_heap).
  - run_monad. destruct (budget budget_heap <? potential_alloc); [destruct w; reflexivity|].
    run_with Hdt. destruct (is_success next_result); run_monad; reflexivity.
  - run_monad. destruct (heap_size budget_heap <? potential_alloc); [destruct w; reflexivity|].
    run_with Hdt. destruct (is_success next_result); run_monad; reflexivity.
Qed.

(** What [FreeMemory] does there with a handle that has a record. *)
Lemma FreeMemory_enabled (w : World) (device : VkDevice) (memory : VkDeviceMemory)
    (dev : DeviceMapStruct) (phys : PhysDeviceMapStruct) (dt : DispatchTable)
    (record : MemoryMapStruct) (heap : nat) (budget_heap : MemoryHeapWithBudget) :
  GetDeviceMapEntry (tables w) device = Some dev →
  d_dispatch_table dev = Some dt →
  d_layer_enabled dev = true →
  GetPhysicalDeviceMapEntry (tables w) (physical_device dev) = Some phys →
  memory_percent phys < 100 →
  GetMemoryMapEntry (tables w) memory = Some record →
  Simulator.budget_heap_of phys (memoryTypeIndex (alloc_info record))
  = Some (heap, budget_heap) →
  Simulator.FreeMemory device memory w
  = Done tt
      {| tables :=
           set_memory_map (delete memory)
             (set_phys_device_map
                (<[physical_device dev :=
                     with_allocated phys heap budget_heap
                       (wrap64 (allocated budget_heap
                                - allocationSize (alloc_info record)))]>) (tables w));
         trace := trace w ++ [Forwarded (DC_FreeMemory device memory)];
         clock := clock w |}.
Proof.
  intros Hdev Hdt Henabled Hphys Hpercent%Z.ltb_lt Hrecord Hheap.
  unfold Simulator.FreeMemory. run_monad.
  run_with Hdev. run_with Hdt. rewrite Henabled. run_with Hphys. rewrite Hpercent.
  unfold GetMemoryMapEntry in Hrecord. run_with Hrecord. run_with Hheap.
  unfold EraseMemoryMapEntry, GetMemoryMapEntry. cbn. by rewrite Hrecord.
Qed.

Lemma budget_heap_of_lt phys type_index heap budget_heap :
  Simulator.budget_heap_of phys type_index = Some (heap, budget_heap) →
  (heap < length (memoryHeaps (memory_props phys)))%nat.
Proof.
  unfold Simulator.budget_heap_of.
  destruct (memoryTypes (memory_props phys) !! Z.to_nat type_index) as [ty|]; cbn; [|done].
  destruct (memoryHeaps (memory_props phys) !! Z.to_nat (heapIndex ty)) as [h|] eqn:E;
    cbn; [|done].
  intros [= <- <-]. by eapply lookup_lt_Some.
Qed.

Lemma allocated_in_with_allocated s physical_device phys heap budget_heap a :
  (heap < length (memoryHeaps (memory_props phys)))%nat →
  allocated_in
    (set_phys_device_map (<[physical_device := with_allocated phys heap budget_heap a]>) s)
    physical_device heap = Some a.
Proof.
  intros Hlt. unfold allocated_in. cbn. rewrite lookup_insert_eq. cbn.
  by rewrite list_lookup_insert_eq.
Qed.

Lemma with_allocated_length phys heap budget_heap a :
  length (memoryHeaps (memory_props (with_allocated phys heap budget_heap a)))
  = length (memoryHeaps (memory_props phys)).
Proof. cbn. apply length_insert. Qed.

(** The claim of C2 fails as worded.  The check of [AllocateMemory] takes
    the recorded budget of the heap for its capacity when there is one,
    not the recorded size.  On the heap of 1000 units recorded at 50
    percent (size 500) together with a budget of 300 units, the request of
    400 units is refused and not forwarded.  On the same heap recorded
    with a budget of 900 units, the request of 200 units that follows the
    granted 400 is forwarded as well, and the counter stands at 600. *)
Lemma recorded_budget_replaces_size :
  ¬ admitted_within_recorded_size ∧
  ¬ refused_beyond_recorded_size ∧
  (∃ budget_heap : MemoryHeapWithBudget,
     Simulator.budget_heap_of scarce_phys 0 = Some (0%nat, budget_heap) ∧
     heap_size budget_heap = 500 ∧ budget budget_heap = 300 ∧
     Simulator.AllocateMemory 1%N (request 400 0) VK_SUCCESS 20%N scarce_world
     = Done VK_ERROR_OUT_OF_DEVICE_MEMORY scarce_world) ∧
  (∃ (w1 w2 : World) (budget_heap : MemoryHeapWithBudget),
     Simulator.budget_heap_of budgeted_phys 0 = Some (0%nat, budget_heap) ∧
     heap_size budget_heap = 500 ∧ budget budget_heap = 900 ∧
     Simulator.AllocateMemory 1%N (request 400 0) VK_SUCCESS 20%N budgeted_world
     = Done VK_SUCCESS w1 ∧
     Simulator.AllocateMemory 1%N (request 200 0) VK_SUCCESS 21%N w1 = Done VK_SUCCESS w2 ∧
     forwarded (trace w2)
     = [DC_AllocateMemory 1%N (request 400 0); DC_AllocateMemory 1%N (request 200 0)] ∧
     allocated_in (tables w2) 2%N 0 = Some 600).
Proof.
  assert (Hscarce : Simulator.budget_heap_of scarce_phys 0
                    = Some (0%nat, {| heap_size := 500; allocated := 0; budget := 300;
                                      usage := 50; flags := 1 |}))
    by (vm_compute; reflexivity).
  assert (H0 : Simulator.AllocateMemory 1%N (request 400 0) VK_SUCCESS 20%N scarce_world
               = Done VK_ERROR_OUT_OF_DEVICE_MEMORY scarce_world)
    by (vm_compute; reflexivity).
  assert (Hheap : Simulator.budget_heap_of budgeted_phys 0
                  = Some (0%nat, {| heap_size := 500; allocated := 0; budget := 900;
                                    usage := 50; flags := 1 |}))
    by (vm_compute; reflexivity).
  destruct (Simulator.AllocateMemory 1%N (request 400 0) VK_SUCCESS 20%N budgeted_world)
    as [r1 w1| |] eqn:H1; [|by vm_compute in H1..].
  pose proof H1 as Hw1. vm_compute in Hw1. injection Hw1 as <- <-.
  match type of H1 with _ = Done _ ?x => set (w1 := x) in * end.
  destruct (Simulator.AllocateMemory 1%N (request 200 0) VK_SUCCESS 21%N w1)
    as [r2 w2| |] eqn:H2; [|by vm_compute in H2..].
  pose proof H2 as Hw2. vm_compute in Hw2. injection Hw2 as <- <-.
  split; [|split; [|split]].
  - intros H.
    specialize (H scarce_world 1%N sample_device scarce_phys 0 0%nat _ 20%N
                  VK_ERROR_OUT_OF_DEVICE_MEMORY eq_refl eq_refl eq_refl
                  ltac:(vm_compute; reflexivity) Hscarce eq_refl eq_refl).
    rewrite H0 in H. by specialize (H eq_refl).
  - intros H.
    specialize (H budgeted_world w1 1%N sample_device budgeted_phys 0 0%nat _
                  20%N 21%N VK_SUCCESS VK_SUCCESS eq_refl eq_refl eq_refl
                  ltac:(vm_compute; reflexivity) Hheap eq_refl eq_refl H1).
    rewrite H2 in H. by specialize (H eq_refl).
  - eexists. split; [exact Hscarce|]. split; [reflexivity|]. split; [reflexivity|].
    exact H0.
  - eexists _, _, _. split; [exact Hheap|]. split; [reflexivity|]. split; [reflexivity|].
    split; [exact H1|]. split; [exact H2|]. split; vm_compute; reflexivity.
Qed.

(** C2, as the code has it.  Budget admission in the simulator with a
    memory percentage below 100: on a heap whose capacity for the check is
    500 units (a recorded budget of 500, or no recorded budget and a
    recorded size of 500, as for a heap of 1000 units recorded at 50
    percent without a budget structure) and from which nothing is
    allocated, an allocation of 400 units that the driver grants returns
    [VK_SUCCESS],
    is forwarded and raises the heap's [allocated] counter to 400; a
    following allocation of 200 units returns
    [VK_ERROR_OUT_OF_DEVICE_MEMORY] whatever the driver would answer,
    with the tables and the trace of forwarded calls unchanged;
    [FreeMemory] of the first allocation brings the counter back to 0; and
    the allocation of 200 units then succeeds and leaves the counter at
    200. *)
Theorem budget_admission (w : World) (device : VkDevice) (dev : DeviceMapStruct)
    (phys : PhysDeviceMapStruct) (dt : DispatchTable) (type_index : Z) (heap : nat)
    (budget_heap : MemoryHeapWithBudget) (m1 m2 : VkDeviceMemory)
    (Hdev : GetDeviceMapEntry (tables w) device = Some dev)
    (Hdt : d_dispatch_table dev = Some dt)
    (Henabled : d_layer_enabled dev = true)
    (Hphys : GetPhysicalDeviceMapEntry (tables w) (physical_device dev) = Some phys)
    (Hpercent : memory_percent phys < 100)
    (Hheap : Simulator.budget_heap_of phys type_index = Some (heap, budget_heap))
    (Hcapacity : budget budget_heap = 500 ∨
                 (budget budget_heap ≤ 0 ∧ heap_size budget_heap = 500))
    (Hunused : allocated budget_heap = 0) :
  let request n := Some {| allocationSize := n; memoryTypeIndex := type_index |} in
  ∃ w1 w3 w4 : World,
    Simulator.AllocateMemory device (request 400) VK_SUCCESS m1 w = Done VK_SUCCESS w1 ∧
    trace w1 = trace w ++ [Forwarded (DC_AllocateMemory device (request 400))] ∧
    allocated_in (tables w1) (physical_device dev) heap = Some 400 ∧
    (∀ next_result next_memory,
       Simulator.AllocateMemory device (request 200) next_result next_memory w1
       = Done VK_ERROR_OUT_OF_DEVICE_MEMORY w1) ∧
    Simulator.FreeMemory device m1 w1 = Done tt w3 ∧
    allocated_in (tables w3) (physical_device dev) heap = Some 0 ∧
    Simulator.AllocateMemory device (request 200) VK_SUCCESS m2 w3 = Done VK_SUCCESS w4 ∧
    allocated_in (tables w4) (physical_device dev) heap = Some 200.
Proof.
  intros request.
  pose proof (budget_heap_of_lt _ _ _ _ Hheap) as Hlt.
  assert (Hlimit : (if 0 <? budget budget_heap then budget budget_heap
                    else heap_size budget_heap) = 500).
  { destruct Hcapacity as [-> | [Hnone ->]]; [reflexivity|].
    by replace (0 <? budget budget_heap) with false by (symmetry; apply Z.ltb_ge; lia). }
  (* the first allocation *)
  pose proof (AllocateMemory_enabled w device dev phys dt
                {| allocationSize := 400; memoryTypeIndex := type_index |}
                heap budget_heap VK_SUCCESS m1 Hdev Hdt Henabled Hphys Hpercent Hheap) as H1.
  cbn zeta in H1. cbn [allocationSize is_success] in H1. rewrite Hunused in H1.
  replace (wrap64 (0 + 400)) with 400 in H1 by reflexivity.
  rewrite Hlimit in H1.
  change (500 <? 400) with false in H1. cbn iota in H1.
  set (phys1 := with_allocated phys heap budget_heap 400) in *.
  set (heap1 := set_allocated 400 budget_heap).
  match type of H1 with _ = Done _ ?x => set (w1 := x) in * end.
  assert (Hdev1 : GetDeviceMapEntry (tables w1) device = Some dev) by exact Hdev.
  assert (Hphys1 : GetPhysicalDeviceMapEntry (tables w1) (physical_device dev) = Some phys1)
    by (unfold GetPhysicalDeviceMapEntry; cbn; apply lookup_insert_eq).
  assert (Hpercent1 : memory_percent phys1 < 100) by exact Hpercent.
  assert (Hheap1 : ∀ t, t = type_index →
            Simulator.budget_heap_of phys1 t = Some (heap, heap1)).
  { intros t ->. by apply budget_heap_of_with_allocated. }
  (* the release of the first allocation *)
  pose proof (FreeMemory_enabled w1 device m1 dev phys1 dt
                {| m_device := device;
                   alloc_info := {| allocationSize := 400; memoryTypeIndex := type_index |};
                   buffers := []; images := [] |}
                heap heap1 Hdev1 Hdt Henabled Hphys1 Hpercent1) as H3.
  cbn [alloc_info allocationSize memoryTypeIndex] in H3.
  specialize (H3 ltac:(unfold GetMemoryMapEntry; cbn; apply lookup_insert_eq)
                 (Hheap1 _ eq_refl)).
  change (allocated heap1) with 400 in H3.
  replace (wrap64 (400 - 400)) with 0 in H3 by reflexivity.
  set (phys3 := with_allocated phys1 heap heap1 0) in *.
  set (heap3 := set_allocated 0 heap1).
  match type of H3 with _ = Done _ ?x => set (w3 := x) in * end.
  assert (Hdev3 : GetDeviceMapEntry (tables w3) device = Some dev) by exact Hdev.
  assert (Hphys3 : GetPhysicalDeviceMapEntry (tables w3) (physical_device dev) = Some phys3)
    by (unfold GetPhysicalDeviceMapEntry; cbn; apply lookup_insert_eq).
  assert (Hpercent3 : memory_percent phys3 < 100) by exact Hpercent.
  assert (Hheap3 : Simulator.budget_heap_of phys3 type_index = Some (heap, heap3))
    by (apply budget_heap_of_with_allocated, Hheap1; reflexivity).
  (* the second attempt at 200 units *)
  pose proof (AllocateMemory_enabled w3 device dev phys3 dt
                {| allocationSize := 200; memoryTypeIndex := type_index |}
                heap heap3 VK_SUCCESS m2 Hdev3 Hdt Henabled Hphys3 Hpercent3 Hheap3) as H4.
  cbn zeta in H4. cbn [allocationSize is_success] in H4.
  change (allocated heap3) with 0 in H4.
  replace (wrap64 (0 + 200)) with 200 in H4 by reflexivity.
  change (budget heap3) with (budget budget_heap) in H4.
  change (heap_size heap3) with (heap_size budget_heap) in H4.
  rewrite Hlimit in H4.
  change (500 <? 200) with false in H4. cbn iota in H4.
  match type of H4 with _ = Done _ ?x => set (w4 := x) in * end.
  exists w1, w3, w4.
  split; [exact H1|]. split; [reflexivity|].
  split; [by apply allocated_in_with_allocated|].
  split.
  { intros next_result next_memory.
    pose proof (AllocateMemory_enabled w1 device dev phys1 dt
                  {| allocationSize := 200; memoryTypeIndex := type_index |}
                  heap heap1 next_result next_memory Hdev1 Hdt Henabled Hphys1 Hpercent1
                  (Hheap1 _ eq_refl)) as H2.
    cbn zeta in H2. cbn [allocationSize] in H2.
    change (allocated heap1) with 400 in H2.
    replace (wrap64 (400 + 200)) with 600 in H2 by reflexivity.
    change (budget heap1) with (budget budget_heap) in H2.
    change (heap_size heap1) with (heap_size budget_heap) in H2.
    rewrite Hlimit in H2. exact H2. }
  split; [exact H3|].
  split.
  { unfold w3. cbn [tables]. unfold allocated_in. cbn.
    rewrite lookup_insert_eq. cbn. rewrite list_lookup_insert_eq; [done|].
    by rewrite length_insert. }
  split; [exact H4|].
  unfold w4. cbn [tables]. apply allocated_in_with_allocated.
  unfold phys3, phys1. by rewrite !with_allocated_length.
Qed.

Lemma budget_admission_witness :
  ∃ w1 : World,
    Simulator.AllocateMemory 1%N (Some {| allocationSize := 400; memoryTypeIndex := 0 |})
      VK_SUCCESS 20%N budget_world = Done VK_SUCCESS w1 ∧
    ∀ next_result next_memory,
      Simulator.AllocateMemory 1%N (Some {| allocationSize := 200; memoryTypeIndex := 0 |})
        next_result next_memory w1 = Done VK_ERROR_OUT_OF_DEVICE_MEMORY w1.
Proof.
  destruct (budget_admission budget_world 1%N sample_device budget_phys
              {| has_GetProcAddr := true |} 0 0%nat
              {| heap_size := 500; allocated := 0; budget := 0; usage := 0; flags := 1 |}
              20%N 21%N eq_refl eq_refl eq_refl eq_refl eq_refl
              ltac:(vm_compute; reflexivity)
              (or_intror (conj (Z.le_refl 0) eq_refl)) eq_refl)
    as (w1 & w3 & w4 & H1 & _ & _ & H2 & _).
  exists w1. split; [exact H1 | exact H2].
Defined.

(** ** The fail-count fence *)

Lemma forwarded_app t1 t2 : forwarded (t1 ++ t2) = forwarded t1 ++ forwarded t2.
Proof. apply omap_app. Qed.

Lemma same_registry_refl s : same_registry s s.
Proof. by repeat split. Qed.

Lemma same_registry_trans s1 s2 s3 :
  same_registry s1 s2 → same_registry s2 s3 → same_registry s1 s3.
Proof. intros (? & ? & ? & ?) (? & ? & ? & ?). repeat split; congruence. Qed.

(** One status query on a fail-count fence. *)
Lemma GetFenceStatus_fail_count (w : World) (device : VkDevice) (fence : VkFence)
    (answer : VkResult) (is_signalled : bool) (e : Z) :
  fail_count_fence w device fence is_signalled e →
  let held := negb is_signalled || (wrap32 (e + 1) <? 3) in
  ∃ w',
    Simulator.GetFenceStatus device fence answer w
    = Done (if held then VK_NOT_READY else answer) w' ∧
    fail_count_fence w' device fence is_signalled (wrap32 (e + 1)) ∧
    same_registry (tables w) (tables w') ∧
    forwarded (trace w')
    = forwarded (trace w) ++ (if held then [] else [DC_GetFenceStatus device fence]).
Proof.
  intros (dev & dt & f & Hdev & Hdt & Hen & Hf & Hmode & Hcount & Hsig & He) held.
  unfold Simulator.GetFenceStatus, Simulator.status_gate, Simulator.index_fence_map,
    Simulator.advance_on_status, Simulator.store_fence.
  run_monad. run_with Hdev. rewrite Hen. run_with Hf. rewrite Hmode. run_monad.
  cbn [is_delay_none negb].
  set (f1 := if wait_started _ then _ else _).
  assert (Hf1 : delay_type f1 = FENCE_DELAY_NUM_FAIL_WAITS ∧ delay_count f1 = 3 ∧
                signalled f1 = is_signalled ∧ elapsed_count f1 = wrap32 (e + 1)).
  { subst f1. cbn. destruct (wait_started f); cbn; rewrite ?He; auto. }
  destruct Hf1 as (Hmode1 & Hcount1 & Hsig1 & He1).
  rewrite Hsig1, He1, Hcount1. fold held.
  destruct held.
  - run_monad. eexists. split; [reflexivity|]. cbn.
    split; [|split; [by repeat split|by rewrite app_nil_r]].
    exists dev, dt, f1. cbn. rewrite lookup_insert_eq. auto 10.
  - run_monad. rewrite Hdt. run_monad. eexists. split; [reflexivity|]. cbn.
    split; [|split; [by repeat split|by rewrite forwarded_app]].
    exists dev, dt, (set_wait_completed true f1). cbn. rewrite lookup_insert_eq. auto 10.
Qed.

Lemma wrap32_small z : 0 ≤ z < 2 ^ 32 → wrap32 z = z.
Proof. intros H. unfold wrap32. by apply Z.mod_small. Qed.

(** Queries on a signalled fence whose counter is 2 or more, before the
    counter wraps: each one is forwarded and answered by the driver. *)
Lemma status_queries_forwarded (device : VkDevice) (fence : VkFence)
    (answers : list VkResult) :
  ∀ (w : World) (e : Z),
    fail_count_fence w device fence true e →
    2 ≤ e → e + Z.of_nat (length answers) < 2 ^ 32 →
    ∃ w',
      status_queries device fence answers w = Done answers w' ∧
      fail_count_fence w' device fence true (e + Z.of_nat (length answers)) ∧
      same_registry (tables w) (tables w') ∧
      forwarded (trace w')
      = forwarded (trace w) ++ replicate (length answers) (DC_GetFenceStatus device fence).
Proof.
  induction answers as [|a answers IH]; intros w e Hfence He Hlen.
  - exists w. cbn. rewrite Z.add_0_r, app_nil_r. auto using same_registry_refl.
  - cbn [length] in Hlen. cbn [status_queries].
    destruct (GetFenceStatus_fail_count w device fence a true e Hfence)
      as (w1 & Hrun & Hfence1 & Hsame1 & Htr1).
    rewrite wrap32_small in Hrun, Hfence1, Htr1 by lia.
    replace (e + 1 <? 3) with false in Hrun, Htr1 by (symmetry; apply Z.ltb_ge; lia).
    cbn [negb orb] in Hrun, Htr1.
    destruct (IH w1 (e + 1) Hfence1) as (w2 & Hrun2 & Hfence2 & Hsame2 & Htr2);
      [lia | lia |].
    exists w2. unfold mbind, M_bind. rewrite Hrun, Hrun2. cbn.
    split; [reflexivity|].
    split.
    { match goal with |- fail_count_fence _ _ _ _ ?x =>
        replace x with (e + 1 + Z.of_nat (length answers)) by lia end.
      exact Hfence2. }
    split; [by eapply same_registry_trans|].
    rewrite Htr2, Htr1, <- app_assoc. reflexivity.
Qed.

(** [n] queries move the counter by [n] as long as it does not wrap. *)
Lemma poll_counts (device : VkDevice) (fence : VkFence) (answer : VkResult)
    (is_signalled : bool) (n : N) :
  ∀ (w : World) (e : Z),
    fail_count_fence w device fence is_signalled e →
    0 ≤ e → e + Z.of_N n < 2 ^ 32 →
    ∃ w', poll n device fence answer w = Done tt w' ∧
          fail_count_fence w' device fence is_signalled (e + Z.of_N n).
Proof.
  induction n as [|n IH] using N.peano_ind; intros w e Hfence He Hlen.
  - exists w. rewrite Z.add_0_r. auto.
  - unfold poll in *. rewrite N.iter_succ.
    destruct (GetFenceStatus_fail_count w device fence answer is_signalled e Hfence)
      as (w1 & Hrun & Hfence1 & _).
    rewrite wrap32_small in Hfence1 by lia.
    destruct (IH w1 (e + 1) Hfence1) as (w2 & Hrun2 & Hfence2); [lia | lia |].
    exists w2. split.
    + clear IH Hfence2. unfold mbind, M_bind in *. rewrite Hrun. exact Hrun2.
    + by replace (e + Z.of_N (N.succ n)) with (e + 1 + Z.of_N n) by lia.
Qed.

Lemma ResetFences_fail_count (w : World) (device : VkDevice) (fence : VkFence)
    (next_result : VkResult) (is_signalled : bool) (e : Z) :
  fail_count_fence w device fence is_signalled e →
  ∃ w' f',
    Simulator.ResetFences device [fence] next_result w = Done next_result w' ∧
    g_fence_map (tables w') !! fence = Some (Some f') ∧
    signalled f' = false ∧ wait_started f' = false ∧ wait_completed f' = false ∧
    elapsed_count f' = 0 ∧
    fail_count_fence w' device fence false 0 ∧
    same_registry (tables w) (tables w').
Proof.
  intros (dev & dt & f & Hdev & Hdt & Hen & Hf & Hmode & Hcount & Hsig & He).
  unfold Simulator.ResetFences, Simulator.reset_fence, Simulator.index_fence_map,
    Simulator.store_fence.
  run_monad. run_with Hdev. rewrite Hen. cbn [for_each]. run_monad. run_with Hf.
  run_with Hdt. eexists. eexists. split; [reflexivity|]. cbn.
  rewrite lookup_insert_eq. split; [reflexivity|]. cbn.
  repeat (split; [reflexivity|]). split; [|by repeat split].
  eexists dev, dt, _. cbn. rewrite lookup_insert_eq. cbn. auto 10.
Qed.

(** The memory query that [QueueSubmit] makes returns, and touches
    neither the fences nor the devices. *)
Lemma budget_refresh_runs (w : World) (physicalDevice : VkPhysicalDevice)
    (phys : PhysDeviceMapStruct) (inst : InstanceMapStruct) (dt : DispatchTable)
    (props : VkPhysicalDeviceMemoryProperties)
    (budget : VkPhysicalDeviceMemoryBudgetPropertiesEXT) :
  GetPhysicalDeviceMapEntry (tables w) physicalDevice = Some phys →
  GetInstanceMapEntry (tables w) (pd_instance phys) = Some inst →
  i_dispatch_table inst = Some dt →
  (pd_layer_enabled phys = true →
   is_Some (Simulator.ManageMemoryProperties phys props (Some budget))) →
  ∃ r w',
    Simulator.GetPhysicalDeviceMemoryProperties2 1 physicalDevice
      (Some {| pNext := [MemoryBudgetPropertiesEXT budget]; memoryProperties := props |}) w
    = Done r w' ∧
    g_fence_map (tables w') = g_fence_map (tables w) ∧
    g_device_map (tables w') = g_device_map (tables w).
Proof.
  intros Hphys Hinst Hdt Hmanage. unfold Simulator.GetPhysicalDeviceMemoryProperties2.
  run_monad. run_with Hphys. run_with Hinst. run_with Hdt.
  destruct (pd_layer_enabled phys).
  - destruct (Hmanage eq_refl) as [[[entry vulkan_props] budget_props] Hentry].
    cbn [memoryProperties pNext]. unfold run_budget_search.
    cbn [budget_search budget_search_step]. run_monad.
    rewrite Hentry. run_monad. by eexists _, _.
  - run_monad. by eexists _, _.
Qed.

(** A successful [QueueSubmit] with the fence signals it and leaves its
    counter alone, also when it looks at the memory budget on the way. *)
Lemma QueueSubmit_signals (w : World) (device : VkDevice) (fence : VkFence)
    (queue : VkQueue) (props : VkPhysicalDeviceMemoryProperties)
    (budget : VkPhysicalDeviceMemoryBudgetPropertiesEXT) (e : Z) :
  fail_count_fence w device fence false e →
  fence ≠ VK_NULL_HANDLE →
  g_queue_to_device_map (tables w) !! queue = Some device →
  budget_refresh_answered (tables w) device props budget →
  ∃ w',
    Simulator.QueueSubmit queue fence VK_SUCCESS props budget w = Done VK_SUCCESS w' ∧
    fail_count_fence w' device fence true e.
Proof.
  intros (dev & dt & f & Hdev & Hdt & Hen & Hf & Hmode & Hcount & Hsig & He)
    Hnonnull%is_null_false Hqueue Hrefresh.
  specialize (Hrefresh dev Hdev).
  unfold Simulator.QueueSubmit, Simulator.index_queue_map, Simulator.signal_fence,
    Simulator.index_fence_map, Simulator.store_fence.
  run_monad. run_with Hqueue. run_with Hdev. run_with Hdt. rewrite Hen, Hnonnull.
  cbn [is_success andb negb]. run_monad. run_with Hf. rewrite Hmode.
  cbn [is_delay_none negb]. run_monad.
  destruct (memory_bindings_updated dev) eqn:Hflag.
  2:{ eexists. split; [reflexivity|]. cbn.
      eexists dev, dt, _. cbn. rewrite lookup_insert_eq. cbn. auto 10. }
  destruct (Hrefresh eq_refl) as (phys & Hphys & Hquery).
  run_monad.
  change (GetPhysicalDeviceMapEntry (set_fence_map _ (tables w)) (physical_device dev))
    with (GetPhysicalDeviceMapEntry (tables w) (physical_device dev)).
  rewrite Hphys.
  assert (Hrecord : ∀ w' : World,
            g_fence_map (tables w') = <[fence := Some (set_signalled true f)]>
                                        (g_fence_map (tables w)) →
            fail_count_fence
              {| tables := set_device_map
                             (<[device := set_memory_bindings_updated false dev]>)
                             (tables w');
                 trace := trace w'; clock := clock w' |} device fence true e).
  { intros w' Hfences. eexists (set_memory_bindings_updated false dev), dt, _.
    unfold GetDeviceMapEntry. cbn. rewrite Hfences, !lookup_insert_eq. cbn. auto 10. }
  destruct (memory_budget_updated phys) eqn:Hbudget; cbn [negb].
  - eexists. split; [reflexivity|]. by apply Hrecord.
  - destruct (Hquery eq_refl) as (inst & idt & Hinst & Hidt & Hmanage).
    match goal with |- context [Simulator.GetPhysicalDeviceMemoryProperties2 _ _ _ ?w0] =>
      destruct (budget_refresh_runs w0 (physical_device dev) phys inst idt props budget
                  Hphys Hinst Hidt Hmanage) as (r & w1 & Hrun & Hfences & _)
    end.
    rewrite Hrun. eexists. split; [reflexivity|]. by apply Hrecord.
Qed.

(** The claims of C3 fail as worded.  A fence polled three times before it
    is signalled lets the first status query after the signal through to
    the driver; and the counter is a [uint32_t], so after 2^32 - 1 queries
    the next one finds it at zero and is answered [VK_NOT_READY]. *)
Lemma fence_counter_counts_every_query :
  ¬ not_ready_after_signal ∧ ¬ ready_from_third_query_on.
Proof.
  split; intros H.
  - specialize (H populated_world 1%N 5%N 9%N [VK_SUCCESS; VK_SUCCESS; VK_SUCCESS]
                  VK_SUCCESS VK_SUCCESS driver_props driver_budget).
    discriminate H.
    + exists sample_device, {| has_GetProcAddr := true |}, (fresh_fence false 0).
      repeat split; reflexivity.
    + vm_compute. reflexivity.
  - assert (Hfence : fail_count_fence signalled_world 1%N 5%N true 0).
    { exists sample_device, {| has_GetProcAddr := true |}, (fresh_fence true 0).
      repeat split; reflexivity. }
    specialize (H signalled_world 1%N 5%N 4294967295%N VK_SUCCESS VK_NOT_READY Hfence).
    discriminate H; [lia|].
    destruct (poll_counts 1%N 5%N VK_SUCCESS true 4294967295%N signalled_world 0 Hfence)
      as (w1 & Hrun & Hfence1); [lia | lia |].
    destruct (GetFenceStatus_fail_count w1 1%N 5%N VK_SUCCESS true _ Hfence1)
      as (w2 & Hrun2 & _).
    unfold mbind, M_bind. rewrite Hrun, Hrun2. reflexivity.
Qed.

(** C3, as the code has it.  In the simulator, take a fence in fail-count
    mode with delay count 3 that is signalled and whose counter is zero
    (it was not queried or waited for since it was created or reset).
    The 1st and the 2nd status query return [VK_NOT_READY] whatever the
    driver would answer and are not forwarded; every later query, up to
    the query number 2^32 - 1, is forwarded and returns the driver's
    answer.  [ResetFences] then returns the driver's result and leaves
    the record unsignalled, with both wait flags false and the counter at
    zero; after the next successful [QueueSubmit] with the fence the first
    two status queries return [VK_NOT_READY] again without being
    forwarded.  This holds whether or not a bind has set the flag of the
    device that makes [QueueSubmit] look at the memory budget; where it is
    set, the memory query of [QueueSubmit] is one that can be answered. *)
Theorem fail_count_fence_delay (w : World) (device : VkDevice) (fence : VkFence)
    (queue : VkQueue) (a1 a2 b1 b2 reset_result : VkResult) (later : list VkResult)
    (props : VkPhysicalDeviceMemoryProperties)
    (budget : VkPhysicalDeviceMemoryBudgetPropertiesEXT)
    (Hfence : fail_count_fence w device fence true 0)
    (Hnonnull : fence ≠ VK_NULL_HANDLE)
    (Hqueue : g_queue_to_device_map (tables w) !! queue = Some device)
    (Hrefresh : budget_refresh_answered (tables w) device props budget)
    (Hlater : 2 + Z.of_nat (length later) < 2 ^ 32) :
  ∃ (w1 w2 w3 w4 : World) (f2 : FenceMapStruct),
    status_queries device fence (a1 :: a2 :: later) w
    = Done (VK_NOT_READY :: VK_NOT_READY :: later) w1 ∧
    forwarded (trace w1)
    = forwarded (trace w) ++ replicate (length later) (DC_GetFenceStatus device fence) ∧
    Simulator.ResetFences device [fence] reset_result w1 = Done reset_result w2 ∧
    g_fence_map (tables w2) !! fence = Some (Some f2) ∧
    signalled f2 = false ∧ wait_started f2 = false ∧ wait_completed f2 = false ∧
    elapsed_count f2 = 0 ∧
    Simulator.QueueSubmit queue fence VK_SUCCESS props budget w2 = Done VK_SUCCESS w3 ∧
    status_queries device fence [b1; b2] w3 = Done [VK_NOT_READY; VK_NOT_READY] w4 ∧
    forwarded (trace w4) = forwarded (trace w3).
Proof.
  destruct (GetFenceStatus_fail_count w device fence a1 true 0 Hfence)
    as (wa & Hra & Hfa & Hsa & Hta).
  destruct (GetFenceStatus_fail_count wa device fence a2 true _ Hfa)
    as (wb & Hrb & Hfb & Hsb & Htb).
  change (wrap32 (wrap32 (0 + 1) + 1)) with 2 in *.
  change (wrap32 (0 + 1)) with 1 in *.
  cbn in Hra, Hrb, Hta, Htb. rewrite app_nil_r in Hta, Htb.
  destruct (status_queries_forwarded device fence later wb 2 Hfb)
    as (w1 & Hr1 & Hf1 & Hs1 & Ht1); [lia | lia |].
  destruct (ResetFences_fail_count w1 device fence reset_result true _ Hf1)
    as (w2 & f2 & Hr2 & Hl2 & Hs2 & Hws2 & Hwc2 & He2 & Hf2 & Hsame2).
  pose proof (same_registry_trans _ _ _ Hsa
                (same_registry_trans _ _ _ Hsb (same_registry_trans _ _ _ Hs1 Hsame2)))
    as (Hinstances & Hphys & Hdevices & Hqueues).
  destruct (QueueSubmit_signals w2 device fence queue props budget 0 Hf2 Hnonnull)
    as (w3 & Hr3 & Hf3).
  { rewrite Hqueues. exact Hqueue. }
  { unfold budget_refresh_answered, GetDeviceMapEntry, GetPhysicalDeviceMapEntry,
      GetInstanceMapEntry in *.
    rewrite Hinstances, Hphys, Hdevices. exact Hrefresh. }
  destruct (GetFenceStatus_fail_count w3 device fence b1 true 0 Hf3)
    as (wc & Hrc & Hfc & _ & Htc).
  destruct (GetFenceStatus_fail_count wc device fence b2 true _ Hfc)
    as (w4 & Hrd & _ & _ & Htd).
  change (wrap32 (wrap32 (0 + 1) + 1)) with 2 in *.
  change (wrap32 (0 + 1)) with 1 in *.
  cbn in Hrc, Hrd, Htc, Htd. rewrite app_nil_r in Htc, Htd.
  exists w1, w2, w3, w4, f2.
  split.
  { cbn [status_queries]. unfold mbind, M_bind. rewrite Hra, Hrb, Hr1. reflexivity. }
  split; [by rewrite Ht1, Htb, Hta|].
  split; [exact Hr2|]. split; [exact Hl2|].
  repeat (split; [assumption|]).
  split.
  { cbn [status_queries]. unfold mbind, M_bind. rewrite Hrc, Hrd. reflexivity. }
  by rewrite Htd, Htc.
Qed.

Lemma fail_count_fence_delay_witness :
  budget_refresh_answered (tables signalled_world_after_bind) 1%N driver_props
    driver_budget ∧
  ∃ w1 : World,
    status_queries 1%N 5%N [VK_SUCCESS; VK_SUCCESS; VK_SUCCESS; VK_TIMEOUT]
      signalled_world_after_bind
    = Done [VK_NOT_READY; VK_NOT_READY; VK_SUCCESS; VK_TIMEOUT] w1.
Proof.
  assert (Hrefresh : budget_refresh_answered (tables signalled_world_after_bind) 1%N
                       driver_props driver_budget).
  { intros dev [= <-] _. exists (sample_phys no_device_extensions).
    split; [reflexivity|]. intros _.
    exists (sample_instance false true), {| has_GetProcAddr := true |}.
    split; [reflexivity|]. split; [reflexivity|]. intros _.
    vm_compute. eexists. reflexivity. }
  split; [exact Hrefresh|].
  destruct (fail_count_fence_delay signalled_world_after_bind 1%N 5%N 9%N VK_SUCCESS
              VK_SUCCESS VK_SUCCESS VK_SUCCESS VK_SUCCESS [VK_SUCCESS; VK_TIMEOUT]
              driver_props driver_budget)
    as (w1 & _ & _ & _ & _ & H1 & _).
  - exists (set_memory_bindings_updated true sample_device), {| has_GetProcAddr := true |},
      (fresh_fence true 0).
    repeat split; reflexivity.
  - discriminate.
  - reflexivity.
  - exact Hrefresh.
  - reflexivity.
  - exists w1. exact H1.
Defined.

(** ** Waiting for delayed fences *)

(** The [switch] of [WaitForFences] reads the clock and nothing else. *)
Lemma advance_on_wait_pure timeout ms f w :
  ∃ x, Simulator.advance_on_wait timeout ms f w = Done x w ∧
       ∀ w', clock w' = clock w → Simulator.advance_on_wait timeout ms f w' = Done x w'.
Proof.
  unfold Simulator.advance_on_wait.
  destruct (delay_type f); try destruct (1000000000 <=? timeout); run_monad;
    (eexists; split; [reflexivity|]); intros w' Hc; rewrite ?Hc; reflexivity.
Qed.

Lemma wait_decision_clock timeout f w w' :
  clock w' = clock w → wait_decision timeout f w' = wait_decision timeout f w.
Proof.
  intros Hc. unfold wait_decision.
  destruct (advance_on_wait_pure timeout (wrap32 (timeout / 1000000)) f w)
    as (x & Hw & Hw').
  by rewrite Hw, (Hw' w' Hc).
Qed.

Lemma wait_decision_run timeout f w f' locals held :
  wait_decision timeout f w = Some (f', locals, held) →
  ∃ f0, Simulator.advance_on_wait timeout (wrap32 (timeout / 1000000)) f w
        = Done (f0, locals) w ∧
        f' = (if wait_started f0 then f0 else set_wait_started true f0) ∧
        held = Simulator.held_back (wrap32 (timeout / 1000000)) f' locals.
Proof.
  unfold wait_decision.
  destruct (advance_on_wait_pure timeout (wrap32 (timeout / 1000000)) f w)
    as ([f0 l0] & Hw & _).
  rewrite Hw. cbn. intros [= <- <- <-]. by exists f0.
Qed.

(** One turn of the loop on a fence that is held back. *)
Lemma wait_loop_held waitAll timeout fence rest acc f w f' locals :
  delayed_fence (tables w) fence f →
  wait_decision timeout f w = Some (f', locals, true) →
  Simulator.wait_loop waitAll timeout (wrap32 (timeout / 1000000)) (fence :: rest) acc w
  = if waitAll then Done None (with_fence fence f' w)
    else Simulator.wait_loop false timeout (wrap32 (timeout / 1000000)) rest acc
           (with_fence fence f' w).
Proof.
  intros (Hl & Hs & Hd) (f0 & Hadv & -> & Hheld)%wait_decision_run.
  cbn [Simulator.wait_loop]. unfold Simulator.index_fence_map, Simulator.store_fence.
  run_monad. rewrite Hl. run_monad. rewrite Hs, Hd. cbn [andb negb].
  run_monad. rewrite Hadv. cbn beta iota. rewrite <- Hheld. run_monad.
  by destruct waitAll.
Qed.

(** One turn of the loop on a fence that is past its delay. *)
Lemma wait_loop_past waitAll timeout fence rest acc f w :
  delayed_fence (tables w) fence f →
  past_delay timeout f w = true →
  ∃ f', Simulator.wait_loop waitAll timeout (wrap32 (timeout / 1000000))
          (fence :: rest) acc w
        = Simulator.wait_loop waitAll timeout (wrap32 (timeout / 1000000)) rest
            (acc ++ [fence]) (with_fence fence f' w).
Proof.
  intros (Hl & Hs & Hd) Hpast. unfold past_delay in Hpast.
  destruct (wait_decision timeout f w) as [[[f' locals] held]|] eqn:Hdec; [|done].
  apply andb_prop in Hpast as [->%negb_true_iff Hsleep%negb_true_iff].
  apply wait_decision_run in Hdec as (f0 & Hadv & -> & Hheld).
  eexists.
  cbn [Simulator.wait_loop]. unfold Simulator.index_fence_map, Simulator.store_fence.
  run_monad. rewrite Hl. run_monad. rewrite Hs, Hd. cbn [andb negb].
  run_monad. rewrite Hadv. cbn beta iota. rewrite <- Hheld, Hsleep. run_monad.
  reflexivity.
Qed.

Lemma delayed_fence_with_fence s fence f other g w :
  other ≠ fence →
  tables w = s →
  delayed_fence s fence f →
  delayed_fence (tables (with_fence other g w)) fence f.
Proof.
  intros Hne <- (Hl & Hs & Hd). split; [|done].
  cbn. by rewrite lookup_insert_ne.
Qed.

Lemma excluded_by_delay_with_fence timeout f other g w :
  excluded_by_delay timeout f (with_fence other g w) = excluded_by_delay timeout f w.
Proof. unfold excluded_by_delay. by rewrite (wait_decision_clock timeout f w). Qed.

Lemma excluded_by_delay_decision timeout f w :
  excluded_by_delay timeout f w = true →
  ∃ f' locals, wait_decision timeout f w = Some (f', locals, true).
Proof.
  unfold excluded_by_delay.
  destruct (wait_decision timeout f w) as [[[f' locals] held]|]; [|done].
  intros ->. by exists f', locals.
Qed.

(** A wait-for-any loop over fences that are all held back collects
    nothing, forwards nothing and does not sleep. *)
Lemma wait_loop_all_held timeout (pFences : list VkFence) :
  ∀ (acc : list N) (w : World),
    NoDup pFences →
    (∀ fence, fence ∈ pFences →
       ∃ f, delayed_fence (tables w) fence f ∧ excluded_by_delay timeout f w = true) →
    ∃ w', Simulator.wait_loop false timeout (wrap32 (timeout / 1000000)) pFences acc w
          = Done (Some acc) w' ∧ trace w' = trace w.
Proof.
  induction pFences as [|fence rest IH]; intros acc w Hnodup Hall.
  - by exists w.
  - apply NoDup_cons in Hnodup as [Hnotin Hnodup].
    destruct (Hall fence) as (f & Hdel & Hex); [left|].
    apply excluded_by_delay_decision in Hex as (f' & locals & Hdec).
    rewrite (wait_loop_held false timeout fence rest acc f w f' locals Hdel Hdec).
    destruct (IH acc (with_fence fence f' w) Hnodup) as (w' & Hrun & Htrace).
    + intros other Hin. destruct (Hall other) as (g & Hg & Hexg); [by right|].
      exists g. split.
      * apply (delayed_fence_with_fence (tables w)); [|done|done].
        intros ->. done.
      * by rewrite excluded_by_delay_with_fence.
    + exists w'. by split.
Qed.

Lemma past_delay_with_fence timeout f other g w :
  past_delay timeout f (with_fence other g w) = past_delay timeout f w.
Proof. unfold past_delay. by rewrite (wait_decision_clock timeout f w). Qed.

(** [WaitForFences] on an enabled device, from what its loop collected. *)
Lemma WaitForFences_enabled (w w1 : World) (device : VkDevice) (dev : DeviceMapStruct)
    (dt : DispatchTable) (pFences : list VkFence) (waitAll : bool) (timeout : Z)
    (next_result : VkResult) (collected : option (list N)) :
  GetDeviceMapEntry (tables w) device = Some dev →
  d_dispatch_table dev = Some dt →
  d_layer_enabled dev = true →
  Simulator.wait_loop waitAll timeout (wrap32 (timeout / 1000000)) pFences [] w
  = Done collected w1 →
  Simulator.WaitForFences device pFences waitAll timeout next_result w
  = match collected with
    | None => Done VK_TIMEOUT w1
    | Some wait_for_fences =>
        if (0 <? Z.of_nat (length pFences)) && (length wait_for_fences =? 0)%nat
        then Done VK_TIMEOUT w1
        else Done next_result
               {| tables := tables w1;
                  trace := trace w1
                           ++ [Forwarded (DC_WaitForFences device wait_for_fences
                                            waitAll timeout)];
                  clock := clock w1 |}
    end.
Proof.
  intros Hdev Hdt Hen Hloop. unfold Simulator.WaitForFences.
  run_monad. run_with Hdev. rewrite Hen. run_with Hloop.
  destruct collected as [wait_for_fences|]; [|done].
  destruct (_ && _); [done|]. run_monad. by run_with Hdt.
Qed.

Lemma wait_loop_nil waitAll timeout ms acc w :
  Simulator.wait_loop waitAll timeout ms [] acc w = Done (Some acc) w.
Proof. reflexivity. Qed.

Lemma wrap32_nonneg z : 0 ≤ wrap32 z.
Proof. unfold wrap32. apply Z.mod_pos_bound. lia. Qed.

(** The comparisons of the gate, case by case. *)
Ltac gate_cbn :=
  cbn -[wrap32 Z.div Z.modulo Z.quot Z.ltb Z.leb Z.eqb Z.add Z.sub Z.mul Z.pow] in *.

Ltac gate_cases :=
  repeat (match goal with
          | |- context [?a <? ?b] => destruct (Z.ltb_spec0 a b)
          | |- context [?a <=? ?b] => destruct (Z.leb_spec0 a b)
          | |- context [?a =? ?b] => destruct (Z.eqb_spec a b)
          | H : context [?a <? ?b] |- _ => destruct (Z.ltb_spec0 a b)
          end; run_monad; gate_cbn);
  first [reflexivity | exfalso; unfold wrap32 in *; lia].

(** The gate of [WaitForFences] holds back a signalled fence that is
    excluded by its delay. *)
Lemma held_by_its_delay_excluded (timeout : Z) (f : FenceMapStruct) (w : World) :
  signalled f = true →
  held_by_its_delay timeout (clock w) f →
  excluded_by_delay timeout f w = true.
Proof.
  destruct f as [fd sg ws wc dt dc ec st]. cbn [signalled]. intros -> [Hbelow Htimeout].
  unfold excluded_by_delay, wait_decision, Simulator.advance_on_wait,
    Simulator.ms_wait_locals, Simulator.held_back, elapsed_in_wait,
    Simulator.milliseconds_since in *.
  fold (wrap32 (timeout / 1000000)) in Htimeout.
  pose proof (wrap32_nonneg (timeout / 1000000)) as Hms.
  cbn [delay_type delay_count elapsed_count start_time wait_started] in *.
  destruct dt, ws; run_monad;
    gate_cbn; gate_cases.
Qed.

(** It lets a signalled delayed fence that is past its delay through, and
    does not sleep for it. *)
Lemma past_its_delay_past (timeout : Z) (f : FenceMapStruct) (w : World) :
  signalled f = true →
  past_its_delay timeout (clock w) f →
  past_delay timeout f w = true.
Proof.
  destruct f as [fd sg ws wc dt dc ec st]. cbn [signalled]. intros -> [Hreached Hshort].
  unfold past_delay, wait_decision, Simulator.advance_on_wait,
    Simulator.ms_wait_locals, Simulator.held_back, elapsed_in_wait,
    Simulator.milliseconds_since in *.
  cbn [delay_type delay_count elapsed_count start_time wait_started] in *.
  destruct dt, ws; try specialize (Hshort eq_refl); run_monad;
    gate_cbn; gate_cases.
Qed.

(** The claim of C4 fails as worded.  With a timeout of a second the loop
    takes no fence in fail-count mode for held back: it sleeps 30 ms for
    each of the two fences and forwards both, so the wait-for-all call
    returns what the driver returns. *)
Lemma wait_all_sleeps_on_long_timeout : ¬ wait_all_times_out.
Proof.
  intros H.
  specialize (H two_fence_world 1%N 5%N 6%N 1000000000 VK_SUCCESS VK_SUCCESS).
  discriminate H.
  - done.
  - lia.
  - exists sample_device, {| has_GetProcAddr := true |}, (fresh_fence true 3).
    repeat split; reflexivity.
  - exists sample_device, {| has_GetProcAddr := true |}, (fresh_fence true 0).
    repeat split; reflexivity.
  - vm_compute. reflexivity.
Qed.

(** C4, as the code has it.  On a device for which the simulator is
    enabled, let one of two distinct signalled delayed fences be past its
    configured delay (its elapsed count, advanced by this wait, has
    reached its delay count) and the other be excluded by its delay (its
    elapsed count is below its delay count and the timeout does not make
    up for the rest: in fail-count mode the timeout is below one second,
    in the millisecond modes the elapsed count with the milliseconds of
    the timeout added is still below the delay count).  In either order,
    [WaitForFences] with [waitAll] true returns [VK_TIMEOUT] and neither
    sleeps nor calls down the chain; with [waitAll] false it forwards one
    wait, for the fence past its delay alone, and returns the driver's
    result.  And for any non-empty list of distinct fences that are all
    excluded by their delays it returns [VK_TIMEOUT] and neither sleeps
    nor calls down the chain, whatever [waitAll] is. *)
Theorem wait_for_fences_delay_gate (w : World) (device : VkDevice) (dev : DeviceMapStruct)
    (dt : DispatchTable) (timeout : Z) (next_result : VkResult)
    (Hdev : GetDeviceMapEntry (tables w) device = Some dev)
    (Hdt : d_dispatch_table dev = Some dt)
    (Hen : d_layer_enabled dev = true) :
  (∀ (ready held : VkFence) (fr fh : FenceMapStruct) (pFences : list VkFence),
     ready ≠ held →
     delayed_fence (tables w) ready fr → past_its_delay timeout (clock w) fr →
     delayed_fence (tables w) held fh → held_by_its_delay timeout (clock w) fh →
     pFences = [ready; held] ∨ pFences = [held; ready] →
     (∃ w', Simulator.WaitForFences device pFences true timeout next_result w
            = Done VK_TIMEOUT w' ∧ trace w' = trace w) ∧
     (∃ w', Simulator.WaitForFences device pFences false timeout next_result w
            = Done next_result w' ∧
            trace w' = trace w
                       ++ [Forwarded (DC_WaitForFences device [ready] false timeout)])) ∧
  (∀ (pFences : list VkFence) (waitAll : bool),
     pFences ≠ [] →
     NoDup pFences →
     (∀ fence, fence ∈ pFences →
        ∃ f, delayed_fence (tables w) fence f ∧ held_by_its_delay timeout (clock w) f) →
     ∃ w', Simulator.WaitForFences device pFences waitAll timeout next_result w
           = Done VK_TIMEOUT w' ∧ trace w' = trace w).
Proof.
  split.
  - intros ready held fr fh pFences Hne Hr Hpast Hh Hex Horder.
    apply (past_its_delay_past timeout fr w) in Hpast; [|by destruct Hr as (_ & ? & _)].
    apply (held_by_its_delay_excluded timeout fh w) in Hex;
      [|by destruct Hh as (_ & ? & _)].
    apply excluded_by_delay_decision in Hex as Hdec. destruct Hdec as (fh' & lh & Hdec).
    destruct Horder as [-> | ->].
    + (* the fence past its delay comes first *)
      assert (Hh1 : ∀ g, delayed_fence (tables (with_fence ready g w)) held fh).
      { intros g. by apply (delayed_fence_with_fence (tables w)). }
      assert (Hdec1 : ∀ g, wait_decision timeout fh (with_fence ready g w)
                           = Some (fh', lh, true)).
      { intros g. by rewrite (wait_decision_clock timeout fh w). }
      split.
      * destruct (wait_loop_past true timeout ready [held] [] fr w Hr Hpast) as (g & Hrun).
        rewrite (wait_loop_held true timeout held [] _ fh _ fh' lh (Hh1 g) (Hdec1 g)) in Hrun.
        rewrite (WaitForFences_enabled w _ device dev dt _ true timeout next_result None
                   Hdev Hdt Hen Hrun).
        by eexists.
      * destruct (wait_loop_past false timeout ready [held] [] fr w Hr Hpast) as (g & Hrun).
        rewrite (wait_loop_held false timeout held [] _ fh _ fh' lh (Hh1 g) (Hdec1 g)) in Hrun.
        rewrite wait_loop_nil in Hrun.
        rewrite (WaitForFences_enabled w _ device dev dt _ false timeout next_result
                   (Some [ready]) Hdev Hdt Hen Hrun).
        by eexists.
    + (* the excluded fence comes first *)
      split.
      * pose proof (wait_loop_held true timeout held [ready] [] fh w fh' lh Hh Hdec) as Hrun.
        rewrite (WaitForFences_enabled w _ device dev dt _ true timeout next_result None
                   Hdev Hdt Hen Hrun).
        by eexists.
      * pose proof (wait_loop_held false timeout held [ready] [] fh w fh' lh Hh Hdec) as Hrun.
        destruct (wait_loop_past false timeout ready [] [] fr (with_fence held fh' w))
          as (g & Hrun2).
        { by apply (delayed_fence_with_fence (tables w)). }
        { by rewrite past_delay_with_fence. }
        rewrite Hrun2, wait_loop_nil in Hrun.
        rewrite (WaitForFences_enabled w _ device dev dt _ false timeout next_result
                   (Some [ready]) Hdev Hdt Hen Hrun).
        by eexists.
  - intros pFences waitAll Hnonempty Hnodup Hcounts.
    assert (Hall : ∀ fence, fence ∈ pFences →
              ∃ f, delayed_fence (tables w) fence f ∧ excluded_by_delay timeout f w = true).
    { intros fence Hin. destruct (Hcounts fence Hin) as (f & Hdel & Hheld).
      exists f. split; [done|].
      apply held_by_its_delay_excluded; [by destruct Hdel as (_ & ? & _)|done]. }
    destruct waitAll.
    + destruct pFences as [|fence rest]; [done|].
      destruct (Hall fence) as (f & Hdel & Hex); [left|].
      apply excluded_by_delay_decision in Hex as (f' & locals & Hdec).
      pose proof (wait_loop_held true timeout fence rest [] f w f' locals Hdel Hdec) as Hrun.
      rewrite (WaitForFences_enabled w _ device dev dt _ true timeout next_result None
                 Hdev Hdt Hen Hrun).
      by eexists.
    + destruct (wait_loop_all_held timeout pFences [] w Hnodup Hall) as (w' & Hrun & Htrace).
      rewrite (WaitForFences_enabled w _ device dev dt _ false timeout next_result
                 (Some []) Hdev Hdt Hen Hrun).
      destruct pFences; [done|]. by exists w'.
Qed.

Lemma wait_for_fences_delay_gate_witness :
  (returned (Simulator.WaitForFences 1%N [5%N; 6%N] true 0 VK_SUCCESS boundary_fence_world)
   = Some VK_TIMEOUT ∧
   returned (Simulator.WaitForFences 1%N [5%N; 6%N] false 0 VK_SUCCESS boundary_fence_world)
   = Some VK_SUCCESS ∧
   returned (Simulator.WaitForFences 1%N [6%N] false 0 VK_SUCCESS boundary_fence_world)
   = Some VK_TIMEOUT) ∧
  (returned (Simulator.WaitForFences 1%N [6%N; 5%N] true 10000000 VK_SUCCESS
               from_trigger_world) = Some VK_TIMEOUT ∧
   returned (Simulator.WaitForFences 1%N [6%N; 5%N] false 10000000 VK_SUCCESS
               from_trigger_world) = Some VK_SUCCESS).
Proof.
  split.
  - destruct (wait_for_fences_delay_gate boundary_fence_world 1%N sample_device
                {| has_GetProcAddr := true |} 0 VK_SUCCESS eq_refl eq_refl eq_refl)
      as [Htwo Hall].
    destruct (Htwo 5%N 6%N (fresh_fence true 2) (fresh_fence true 1) [5%N; 6%N])
      as [(w1 & H1 & _) (w2 & H2 & _)].
    + discriminate.
    + repeat split; reflexivity.
    + split; [vm_compute; discriminate | intros _; reflexivity].
    + repeat split; reflexivity.
    + split; reflexivity.
    + by left.
    + destruct (Hall [6%N] false) as (w3 & H3 & _).
      * discriminate.
      * apply NoDup_cons. split; [apply not_elem_of_nil | apply NoDup_nil_2].
      * intros fence ->%list_elem_of_singleton. exists (fresh_fence true 1).
        split; [repeat split; reflexivity | split; reflexivity].
      * rewrite H1, H2, H3. repeat split; reflexivity.
  - destruct (wait_for_fences_delay_gate from_trigger_world 1%N sample_device
                {| has_GetProcAddr := true |} 10000000 VK_SUCCESS eq_refl eq_refl eq_refl)
      as [Htwo _].
    destruct (Htwo 5%N 6%N (from_trigger_fence 20) (from_trigger_fence 50) [6%N; 5%N])
      as [(w1 & H1 & _) (w2 & H2 & _)].
    + discriminate.
    + repeat split; reflexivity.
    + split; [vm_compute; discriminate | discriminate].
    + repeat split; reflexivity.
    + split; [reflexivity | right; reflexivity].
    + by right.
    + rewrite H1, H2. split; reflexivity.
Defined.

(** ** Binding exclusivity *)

Lemma bound_buffers_set_buffers l m : bound_buffers (set_buffers l m) = bm_buffer <$> l.
Proof. reflexivity. Qed.

Lemma bound_images_set_buffers l m : bound_images (set_buffers l m) = bound_images m.
Proof. reflexivity. Qed.


Lemma bound_buffers_set_images l m : bound_buffers (set_images l m) = bound_buffers m.
Proof. reflexivity. Qed.



Lemma unbind_buffer_absent buffer s k m :
  g_memory_map (unbind_buffer buffer s) !! k = Some m → buffer ∉ bound_buffers m.
Proof.
  intros (r & _ & ->)%unbind_buffer_lookup.
  rewrite bound_buffers_set_buffers, erase_buffer_entries_spec. by intros [? _].
Qed.












(** After the bookkeeping of a bind the buffer is in the list of the
    allocation it was bound to, and in no other list, whatever the lists
    were before. *)
Lemma bind_buffer_moves ndebug device buffer memory memoryOffset w w' :
  bind_buffer ndebug device buffer memory memoryOffset w = Done tt w' →
  (∀ k m, g_memory_map (tables w') !! k = Some m → buffer ∈ bound_buffers m →
          k = memory ∧ is_null memory = false) ∧
  (is_null memory = false →
   ∃ m, g_memory_map (tables w') !! memory = Some m ∧ buffer ∈ bound_buffers m).
Proof.
  unfold bind_buffer. run_monad.
  destruct (is_null memory); cbn [negb]; run_monad.
  - intros [= <-]. split; [|done].
    intros k m Hk Hin. by destruct (unbind_buffer_absent buffer (tables w) k m).
  - unfold GetMemoryMapEntry.
    destruct (g_memory_map (unbind_buffer buffer (tables w)) !! memory) as [m0|] eqn:Hm0;
      run_monad; [|done].
    destruct (ndebug || _); run_monad; [|done].
    intros [= <-]. cbn. split.
    + intros k m [[<- <-]|[Hne Hk]]%lookup_insert_Some Hin; [done|].
      by destruct (unbind_buffer_absent buffer (tables w) k m).
    + intros _. eexists. split; [apply lookup_insert_eq|].
      rewrite bound_buffers_set_buffers, fmap_app, elem_of_app. right.
      by apply list_elem_of_singleton.
Qed.

Lemma empty_state_exclusive : binding_exclusive empty_state.
Proof. intros k1 k2 m1 m2 H1. cbn in H1. by rewrite lookup_empty in H1. Qed.




(** * Further proofs *)

(** ** Fences *)

Lemma reset_fence_runs fence w :
  Simulator.reset_fence fence w
  = Done tt {| tables := set_fence_map (<[fence := default None (reset_entry (g_fence_map (tables w) !! fence))]>) (tables w);
               trace := trace w; clock := clock w |}.
Proof.
  unfold Simulator.reset_fence, Simulator.index_fence_map, Simulator.store_fence. run_monad.
  destruct (g_fence_map (tables w) !! fence) as [[f|]|] eqn:Hf; run_monad; cbn.
  - reflexivity.
  - destruct w as [s t c], s; cbn in *. unfold set_fence_map; cbn.
    by rewrite insert_id.
  - reflexivity.
Qed.

Lemma reset_entry_idempotent entry : reset_entry (reset_entry entry) = reset_entry entry.
Proof. by destruct entry as [[[]|]|]. Qed.

Lemma reset_entry_default entry : Some (default None (reset_entry entry)) = reset_entry entry.
Proof. by destruct entry as [[|]|]. Qed.

Lemma only_fences_differ_refl s : only_fences_differ s s.
Proof. by destruct s. Qed.

Lemma only_fences_differ_step s s' f :
  only_fences_differ (set_fence_map f s) s' → only_fences_differ s s'.
Proof. unfold only_fences_differ. destruct s. cbn. done. Qed.

Lemma for_each_reset_fence (l : list VkFence) :
  ∀ w, ∃ w',
    for_each Simulator.reset_fence l w = Done tt w' ∧
    trace w' = trace w ∧ clock w' = clock w ∧
    only_fences_differ (tables w) (tables w') ∧
    ∀ fence, g_fence_map (tables w') !! fence
             = if decide (fence ∈ l) then reset_entry (g_fence_map (tables w) !! fence)
               else g_fence_map (tables w) !! fence.
Proof.
  induction l as [|x l IH]; intros w.
  - exists w. cbn. split; [done|]. split; [done|]. split; [done|].
    split; [apply only_fences_differ_refl|].
    intros fence. by rewrite decide_False by apply not_elem_of_nil.
  - cbn [for_each]. run_monad. rewrite reset_fence_runs.
    match goal with |- context [for_each _ l ?w1] => destruct (IH w1) as (w' & Hrun & Ht & Hc & Hd & Hl) end.
    exists w'. rewrite Hrun. split; [done|]. split; [done|]. split; [done|].
    split; [by eapply only_fences_differ_step|].
    intros fence. rewrite Hl. cbn.
    destruct (decide (fence = x)) as [->|Hne].
    + rewrite lookup_insert_eq, reset_entry_default, reset_entry_idempotent.
      rewrite (decide_True (P := x ∈ x :: l)) by left.
      by destruct (decide (x ∈ l)).
    + rewrite lookup_insert_ne by done.
      destruct (decide (fence ∈ l)) as [Hin|Hnin].
      * by rewrite decide_True by by right.
      * rewrite decide_False; [done|]. by intros [?|?]%elem_of_cons.
Qed.

(** [ResetFences] on an enabled device clears the record of every listed
    fence (signal state, both wait flags and the counter; the delay mode,
    the delay count and the start time stay), gives a listed handle that
    has no record a null entry, leaves every other fence and every other
    table as it is, and forwards the call once, after the records were
    cleared, returning the driver's result whatever it is. *)
Theorem ResetFences_clears_listed (w : World) (device : VkDevice) (dev : DeviceMapStruct)
    (dt : DispatchTable) (pFences : list VkFence) (next_result : VkResult)
    (Hdev : GetDeviceMapEntry (tables w) device = Some dev)
    (Hdt : d_dispatch_table dev = Some dt)
    (Hen : d_layer_enabled dev = true) :
  ∃ w', Simulator.ResetFences device pFences next_result w = Done next_result w' ∧
        trace w' = trace w ++ [Forwarded (DC_ResetFences device pFences)] ∧
        only_fences_differ (tables w) (tables w') ∧
        ∀ fence, g_fence_map (tables w') !! fence
                 = if decide (fence ∈ pFences)
                   then reset_entry (g_fence_map (tables w) !! fence)
                   else g_fence_map (tables w) !! fence.
Proof.
  destruct (for_each_reset_fence pFences w) as (w1 & Hrun & Ht & Hc & Hd & Hl).
  unfold Simulator.ResetFences. run_monad. run_with Hdev. rewrite Hen. run_monad.
  rewrite Hrun. run_monad. run_with Hdt. eexists. split; [reflexivity|]. cbn. by rewrite Ht.
Qed.

Lemma ResetFences_clears_listed_witness :
  fence_after 5%N (Simulator.ResetFences 1%N [5%N; 7%N] VK_ERROR_DEVICE_LOST two_fence_world)
  = Some (Some (cleared (fresh_fence true 3))).
Proof.
  destruct (ResetFences_clears_listed two_fence_world 1%N sample_device
              {| has_GetProcAddr := true |} [5%N; 7%N] VK_ERROR_DEVICE_LOST
              eq_refl eq_refl eq_refl) as (w' & Hrun & _ & _ & Hl).
  rewrite Hrun. cbn. rewrite Hl. rewrite decide_True by left. reflexivity.
Defined.

(** The [switch] of [GetFenceStatus] changes the counter and the start
    time of the record and nothing else, and leaves the world as it is. *)
Lemma advance_on_status_runs (f : FenceMapStruct) (w : World) :
  ∃ f1, Simulator.advance_on_status f w = Done f1 w ∧
        signalled f1 = signalled f ∧ wait_started f1 = wait_started f ∧
        wait_completed f1 = wait_completed f ∧ delay_type f1 = delay_type f ∧
        delay_count f1 = delay_count f ∧ f_device f1 = f_device f.
Proof.
  unfold Simulator.advance_on_status.
  destruct (delay_type f) eqn:Hmode; run_monad; try destruct (wait_started f) eqn:Hws;
    eexists; (split; [reflexivity|]); cbn; rewrite ?Hmode, ?Hws; auto 10.
Qed.

(** One status query of a fence that has a record in a delay mode and is
    not signalled. *)
Lemma GetFenceStatus_unsignalled_step (w : World) (device : VkDevice)
    (fence : VkFence) (dev : DeviceMapStruct) (f : FenceMapStruct) (next_result : VkResult) :
  GetDeviceMapEntry (tables w) device = Some dev →
  d_layer_enabled dev = true →
  g_fence_map (tables w) !! fence = Some (Some f) →
  is_delay_none (delay_type f) = false →
  signalled f = false →
  ∃ (w' : World) (f' : FenceMapStruct),
    Simulator.GetFenceStatus device fence next_result w = Done VK_NOT_READY w' ∧
    trace w' = trace w ∧
    GetDeviceMapEntry (tables w') device = Some dev ∧
    g_fence_map (tables w') !! fence = Some (Some f') ∧
    signalled f' = false ∧ delay_type f' = delay_type f ∧ wait_started f' = true ∧
    wait_completed f' = wait_completed f.
Proof.
  intros Hdev Hen Hf Hmode Hsig.
  destruct (advance_on_status_runs f w) as (f1 & Hrun & Hs1 & Hws1 & Hwc1 & Hm1 & _).
  unfold Simulator.GetFenceStatus, Simulator.status_gate, Simulator.index_fence_map,
    Simulator.store_fence.
  run_monad. run_with Hdev. rewrite Hen. run_monad. run_with Hf. rewrite Hmode.
  cbn [negb]. run_monad. rewrite Hrun.
  assert (Hgate : signalled (if wait_started f1 then f1 else set_wait_started true f1) = false)
    by (destruct (wait_started f1); cbn; congruence).
  rewrite Hgate. cbn [negb orb]. run_monad.
  eexists _, _. split; [reflexivity|]. cbn. rewrite lookup_insert_eq.
  split; [done|]. split; [exact Hdev|]. split; [done|]. split; [done|].
  destruct (wait_started f1) eqn:E; cbn; auto.
Qed.

(** Status queries in a row of such a fence. *)
Lemma status_queries_unsignalled (device : VkDevice) (fence : VkFence)
    (dev : DeviceMapStruct) (answers : list VkResult) :
  ∀ (w : World) (f : FenceMapStruct),
    GetDeviceMapEntry (tables w) device = Some dev →
    d_layer_enabled dev = true →
    g_fence_map (tables w) !! fence = Some (Some f) →
    is_delay_none (delay_type f) = false →
    signalled f = false →
    ∃ (w' : World) (f' : FenceMapStruct),
      status_queries device fence answers w
      = Done (replicate (length answers) VK_NOT_READY) w' ∧
      trace w' = trace w ∧
      g_fence_map (tables w') !! fence = Some (Some f') ∧
      signalled f' = false.
Proof.
  induction answers as [|answer rest IH]; intros w f Hdev Hen Hf Hmode Hsig.
  - exists w, f. by cbn.
  - destruct (GetFenceStatus_unsignalled_step w device fence dev f answer
                Hdev Hen Hf Hmode Hsig)
      as (w1 & f1 & Hrun & Ht & Hdev1 & Hf1 & Hs1 & Hm1 & _).
    destruct (IH w1 f1 Hdev1 Hen Hf1) as (w' & f' & Hrest & Ht' & Hf' & Hs');
      [congruence | done |].
    exists w', f'. cbn [status_queries length replicate]. unfold mbind, M_bind.
    rewrite Hrun, Hrest. cbn. split; [done|]. split; [congruence|]. done.
Qed.

(** A fence that has a record in one of the delay modes and that the
    layer has not seen signalled is reported [VK_NOT_READY] by
    [GetFenceStatus] whatever the driver would answer and however often it
    is queried: no query is forwarded, and the record stays unsignalled. *)
Theorem GetFenceStatus_unsignalled_not_ready (w : World) (device : VkDevice)
    (fence : VkFence) (dev : DeviceMapStruct) (f : FenceMapStruct)
    (answers : list VkResult)
    (Hdev : GetDeviceMapEntry (tables w) device = Some dev)
    (Hen : d_layer_enabled dev = true)
    (Hf : g_fence_map (tables w) !! fence = Some (Some f))
    (Hmode : is_delay_none (delay_type f) = false)
    (Hsig : signalled f = false) :
  ∃ (w' : World) (f' : FenceMapStruct),
    status_queries device fence answers w
    = Done (replicate (length answers) VK_NOT_READY) w' ∧
    trace w' = trace w ∧
    g_fence_map (tables w') !! fence = Some (Some f') ∧
    signalled f' = false.
Proof. by apply (status_queries_unsignalled device fence dev answers w f). Qed.

Lemma GetFenceStatus_unsignalled_not_ready_witness :
  returned (status_queries 1%N 5%N [VK_SUCCESS; VK_SUCCESS; VK_SUCCESS; VK_SUCCESS]
              populated_world)
  = Some [VK_NOT_READY; VK_NOT_READY; VK_NOT_READY; VK_NOT_READY].
Proof.
  destruct (GetFenceStatus_unsignalled_not_ready populated_world 1%N 5%N sample_device
              (fresh_fence false 0) [VK_SUCCESS; VK_SUCCESS; VK_SUCCESS; VK_SUCCESS]
              eq_refl eq_refl eq_refl eq_refl eq_refl)
    as (w' & f' & Hrun & _).
  by rewrite Hrun.
Defined.

(** ** A device for which the simulator is disabled *)

Ltac run_disabled Hdev Hdt Hdis :=
  intros; run_monad; run_with Hdev; rewrite ?Hdis; cbn [andb negb]; run_monad;
  run_with Hdt; try reflexivity.

(** On a device for which the layer is disabled (no fence delay and 100
    percent memory are configured) the simulator's memory, bind and fence
    entry points only hand the call down: each returns the driver's
    result, forwards its own call once with the arguments it was given,
    and leaves every table as it is. *)
Theorem disabled_device_is_transparent (w : World) (device : VkDevice)
    (dev : DeviceMapStruct) (dt : DispatchTable)
    (Hdev : GetDeviceMapEntry (tables w) device = Some dev)
    (Hdt : d_dispatch_table dev = Some dt)
    (Hdis : d_layer_enabled dev = false) :
  (∀ info r m, Simulator.AllocateMemory device info r m w
               = Done r (after_forward (DC_AllocateMemory device info) w)) ∧
  (∀ m, Simulator.FreeMemory device m w = Done tt (after_forward (DC_FreeMemory device m) w)) ∧
  (∀ ndebug b m o r, Simulator.BindBufferMemory ndebug device b m o r w
                     = Done r (after_forward (DC_BindBufferMemory device b m o) w)) ∧
  (∀ ndebug i m o r, Simulator.BindImageMemory ndebug device i m o r w
                     = Done r (after_forward (DC_BindImageMemory device i m o) w)) ∧
  (∀ ndebug infos r, Simulator.BindBufferMemory2 ndebug device infos r w
                     = Done r (after_forward (DC_BindBufferMemory2 device infos) w)) ∧
  (∀ ndebug infos r, Simulator.BindImageMemory2 ndebug device infos r w
                     = Done r (after_forward (DC_BindImageMemory2 device infos) w)) ∧
  (∀ flags r fence, Simulator.CreateFence device flags r fence w
                    = Done r (after_forward (DC_CreateFence device flags) w)) ∧
  (∀ fence, Simulator.DestroyFence device fence w
            = Done tt (after_forward (DC_DestroyFence device fence) w)) ∧
  (∀ fences r, Simulator.ResetFences device fences r w
               = Done r (after_forward (DC_ResetFences device fences) w)) ∧
  (∀ fence r, Simulator.GetFenceStatus device fence r w
              = Done r (after_forward (DC_GetFenceStatus device fence) w)) ∧
  (∀ fences waitAll timeout r,
     Simulator.WaitForFences device fences waitAll timeout r w
     = Done r (after_forward (DC_WaitForFences device fences waitAll timeout) w)) ∧
  (∀ swapchain timeout semaphore fence r,
     Simulator.AcquireNextImageKHR device swapchain timeout semaphore fence r w
     = Done r (after_forward (DC_AcquireNextImageKHR device swapchain timeout semaphore fence) w)).
Proof.
  repeat split.
  - unfold Simulator.AllocateMemory, Simulator.over_budget. run_disabled Hdev Hdt Hdis.
  - unfold Simulator.FreeMemory. run_disabled Hdev Hdt Hdis.
  - unfold Simulator.BindBufferMemory. run_disabled Hdev Hdt Hdis.
  - unfold Simulator.BindImageMemory. run_disabled Hdev Hdt Hdis.
  - unfold Simulator.BindBufferMemory2. run_disabled Hdev Hdt Hdis.
  - unfold Simulator.BindImageMemory2. run_disabled Hdev Hdt Hdis.
  - unfold Simulator.CreateFence. run_disabled Hdev Hdt Hdis.
  - unfold Simulator.DestroyFence. run_disabled Hdev Hdt Hdis.
  - unfold Simulator.ResetFences. run_disabled Hdev Hdt Hdis.
  - unfold Simulator.GetFenceStatus. run_disabled Hdev Hdt Hdis.
  - unfold Simulator.WaitForFences. run_disabled Hdev Hdt Hdis.
  - unfold Simulator.AcquireNextImageKHR. run_disabled Hdev Hdt Hdis.
Qed.

Lemma disabled_device_is_transparent_witness :
  Simulator.GetFenceStatus 8%N 5%N VK_SUCCESS disabled_world
  = Done VK_SUCCESS (after_forward (DC_GetFenceStatus 8%N 5%N) disabled_world).
Proof.
  pose proof (disabled_device_is_transparent disabled_world 8%N disabled_device
                {| has_GetProcAddr := true |} eq_refl eq_refl eq_refl)
    as (_ & _ & _ & _ & _ & _ & _ & _ & _ & H & _).
  exact (H 5%N VK_SUCCESS).
Defined.

(** ** Delays in milliseconds *)

Lemma milliseconds_since_after start n :
  Simulator.milliseconds_since start (start + milliseconds n) = n.
Proof.
  unfold Simulator.milliseconds_since, milliseconds.
  replace (start + n * 1000000 - start) with (n * 1000000) by lia.
  by apply Z.quot_mul.
Qed.

(** One status query on a signalled fence in the mode "milliseconds from
    trigger", made [n] ms after the start time of the record: the counter
    grows by [n], the start time stays, and the query is forwarded exactly
    when the counter has reached the delay count. *)
Lemma GetFenceStatus_from_trigger (w : World) (device : VkDevice) (fence : VkFence)
    (dev : DeviceMapStruct) (dt : DispatchTable) (f : FenceMapStruct) (n : Z)
    (next_result : VkResult) :
  GetDeviceMapEntry (tables w) device = Some dev →
  d_dispatch_table dev = Some dt →
  d_layer_enabled dev = true →
  g_fence_map (tables w) !! fence = Some (Some f) →
  delay_type f = FENCE_DELAY_MS_FROM_TRIGGER →
  signalled f = true →
  clock w = start_time f + milliseconds n →
  let counted := wrap32 (elapsed_count f + n) in
  let f1 := set_elapsed_count counted f in
  let f2 := if wait_started f1 then f1 else set_wait_started true f1 in
  Simulator.GetFenceStatus device fence next_result w
  = if counted <? delay_count f
    then Done VK_NOT_READY
           {| tables := set_fence_map (<[fence := Some f2]>) (tables w);
              trace := trace w; clock := clock w |}
    else Done next_result
           {| tables := set_fence_map (<[fence := Some (set_wait_completed true f2)]>) (tables w);
              trace := trace w ++ [Forwarded (DC_GetFenceStatus device fence)];
              clock := clock w |}.
Proof.
  intros Hdev Hdt Hen Hf Hmode Hsig Hclock counted f1 f2.
  unfold Simulator.GetFenceStatus, Simulator.status_gate, Simulator.index_fence_map,
    Simulator.store_fence, Simulator.advance_on_status.
  run_monad. run_with Hdev. rewrite Hen. run_monad. run_with Hf. rewrite Hmode.
  cbn [is_delay_none negb]. run_monad. rewrite Hclock, milliseconds_since_after.
  rewrite <- ?Hclock. fold counted. fold f1. fold f2.
  assert (Hs2 : signalled f2 = true) by (subst f2 f1; destruct (wait_started _); exact Hsig).
  assert (He2 : elapsed_count f2 = counted) by (subst f2 f1; by destruct (wait_started _)).
  assert (Hd2 : delay_count f2 = delay_count f) by (subst f2 f1; by destruct (wait_started _)).
  rewrite Hs2, He2, Hd2. cbn [negb orb].
  destruct (counted <? delay_count f); run_monad; [reflexivity|].
  by run_with Hdt.
Qed.

(** In the mode "milliseconds from trigger" every status query adds the
    whole time since the signal to the counter.  A fence polled [a] ms and
    again [b] ms after its signal is therefore handed to the driver by the
    second query as soon as [a + b] reaches the delay count, although only
    [b] ms, less than the configured delay, have passed. *)
Theorem from_trigger_polls_add_up (w : World) (device : VkDevice) (fence : VkFence)
    (dev : DeviceMapStruct) (dt : DispatchTable) (f : FenceMapStruct) (a b : Z)
    (r1 r2 : VkResult)
    (Hdev : GetDeviceMapEntry (tables w) device = Some dev)
    (Hdt : d_dispatch_table dev = Some dt)
    (Hen : d_layer_enabled dev = true)
    (Hf : g_fence_map (tables w) !! fence = Some (Some f))
    (Hmode : delay_type f = FENCE_DELAY_MS_FROM_TRIGGER)
    (Hsig : signalled f = true)
    (He : elapsed_count f = 0)
    (Ha : 0 ≤ a ≤ b)
    (Hb : b < delay_count f)
    (Hsum : delay_count f ≤ a + b < 2 ^ 32) :
  ∃ w1 w2 : World,
    Simulator.GetFenceStatus device fence r1 (at_clock (start_time f + milliseconds a) w)
    = Done VK_NOT_READY w1 ∧
    trace w1 = trace w ∧
    Simulator.GetFenceStatus device fence r2 (at_clock (start_time f + milliseconds b) w1)
    = Done r2 w2 ∧
    trace w2 = trace w ++ [Forwarded (DC_GetFenceStatus device fence)].
Proof.
  pose proof (GetFenceStatus_from_trigger (at_clock (start_time f + milliseconds a) w)
                device fence dev dt f a r1 Hdev Hdt Hen Hf Hmode Hsig eq_refl) as H1.
  cbn zeta in H1. rewrite He, Z.add_0_l, wrap32_small in H1 by lia.
  replace (a <? delay_count f) with true in H1 by (symmetry; apply Z.ltb_lt; lia).
  match type of H1 with context [<[fence := Some ?x]>] => set (f1 := x) in * end.
  match type of H1 with _ = Done _ ?x => set (w1 := x) in * end.
  assert (Hf1 : g_fence_map (tables (at_clock (start_time f + milliseconds b) w1)) !! fence
                = Some (Some f1)) by (cbn; apply lookup_insert_eq).
  assert (Hfields : delay_type f1 = FENCE_DELAY_MS_FROM_TRIGGER ∧ signalled f1 = true ∧
                    elapsed_count f1 = a ∧ start_time f1 = start_time f ∧
                    delay_count f1 = delay_count f)
    by (subst f1; cbn; destruct (wait_started f); cbn; auto).
  destruct Hfields as (Hmode1 & Hsig1 & He1 & Hst1 & Hd1).
  pose proof (GetFenceStatus_from_trigger (at_clock (start_time f + milliseconds b) w1)
                device fence dev dt f1 b r2 Hdev Hdt Hen Hf1 Hmode1 Hsig1) as H2.
  cbn zeta in H2. rewrite He1, Hd1, wrap32_small in H2 by lia.
  replace (a + b <? delay_count f) with false in H2 by (symmetry; apply Z.ltb_ge; lia).
  exists w1. eexists. split; [exact H1|]. split; [reflexivity|].
  split; [apply H2; cbn; by rewrite Hst1|]. reflexivity.
Qed.

Lemma from_trigger_polls_add_up_witness :
  returned (Simulator.GetFenceStatus 1%N 5%N VK_SUCCESS
              (at_clock (milliseconds 40) triggered_world)) = Some VK_NOT_READY.
Proof.
  destruct (from_trigger_polls_add_up triggered_world 1%N 5%N sample_device
              {| has_GetProcAddr := true |} triggered_fence 40 70 VK_SUCCESS VK_SUCCESS
              eq_refl eq_refl eq_refl eq_refl eq_refl eq_refl eq_refl)
    as (w1 & w2 & H1 & _); [lia | reflexivity | cbn; lia |].
  change (start_time triggered_fence + milliseconds 40) with (milliseconds 40) in H1.
  by rewrite H1.
Defined.

(** ** The life of a fence record *)

Lemma signaled_bit_odd flags :
  negb (Z.land flags Simulator.VK_FENCE_CREATE_SIGNALED_BIT =? 0) = Z.odd flags.
Proof.
  unfold Simulator.VK_FENCE_CREATE_SIGNALED_BIT.
  change 1 with (Z.ones 1). rewrite Z.land_ones by lia.
  change (2 ^ 1) with 2. rewrite Zmod_odd. by destruct (Z.odd flags).
Qed.

Lemma set_fence_map_delete_insert fence f s :
  g_fence_map s !! fence = None →
  set_fence_map (delete fence) (set_fence_map (<[fence := f]>) s) = s.
Proof.
  intros Hfresh. destruct s; cbn in *. unfold set_fence_map; cbn.
  by rewrite delete_insert_eq, delete_id.
Qed.

(** On an enabled device a successful [CreateFence] gives the new handle
    a record that carries the device and its delay mode and count, with
    the counter at zero and both wait flags false, signalled exactly when
    [VK_FENCE_CREATE_SIGNALED_BIT] is set; a failed [CreateFence] leaves
    the tables as they are; and [DestroyFence] removes the record again,
    so that creating and destroying a fence whose handle had no entry
    brings the tables back to what they were. *)
Theorem fence_record_lifecycle (w : World) (device : VkDevice) (dev : DeviceMapStruct)
    (dt : DispatchTable) (flags : Z) (fence : VkFence)
    (Hdev : GetDeviceMapEntry (tables w) device = Some dev)
    (Hdt : d_dispatch_table dev = Some dt)
    (Hen : d_layer_enabled dev = true)
    (Hfresh : g_fence_map (tables w) !! fence = None) :
  (∃ (w1 w2 : World) (f : FenceMapStruct),
     Simulator.CreateFence device flags VK_SUCCESS fence w = Done VK_SUCCESS w1 ∧
     GetFenceMapEntry (tables w1) fence = Some f ∧
     f_device f = device ∧
     signalled f = Z.odd flags ∧
     delay_type f = fence_delay_type dev ∧
     delay_count f = wrap32 (fence_delay_count dev) ∧
     elapsed_count f = 0 ∧ wait_started f = false ∧ wait_completed f = false ∧
     Simulator.DestroyFence device fence w1 = Done tt w2 ∧
     tables w2 = tables w ∧
     forwarded (trace w2)
     = forwarded (trace w) ++ [DC_CreateFence device flags; DC_DestroyFence device fence]) ∧
  (∀ result, is_success result = false →
     Simulator.CreateFence device flags result fence w
     = Done result (after_forward (DC_CreateFence device flags) w)).
Proof.
  split.
  - unfold Simulator.CreateFence, Simulator.DestroyFence, Simulator.store_fence.
    run_monad. run_with Hdev. run_with Hdt. rewrite Hen. cbn [is_success andb]. run_monad.
    eexists _, _, _. split; [reflexivity|]. cbn [tables].
    split; [unfold GetFenceMapEntry; cbn; by rewrite lookup_insert_eq|].
    cbn [f_device signalled delay_type delay_count elapsed_count wait_started wait_completed].
    split; [done|]. split; [apply signaled_bit_odd|]. do 5 (split; [done|]).
    assert (Hdev1 : ∀ x, GetDeviceMapEntry (set_fence_map x (tables w)) device = Some dev)
      by (intros x; exact Hdev).
    rewrite Hdev1. run_monad. run_with Hdt. rewrite Hen. run_monad.
    split; [reflexivity|]. cbn [tables trace].
    unfold EraseFenceMapEntry, GetFenceMapEntry. cbn [g_fence_map set_fence_map].
    rewrite lookup_insert_eq. split.
    + by apply set_fence_map_delete_insert.
    + rewrite !forwarded_app. cbn. by rewrite <- app_assoc.
  - intros result Hfail. unfold Simulator.CreateFence. run_monad. run_with Hdev.
    run_with Hdt. rewrite Hen, Hfail. reflexivity.
Qed.

Lemma fence_record_lifecycle_witness :
  tables_after ((Simulator.CreateFence 1%N 1 VK_SUCCESS 6%N;;
                 Simulator.DestroyFence 1%N 6%N) populated_world)
  = Some populated_tables.
Proof.
  destruct (fence_record_lifecycle populated_world 1%N sample_device
              {| has_GetProcAddr := true |} 1 6%N eq_refl eq_refl eq_refl eq_refl)
    as [(w1 & w2 & f & H1 & _ & _ & _ & _ & _ & _ & _ & _ & H2 & Ht & _) _].
  unfold mbind, M_bind. rewrite H1, H2. cbn. by rewrite Ht.
Defined.

(** On an enabled device a status query of a fence whose handle has no
    entry is forwarded and answered by the driver, but [g_fence_map[fence]]
    has given the handle an entry that holds a null pointer; the lookup
    still finds no record, and [DestroyFence], which erases only where it
    finds a record, leaves that entry in the table. *)
Theorem untracked_fence_query_leaves_null_entry (w : World) (device : VkDevice)
    (dev : DeviceMapStruct) (dt : DispatchTable) (fence : VkFence) (next_result : VkResult)
    (Hdev : GetDeviceMapEntry (tables w) device = Some dev)
    (Hdt : d_dispatch_table dev = Some dt)
    (Hen : d_layer_enabled dev = true)
    (Hfresh : g_fence_map (tables w) !! fence = None) :
  ∃ w1 w2 : World,
    Simulator.GetFenceStatus device fence next_result w = Done next_result w1 ∧
    trace w1 = trace w ++ [Forwarded (DC_GetFenceStatus device fence)] ∧
    g_fence_map (tables w1) !! fence = Some None ∧
    GetFenceMapEntry (tables w1) fence = None ∧
    Simulator.DestroyFence device fence w1 = Done tt w2 ∧
    g_fence_map (tables w2) !! fence = Some None ∧
    size (g_fence_map (tables w2)) = S (size (g_fence_map (tables w))).
Proof.
  unfold Simulator.GetFenceStatus, Simulator.status_gate, Simulator.index_fence_map,
    Simulator.DestroyFence.
  run_monad. run_with Hdev. rewrite Hen. run_monad. run_with Hfresh. run_with Hdt.
  eexists _, _. split; [reflexivity|]. cbn [tables trace].
  split; [done|]. split; [cbn; apply lookup_insert_eq|].
  split; [unfold GetFenceMapEntry; cbn; by rewrite lookup_insert_eq|].
  assert (Hdev1 : ∀ x, GetDeviceMapEntry (set_fence_map x (tables w)) device = Some dev)
    by (intros x; exact Hdev).
  rewrite Hdev1. run_monad. run_with Hdt. rewrite Hen. run_monad.
  split; [reflexivity|]. cbn [tables].
  unfold EraseFenceMapEntry, GetFenceMapEntry. cbn [g_fence_map set_fence_map].
  rewrite lookup_insert_eq. cbn [g_fence_map set_fence_map].
  split; [apply lookup_insert_eq|]. by apply map_size_insert_None.
Qed.

Lemma untracked_fence_query_leaves_null_entry_witness :
  fence_after 6%N ((Simulator.GetFenceStatus 1%N 6%N VK_SUCCESS;;
                    Simulator.DestroyFence 1%N 6%N) populated_world)
  = Some None.
Proof.
  destruct (untracked_fence_query_leaves_null_entry populated_world 1%N sample_device
              {| has_GetProcAddr := true |} 6%N VK_SUCCESS eq_refl eq_refl eq_refl eq_refl)
    as (w1 & w2 & H1 & _ & _ & _ & H2 & Hl & _).
  unfold mbind, M_bind. rewrite H1, H2. cbn. by rewrite Hl.
Defined.

(** ** Waits with a timeout of a second or more *)

(** The loop of such a wait over signalled fences in fail-count mode. *)
Lemma wait_loop_long_timeout (waitAll : bool) (timeout : Z) (pFences : list VkFence) :
  1000000000 ≤ timeout →
  ∀ (acc : list N) (w : World),
    (∀ fence, fence ∈ pFences →
       ∃ f, g_fence_map (tables w) !! fence = Some (Some f) ∧ signalled f = true ∧
            delay_type f = FENCE_DELAY_NUM_FAIL_WAITS) →
    ∃ w', Simulator.wait_loop waitAll timeout (wrap32 (timeout / 1000000)) pFences acc w
          = Done (Some (acc ++ pFences)) w' ∧
          trace w' = trace w ++ concat (long_wait_sleep (tables w) <$> pFences).
Proof.
  intros Hlong. induction pFences as [|fence rest IH]; intros acc w Hall.
  - exists w. cbn. by rewrite !app_nil_r.
  - destruct (Hall fence) as (f & Hf & Hsig & Hmode); [left|].
    cbn [Simulator.wait_loop].
    unfold Simulator.index_fence_map, Simulator.store_fence, Simulator.advance_on_wait.
    run_monad. run_with Hf. rewrite Hsig, Hmode. cbn [is_delay_none negb andb].
    apply Z.leb_le in Hlong as Hlong'. rewrite Hlong'. run_monad.
    unfold Simulator.held_back. cbn [Simulator.can_timeout Simulator.can_sleep
      Simulator.sleep_time andb negb].
    set (f1 := set_wait_completed true (if wait_started f then f else _)).
    assert (Hf1 : signalled f1 = true ∧ delay_type f1 = FENCE_DELAY_NUM_FAIL_WAITS ∧
                  delay_count f1 = delay_count f).
    { subst f1. by destruct (wait_started f). }
    destruct Hf1 as (Hsig1 & Hmode1 & Hcount1).
    assert (Hsleep : ∀ s : State,
              g_fence_map s = <[fence := Some f1]> (g_fence_map (tables w)) →
              ∀ other, long_wait_sleep s other = long_wait_sleep (tables w) other).
    { intros s Hs other. unfold long_wait_sleep. rewrite Hs.
      destruct (decide (other = fence)) as [->|Hne].
      - by rewrite lookup_insert_eq, Hf, Hcount1.
      - by rewrite lookup_insert_ne. }
    assert (Hrest : ∀ s : State,
              g_fence_map s = <[fence := Some f1]> (g_fence_map (tables w)) →
              ∀ other, other ∈ rest →
                ∃ g, g_fence_map s !! other = Some (Some g) ∧ signalled g = true ∧
                     delay_type g = FENCE_DELAY_NUM_FAIL_WAITS).
    { intros s Hs other Hin. rewrite Hs.
      destruct (decide (other = fence)) as [->|Hne].
      - exists f1. by rewrite lookup_insert_eq.
      - rewrite lookup_insert_ne by done. apply Hall. by right. }
    cbn [fmap list_fmap concat].
    unfold long_wait_sleep at 1. rewrite Hf. fold (wrap32 (delay_count f * 10)).
    cbn zeta.
    destruct (wrap32 (delay_count f * 10) =? 0); cbn [negb]; run_monad;
      match goal with |- context [Simulator.wait_loop _ _ _ rest _ ?w1] =>
        destruct (IH (acc ++ [fence]) w1 (Hrest (tables w1) eq_refl))
          as (w' & Hrun & Htrace);
        assert (Heq : long_wait_sleep (tables w1) <$> rest
                      = long_wait_sleep (tables w) <$> rest)
          by (apply list_fmap_ext; intros; by apply Hsleep);
        rewrite Heq in Htrace
      end;
      exists w'; rewrite Hrun, Htrace; cbn [tables trace clock app];
      by rewrite <- !app_assoc.
Qed.

(** With a timeout of a second or more [WaitForFences] never answers
    [VK_TIMEOUT] itself for signalled fences in fail-count mode, whatever
    their counters and delay counts are and also when a fence is listed
    more than once: for each listed fence in turn it sleeps ten
    milliseconds times the delay count (a [uint32_t] product; no sleep when
    it is zero), then it forwards one wait for the list as given and
    returns the driver's result. *)
Theorem long_timeout_wait_is_forwarded (w : World) (device : VkDevice)
    (dev : DeviceMapStruct) (dt : DispatchTable) (pFences : list VkFence) (waitAll : bool)
    (timeout : Z) (next_result : VkResult)
    (Hdev : GetDeviceMapEntry (tables w) device = Some dev)
    (Hdt : d_dispatch_table dev = Some dt)
    (Hen : d_layer_enabled dev = true)
    (Hlong : 1000000000 ≤ timeout)
    (Hall : ∀ fence, fence ∈ pFences →
       ∃ f, g_fence_map (tables w) !! fence = Some (Some f) ∧ signalled f = true ∧
            delay_type f = FENCE_DELAY_NUM_FAIL_WAITS) :
  ∃ w', Simulator.WaitForFences device pFences waitAll timeout next_result w
        = Done next_result w' ∧
        trace w' = trace w ++ concat (long_wait_sleep (tables w) <$> pFences)
                   ++ [Forwarded (DC_WaitForFences device pFences waitAll timeout)].
Proof.
  destruct (wait_loop_long_timeout waitAll timeout pFences Hlong [] w Hall)
    as (w1 & Hrun & Htrace).
  rewrite (WaitForFences_enabled w w1 device dev dt pFences waitAll timeout next_result
             (Some ([] ++ pFences)) Hdev Hdt Hen Hrun).
  cbn [app]. destruct pFences as [|fence rest]; cbn [length Nat.eqb andb].
  - cbn. eexists. split; [reflexivity|]. cbn in *. by rewrite Htrace, app_nil_r.
  - rewrite andb_false_r. eexists. split; [reflexivity|]. cbn [trace].
    rewrite Htrace. by rewrite <- app_assoc.
Qed.

Lemma long_timeout_wait_is_forwarded_witness :
  world_after (Simulator.WaitForFences 1%N [5%N; 6%N; 7%N; 5%N] true 1000000000
                 VK_SUCCESS three_count_world)
  ≫= (λ w', Some (trace w'))
  = Some [SleptFor 30; SleptFor 4; SleptFor 30;
          Forwarded (DC_WaitForFences 1%N [5%N; 6%N; 7%N; 5%N] true 1000000000)].
Proof.
  destruct (long_timeout_wait_is_forwarded three_count_world 1%N sample_device
              {| has_GetProcAddr := true |} [5%N; 6%N; 7%N; 5%N] true 1000000000
              VK_SUCCESS eq_refl eq_refl eq_refl) as (w' & Hrun & Htrace).
  - lia.
  - intros fence Hin.
    repeat (apply elem_of_cons in Hin as [-> | Hin]); [.. | by apply elem_of_nil in Hin].
    + exists (fail_count_record 3). repeat split; reflexivity.
    + exists (fail_count_record 0). repeat split; reflexivity.
    + exists (fail_count_record 429496730). repeat split; reflexivity.
    + exists (fail_count_record 3). repeat split; reflexivity.
  - rewrite Hrun. cbn [world_after mbind option_bind]. by rewrite Htrace.
Defined.

(** ** The allocation counters of the simulator *)

Lemma budget_heap_of_lookup phys type_index heap budget_heap :
  Simulator.budget_heap_of phys type_index = Some (heap, budget_heap) →
  memoryHeaps (memory_props phys) !! heap = Some budget_heap.
Proof.
  unfold Simulator.budget_heap_of.
  destruct (memoryTypes (memory_props phys) !! Z.to_nat type_index) as [ty|]; cbn; [|done].
  destruct (memoryHeaps (memory_props phys) !! Z.to_nat (heapIndex ty)) as [h|] eqn:E;
    cbn; [|done].
  by intros [= <- <-].
Qed.

Lemma with_allocated_twice phys heap budget_heap a b :
  with_allocated (with_allocated phys heap budget_heap a) heap (set_allocated a budget_heap) b
  = with_allocated phys heap budget_heap b.
Proof.
  unfold with_allocated, set_memory_props, set_memoryHeaps, set_allocated. cbn.
  by rewrite list_insert_insert_eq.
Qed.

Lemma with_allocated_same phys heap budget_heap :
  memoryHeaps (memory_props phys) !! heap = Some budget_heap →
  with_allocated phys heap budget_heap (allocated budget_heap) = phys.
Proof.
  intros Hheap. unfold with_allocated.
  replace (set_allocated (allocated budget_heap) budget_heap) with budget_heap
    by by destruct budget_heap.
  rewrite list_insert_id by done.
  by destruct phys as [? [] ? ? ? ?].
Qed.

Lemma wrap64_add_sub a s : 0 ≤ a < 2 ^ 64 → wrap64 (wrap64 (a + s) - s) = a.
Proof.
  intros Ha. unfold wrap64. rewrite Zminus_mod_idemp_l.
  replace (a + s - s) with a by lia. by apply Z.mod_small.
Qed.

(** In the simulator with a memory percentage below 100, an allocation
    that passes the check and that the driver grants, followed by
    [FreeMemory] of the handle it returned, leaves every table as it was
    before the allocation (the heap's counter included), provided the
    handle had no record before. *)
Theorem allocate_then_free_restores (w : World) (device : VkDevice) (dev : DeviceMapStruct)
    (phys : PhysDeviceMapStruct) (dt : DispatchTable) (info : VkMemoryAllocateInfo)
    (heap : nat) (budget_heap : MemoryHeapWithBudget) (memory : VkDeviceMemory)
    (Hdev : GetDeviceMapEntry (tables w) device = Some dev)
    (Hdt : d_dispatch_table dev = Some dt)
    (Hen : d_layer_enabled dev = true)
    (Hphys : GetPhysicalDeviceMapEntry (tables w) (physical_device dev) = Some phys)
    (Hpercent : memory_percent phys < 100)
    (Hheap : Simulator.budget_heap_of phys (memoryTypeIndex info) = Some (heap, budget_heap))
    (Hcounter : 0 ≤ allocated budget_heap < 2 ^ 64)
    (Hfits : wrap64 (allocated budget_heap + allocationSize info)
             ≤ (if 0 <? budget budget_heap then budget budget_heap
                else heap_size budget_heap))
    (Hfresh : g_memory_map (tables w) !! memory = None) :
  ∃ w1 w2 : World,
    Simulator.AllocateMemory device (Some info) VK_SUCCESS memory w = Done VK_SUCCESS w1 ∧
    GetMemoryMapEntry (tables w1) memory
    = Some {| m_device := device; alloc_info := info; buffers := []; images := [] |} ∧
    Simulator.FreeMemory device memory w1 = Done tt w2 ∧
    tables w2 = tables w.
Proof.
  pose proof (AllocateMemory_enabled w device dev phys dt info heap budget_heap VK_SUCCESS
                memory Hdev Hdt Hen Hphys Hpercent Hheap) as H1.
  cbn zeta in H1. apply Z.ltb_ge in Hfits. rewrite Hfits in H1. cbn [is_success] in H1.
  set (potential := wrap64 (allocated budget_heap + allocationSize info)) in *.
  match type of H1 with _ = Done _ ?x => set (w1 := x) in * end.
  pose proof (FreeMemory_enabled w1 device memory dev
                (with_allocated phys heap budget_heap potential) dt
                {| m_device := device; alloc_info := info; buffers := []; images := [] |}
                heap (set_allocated potential budget_heap)) as H2.
  exists w1. eexists. split; [exact H1|].
  split; [unfold GetMemoryMapEntry; cbn; apply lookup_insert_eq|].
  split.
  - apply H2; try done.
    + unfold GetPhysicalDeviceMapEntry. cbn. apply lookup_insert_eq.
    + unfold GetMemoryMapEntry. cbn. apply lookup_insert_eq.
    + cbn [alloc_info]. by apply budget_heap_of_with_allocated.
  - cbn [tables alloc_info allocated set_allocated allocationSize].
    subst potential. rewrite wrap64_add_sub by done.
    rewrite with_allocated_twice, with_allocated_same
      by by eapply budget_heap_of_lookup.
    destruct (tables w) eqn:Hs. unfold set_memory_map, set_phys_device_map. cbn in *.
    rewrite insert_insert_eq, delete_insert_eq, delete_id by done.
    by rewrite insert_id.
Qed.

Lemma allocate_then_free_restores_witness :
  tables_after
    ((Simulator.AllocateMemory 1%N (Some {| allocationSize := 400; memoryTypeIndex := 0 |})
        VK_SUCCESS 30%N;;
      Simulator.FreeMemory 1%N 30%N) budget_world)
  = Some (tables budget_world).
Proof.
  destruct (allocate_then_free_restores budget_world 1%N sample_device budget_phys
              {| has_GetProcAddr := true |}
              {| allocationSize := 400; memoryTypeIndex := 0 |} 0%nat
              {| heap_size := 500; allocated := 0; budget := 0; usage := 0; flags := 1 |}
              30%N eq_refl eq_refl eq_refl eq_refl)
    as (w1 & w2 & H1 & _ & H2 & Ht).
  - vm_compute. reflexivity.
  - vm_compute. reflexivity.
  - cbn. lia.
  - vm_compute. discriminate.
  - reflexivity.
  - unfold mbind, M_bind. rewrite H1, H2. cbn. by rewrite Ht.
Defined.

(** The check adds the request to the counter in 64 bits.  Once something
    is allocated from a heap, a request so large that the sum passes 2^64
    is not rejected: it is forwarded to the driver, and if the driver
    grants it the counter ends up lower than before. *)
Theorem oversized_request_wraps_past_the_check (w : World) (device : VkDevice)
    (dev : DeviceMapStruct) (phys : PhysDeviceMapStruct) (dt : DispatchTable)
    (info : VkMemoryAllocateInfo) (heap : nat) (budget_heap : MemoryHeapWithBudget)
    (next_result : VkResult) (memory : VkDeviceMemory)
    (Hdev : GetDeviceMapEntry (tables w) device = Some dev)
    (Hdt : d_dispatch_table dev = Some dt)
    (Hen : d_layer_enabled dev = true)
    (Hphys : GetPhysicalDeviceMapEntry (tables w) (physical_device dev) = Some phys)
    (Hpercent : memory_percent phys < 100)
    (Hheap : Simulator.budget_heap_of phys (memoryTypeIndex info) = Some (heap, budget_heap))
    (Hcounter : 0 < allocated budget_heap
                ≤ (if 0 <? budget budget_heap then budget budget_heap
                   else heap_size budget_heap))
    (Hcounter64 : allocated budget_heap < 2 ^ 64)
    (Hsize : 2 ^ 64 - allocated budget_heap ≤ allocationSize info < 2 ^ 64) :
  ∃ w', Simulator.AllocateMemory device (Some info) next_result memory w
        = Done next_result w' ∧
        trace w' = trace w ++ [Forwarded (DC_AllocateMemory device (Some info))] ∧
        (is_success next_result = true →
         ∃ a, allocated_in (tables w') (physical_device dev) heap = Some a ∧
              a = allocated budget_heap + allocationSize info - 2 ^ 64 ∧
              a < allocated budget_heap).
Proof.
  pose proof (AllocateMemory_enabled w device dev phys dt info heap budget_heap next_result
                memory Hdev Hdt Hen Hphys Hpercent Hheap) as H1.
  cbn zeta in H1.
  assert (Hwrap : wrap64 (allocated budget_heap + allocationSize info)
                  = allocated budget_heap + allocationSize info - 2 ^ 64).
  { unfold wrap64.
    rewrite <- (Z_mod_plus_full _ (-1)). apply Z.mod_small.
    destruct (0 <? budget budget_heap); lia. }
  rewrite Hwrap in H1.
  replace (_ <? _) with false in H1 by (symmetry; apply Z.ltb_ge; lia).
  destruct (is_success next_result) eqn:Hok; eexists; (split; [exact H1|]);
    (split; [reflexivity|]); [|done].
  intros _. eexists. split; [|split; [reflexivity|lia]].
  cbn [tables]. apply allocated_in_with_allocated. by eapply budget_heap_of_lt.
Qed.

Lemma oversized_request_wraps_past_the_check_witness :
  returned (Simulator.AllocateMemory 1%N (Some oversized_request) VK_SUCCESS 31%N
              allocated_world) = Some VK_SUCCESS.
Proof.
  destruct (oversized_request_wraps_past_the_check allocated_world 1%N sample_device
              (with_allocated budget_phys 0 half_heap 400) {| has_GetProcAddr := true |}
              oversized_request 0%nat (set_allocated 400 half_heap) VK_SUCCESS 31%N
              eq_refl eq_refl eq_refl eq_refl)
    as (w' & Hrun & _).
  - vm_compute. reflexivity.
  - vm_compute. reflexivity.
  - cbn. lia.
  - cbn. lia.
  - cbn. lia.
  - by rewrite Hrun.
Defined.

(** ** What the simulator records about memory *)

(** Induction over the iterations of a counted loop that returns. *)
Lemma for_index_ind {A : Type} (P : nat → A → Prop) (count : Z)
    (body : nat → A → option A) (init r : A) :
  P 0%nat init →
  (∀ i a a', (i < Z.to_nat count)%nat → P i a → body i a = Some a' → P (S i) a') →
  for_index count body init = Some r →
  P (Z.to_nat count) r.
Proof.
  unfold for_index. generalize (Z.to_nat count) as n. intros n H0 Hstep. revert r.
  induction n as [|n IH]; intros r.
  - cbn. by intros [= <-].
  - rewrite seq_S, foldl_app. cbn.
    destruct (foldl _ _ (seq 0 n)) as [a|] eqn:Efold; cbn; [|done].
    intros Hbody. apply (Hstep n a r); [lia| |done].
    apply IH; [|done]. intros i x x' Hi. apply Hstep. lia.
Qed.

Lemma array_store_Some {A : Type} (i : nat) (x : A) (array array' : list A) :
  array_store i x array = Some array' → array' = <[i := x]> array ∧ (i < length array)%nat.
Proof. unfold array_store. destruct (decide _); [|done]. by intros [= <-]. Qed.

(** One iteration of the heap loop when the budget structure is there. *)
Lemma manage_heap_budget (percent : Z) (bs : list VkDeviceSize) (k : nat)
    (local local' : list MemoryHeapWithBudget) (vk vk' : list VkMemoryHeap)
    (u : list VkDeviceSize) (us' : option (list VkDeviceSize)) :
  Simulator.manage_heap percent (Some bs) k (local, vk, Some u) = Some (local', vk', us') →
  ∃ (v0 v : VkMemoryHeap) (old : MemoryHeapWithBudget) (b ux : VkDeviceSize)
    (u' : list VkDeviceSize),
    vk !! k = Some v0 ∧ local !! k = Some old ∧ bs !! k = Some b ∧
    vk' = <[k := v]> vk ∧ us' = Some u' ∧
    (if percent <? 100
     then Simulator.AdjustMemoryByPercent (vk_size v0) (wrap32 percent) = Some (vk_size v) ∧
          vk_flags v = vk_flags v0
     else v = v0) ∧
    local' = <[k := {| heap_size := vk_size v; allocated := allocated old; budget := b;
                       usage := ux; flags := vk_flags v |}]> local ∧
    (k < length local)%nat.
Proof.
  unfold Simulator.manage_heap.
  destruct (percent <? 100) eqn:Hp.
  - destruct (vk !! k) as [v0|] eqn:Hv0; cbn; [|done].
    destruct (Simulator.AdjustMemoryByPercent (vk_size v0) (wrap32 percent))
      as [new_size|] eqn:Hadj; cbn; [|done].
    destruct (array_store k _ vk) as [vk1|] eqn:Hst; cbn; [|done].
    apply array_store_Some in Hst as [-> Hlt].
    destruct (u !! k) as [uk|] eqn:Huk; cbn; [|done].
    destruct (Simulator.AdjustMemoryByPercent uk (wrap32 percent)) as [new_usage|]; cbn; [|done].
    destruct (array_store k new_usage u) as [u1|] eqn:Hst2; cbn; [|done].
    apply array_store_Some in Hst2 as [-> Hlt2].
    rewrite !list_lookup_insert_eq by done. cbn.
    destruct (local !! k) as [old|] eqn:Hold; cbn; [|done].
    destruct (bs !! k) as [b|] eqn:Hb; cbn; [|done].
    destruct (array_store k _ local) as [l1|] eqn:Hst3; cbn; [|done].
    apply array_store_Some in Hst3 as [-> Hlt3].
    intros [= <- <- <-].
    eexists v0, {| vk_size := new_size; vk_flags := vk_flags v0 |}, old, b, _, _.
    repeat split; done.
  - cbn. destruct (vk !! k) as [v0|] eqn:Hv0; cbn; [|done].
    destruct (local !! k) as [old|] eqn:Hold; cbn; [|done].
    destruct (u !! k) as [uk|] eqn:Huk; cbn; [|done].
    destruct (bs !! k) as [b|] eqn:Hb; cbn; [|done].
    destruct (array_store k _ local) as [l1|] eqn:Hst3; cbn; [|done].
    apply array_store_Some in Hst3 as [-> Hlt3].
    intros [= <- <- <-].
    eexists v0, v0, old, b, _, _.
    rewrite list_insert_id by done. repeat split; done.
Qed.

(** When the budget structure is chained to the memory query, the
    simulator scales the size of each heap (and the usage) by the memory
    percentage but records the driver's [heapBudget] as it is and hands it
    back unchanged; the recorded size of a heap is the size reported to
    the application; and the allocation counters of the heaps are kept. *)
Theorem budget_is_recorded_unscaled (phys entry : PhysDeviceMapStruct)
    (props props' : VkPhysicalDeviceMemoryProperties)
    (b : VkPhysicalDeviceMemoryBudgetPropertiesEXT)
    (b' : option VkPhysicalDeviceMemoryBudgetPropertiesEXT)
    (Hrun : Simulator.ManageMemoryProperties phys props (Some b) = Some (entry, props', b')) :
  heapBudget <$> b' = Some (heapBudget b) ∧
  allocated <$> memoryHeaps (memory_props entry)
  = allocated <$> memoryHeaps (memory_props phys) ∧
  ∀ i, (i < Z.to_nat (vk_memoryHeapCount props))%nat →
    ∃ (h : MemoryHeapWithBudget) (v v0 : VkMemoryHeap),
      memoryHeaps (memory_props entry) !! i = Some h ∧
      vk_memoryHeaps props' !! i = Some v ∧
      vk_memoryHeaps props !! i = Some v0 ∧
      heapBudget b !! i = Some (budget h) ∧
      heap_size h = vk_size v ∧
      (if memory_percent phys <? 100
       then Simulator.AdjustMemoryByPercent (vk_size v0) (wrap32 (memory_percent phys))
            = Some (vk_size v)
       else v = v0).
Proof.
  unfold Simulator.ManageMemoryProperties in Hrun.
  destruct (copy_memory_types props _) as [types|]; cbn in Hrun; [|done].
  destruct (for_index _ _ _) as [[[heaps vk] us]|] eqn:Hloop; cbn in Hrun; [|done].
  set (percent := memory_percent phys) in *.
  set (local0 := memoryHeaps (memory_props phys)) in *.
  pose (P := λ (k : nat) (acc : list MemoryHeapWithBudget * list VkMemoryHeap
                               * option (list VkDeviceSize)),
    let '(local, vk, us) := acc in
    allocated <$> local = allocated <$> local0 ∧
    (∃ u, us = Some u) ∧
    (∀ j, (k ≤ j)%nat → vk !! j = vk_memoryHeaps props !! j) ∧
    ∀ i, (i < k)%nat →
      ∃ h v v0, local !! i = Some h ∧ vk !! i = Some v ∧
                vk_memoryHeaps props !! i = Some v0 ∧
                heapBudget b !! i = Some (budget h) ∧ heap_size h = vk_size v ∧
                (if percent <? 100
                 then Simulator.AdjustMemoryByPercent (vk_size v0) (wrap32 percent)
                      = Some (vk_size v)
                 else v = v0)).
  assert (HP : P (Z.to_nat (vk_memoryHeapCount props)) (heaps, vk, us)).
  { eapply (for_index_ind P); [| |exact Hloop].
    - cbn. split; [done|]. split; [by eexists|]. split; [done|]. intros i Hi. lia.
    - intros k [[local vk1] us1] [[local' vk'] us'] Hk (Halloc & [u ->] & Hrest & Hdone) Hstep.
      cbn in Hstep.
      apply manage_heap_budget in Hstep
        as (v0 & v & old & bk & ux & u' & Hv0 & Hold & Hbk & -> & -> & Hv & -> & Hlt).
      cbn. split; [|split; [by eexists|split]].
      + rewrite <- Halloc, list_fmap_insert. cbn. apply list_insert_id.
        by rewrite list_lookup_fmap, Hold.
      + intros j Hj. rewrite list_lookup_insert_ne by lia. apply Hrest. lia.
      + intros i Hi. destruct (decide (i = k)) as [->|Hne].
        * exists {| heap_size := vk_size v; allocated := allocated old; budget := bk;
                    usage := ux; flags := vk_flags v |}, v, v0.
          rewrite list_lookup_insert_eq by done.
          rewrite list_lookup_insert_eq by (by eapply lookup_lt_Some).
          rewrite <- Hrest, Hv0 by lia.
          repeat split; try done. by destruct (percent <? 100); [destruct Hv|]. 
        * destruct (Hdone i) as (h & v1 & v2 & ?); [lia|].
          exists h, v1, v2. by rewrite !list_lookup_insert_ne by done. }
  destruct HP as (Halloc & [u ->] & _ & Hdone).
  injection Hrun as <- <- <-. cbn.
  destruct (0 <? _); cbn; (split; [done|]); (split; [done|]); exact Hdone.
Qed.

Lemma budget_is_recorded_unscaled_witness :
  match Simulator.ManageMemoryProperties (sample_phys no_device_extensions) driver_props
          (Some driver_budget) with
  | Some (entry, _, b') =>
      heapBudget <$> b' = Some (heapBudget driver_budget) ∧
      allocated <$> memoryHeaps (memory_props entry)
      = allocated <$> memoryHeaps zero_memory_props
  | None => False
  end.
Proof.
  destruct (Simulator.ManageMemoryProperties (sample_phys no_device_extensions) driver_props
              (Some driver_budget)) as [[[entry props'] b']|] eqn:Hrun;
    [|by vm_compute in Hrun].
  destruct (budget_is_recorded_unscaled _ _ _ _ _ _ Hrun) as (Hb & Ha & _).
  by split.
Defined.

(** ** Presenting *)

Lemma signal_fence_returns fence w : ∃ w', Simulator.signal_fence fence w = Done tt w'.
Proof.
  unfold Simulator.signal_fence, Simulator.index_fence_map, Simulator.store_fence.
  run_monad. destruct (negb (is_null fence)); run_monad; [|by eexists].
  destruct (g_fence_map (tables w) !! fence) as [[f|]|]; run_monad; try by eexists.
  destruct (negb (is_delay_none (delay_type f))); run_monad; [|by eexists].
  destruct (delay_type f); run_monad; by eexists.
Qed.

Lemma for_each_signal_fence_returns (l : list VkFence) :
  ∀ w, ∃ w', for_each Simulator.signal_fence l w = Done tt w'.
Proof.
  induction l as [|fence l IH]; intros w; cbn [for_each]; run_monad; [by eexists|].
  destruct (signal_fence_returns fence w) as (w1 & ->). apply IH.
Qed.

Lemma present_walk_stuck (fuel : nat) (dev : DeviceMapStruct) (structure : SimulatorSync.PresentPNext)
    (rest : list SimulatorSync.PresentPNext) :
  ∀ w, SimulatorSync.present_walk fuel dev (structure :: rest) (structure :: rest) w
       = OutOfFuel.
Proof.
  induction fuel as [|fuel IH]; intros w; [reflexivity|].
  cbn [SimulatorSync.present_walk]. run_monad.
  destruct structure as [pFences|sType]; run_monad; [|apply IH].
  destruct (EXT_swapchain_maintenance1 _); run_monad; [|apply IH].
  destruct (for_each_signal_fence_returns pFences w) as (w1 & ->). apply IH.
Qed.

(** [QueuePresentKHR] returns the driver's result when the layer is
    disabled for the device, when the driver failed, or when nothing is
    chained to the present info.  When the layer is enabled, the present
    succeeded and any structure is chained, the walk over the chain goes
    back to the head of the chain after each structure: no number of
    iterations ends it, and the function does not return. *)
Theorem QueuePresentKHR_walk_never_ends (fuel : nat) (w : World) (queue : VkQueue)
    (device : VkDevice) (dev : DeviceMapStruct) (dt : DispatchTable)
    (structure : SimulatorSync.PresentPNext) (rest : list SimulatorSync.PresentPNext)
    (Hqueue : g_queue_to_device_map (tables w) !! queue = Some device)
    (Hdev : GetDeviceMapEntry (tables w) device = Some dev)
    (Hdt : d_dispatch_table dev = Some dt) :
  (d_layer_enabled dev = true →
   SimulatorSync.QueuePresentKHR fuel queue (Some (structure :: rest)) VK_SUCCESS w
   = OutOfFuel) ∧
  (∀ result, SimulatorSync.QueuePresentKHR fuel queue (Some []) result w
             = Done (result, [DC_QueuePresentKHR queue]) w) ∧
  (∀ chain result, d_layer_enabled dev = false ∨ is_success result = false →
     SimulatorSync.QueuePresentKHR fuel queue chain result w
     = Done (result, [DC_QueuePresentKHR queue]) w).
Proof.
  unfold SimulatorSync.QueuePresentKHR, Simulator.index_queue_map, dispatch_device.
  split; [|split].
  - intros Hen. run_monad. run_with Hqueue. run_with Hdev. run_with Hdt. rewrite Hen.
    cbn [is_success andb]. run_monad. by rewrite present_walk_stuck.
  - intros result. run_monad. run_with Hqueue. run_with Hdev. run_with Hdt.
    destruct (_ && _); run_monad; [|by destruct w].
    destruct fuel; cbn; by destruct w.
  - intros chain result Hoff. run_monad. run_with Hqueue. run_with Hdev. run_with Hdt.
    replace (_ && _) with false by (destruct Hoff as [-> | ->]; [done|by rewrite andb_false_r]).
    run_monad. by destruct w.
Qed.

Lemma QueuePresentKHR_walk_never_ends_witness :
  SimulatorSync.QueuePresentKHR 1000 9%N (Some [SimulatorSync.PresentOtherStructure 1000275000])
    VK_SUCCESS populated_world = OutOfFuel.
Proof.
  exact (proj1 (QueuePresentKHR_walk_never_ends 1000 populated_world 9%N 1%N sample_device
                  {| has_GetProcAddr := true |}
                  (SimulatorSync.PresentOtherStructure 1000275000) []
                  eq_refl eq_refl eq_refl) eq_refl).
Defined.

(** ** Queues *)

(** The queue entry points find their device through the table that
    [GetDeviceQueue] fills (for enabled and disabled devices alike).  A
    queue obtained through [GetDeviceQueue] is served: a sparse bind
    without a fence on it is handed to the driver and returns its result.
    A queue the layer has not seen is given the null device by
    [g_queue_to_device_map[queue]], for which there is no record, and
    [QueueBindSparse], [QueueSubmit], [QueueSubmit2] and [QueuePresentKHR]
    read through the null pointer. *)
Theorem queues_come_from_GetDeviceQueue (w : World) (device : VkDevice)
    (dev : DeviceMapStruct) (dt : DispatchTable) (queueFamilyIndex queueIndex : Z)
    (queue : VkQueue)
    (Hdev : GetDeviceMapEntry (tables w) device = Some dev)
    (Hdt : d_dispatch_table dev = Some dt)
    (Hunknown : g_queue_to_device_map (tables w) !! queue = None)
    (Hnull : GetDeviceMapEntry (tables w) VK_NULL_HANDLE = None) :
  (∃ w1, SimulatorSync.GetDeviceQueue device queueFamilyIndex queueIndex queue w
         = Done [DC_GetDeviceQueue device queueFamilyIndex queueIndex] w1 ∧
         g_queue_to_device_map (tables w1) !! queue = Some device ∧
         ∀ result, ∃ w2,
           Simulator.QueueBindSparse queue VK_NULL_HANDLE result w1 = Done result w2 ∧
           trace w2 = trace w ++ [Forwarded (DC_QueueBindSparse queue VK_NULL_HANDLE)]) ∧
  (∀ fence result, Simulator.QueueBindSparse queue fence result w = Crashed) ∧
  (∀ fence result props budget,
     Simulator.QueueSubmit queue fence result props budget w = Crashed) ∧
  (∀ fence result props budget,
     SimulatorSync.QueueSubmit2 queue fence result props budget w = Crashed) ∧
  (∀ fuel info result, SimulatorSync.QueuePresentKHR fuel queue info result w = Crashed).
Proof.
  split; [|repeat split].
  - unfold SimulatorSync.GetDeviceQueue, dispatch_device. run_monad.
    run_with Hdev. run_with Hdt. eexists. split; [reflexivity|]. cbn [tables].
    split; [cbn; apply lookup_insert_eq|].
    intros result. unfold Simulator.QueueBindSparse, Simulator.index_queue_map. run_monad.
    cbn [g_queue_to_device_map set_queue_to_device_map]. rewrite lookup_insert_eq.
    run_monad.
    assert (Hdev1 : ∀ x, GetDeviceMapEntry (set_queue_to_device_map x (tables w)) device
                         = Some dev) by (intros x; exact Hdev).
    rewrite Hdev1. run_monad.
    unfold Simulator.signal_fence. cbn [is_null N.eqb VK_NULL_HANDLE negb]. run_monad.
    destruct (d_layer_enabled dev); run_monad; run_with Hdt; by eexists.
  - intros. unfold Simulator.QueueBindSparse, Simulator.index_queue_map. run_monad.
    run_with Hunknown.
    assert (Hnull1 : ∀ x, GetDeviceMapEntry (set_queue_to_device_map x (tables w))
                            VK_NULL_HANDLE = None) by (intros x; exact Hnull).
    by rewrite Hnull1.
  - intros. unfold Simulator.QueueSubmit, Simulator.index_queue_map. run_monad.
    run_with Hunknown.
    assert (Hnull1 : ∀ x, GetDeviceMapEntry (set_queue_to_device_map x (tables w))
                            VK_NULL_HANDLE = None) by (intros x; exact Hnull).
    by rewrite Hnull1.
  - intros. unfold SimulatorSync.QueueSubmit2, Simulator.index_queue_map. run_monad.
    run_with Hunknown.
    assert (Hnull1 : ∀ x, GetDeviceMapEntry (set_queue_to_device_map x (tables w))
                            VK_NULL_HANDLE = None) by (intros x; exact Hnull).
    by rewrite Hnull1.
  - intros. unfold SimulatorSync.QueuePresentKHR, Simulator.index_queue_map. run_monad.
    run_with Hunknown.
    assert (Hnull1 : ∀ x, GetDeviceMapEntry (set_queue_to_device_map x (tables w))
                            VK_NULL_HANDLE = None) by (intros x; exact Hnull).
    by rewrite Hnull1.
Qed.

Lemma queues_come_from_GetDeviceQueue_witness :
  Simulator.QueueSubmit 12%N 5%N VK_SUCCESS driver_props driver_budget populated_world
  = Crashed.
Proof.
  exact (proj1 (proj2 (proj2 (queues_come_from_GetDeviceQueue populated_world 1%N
                                sample_device {| has_GetProcAddr := true |} 0 0 12%N
                                eq_refl eq_refl eq_refl eq_refl)))
           5%N VK_SUCCESS driver_props driver_budget).
Defined.

(** ** Fences of events *)

(** On an enabled device that is configured with a fence delay, a fence
    that [RegisterDeviceEventEXT] or [RegisterDisplayEventEXT] returned
    gets an unsignalled record in the device's delay mode; as the layer
    does not see the event happen, every later status query of the fence
    is answered [VK_NOT_READY] without being forwarded, whatever the
    driver would answer and however many queries are made. *)
Theorem event_fence_is_never_ready (w : World) (device : VkDevice) (dev : DeviceMapStruct)
    (dt : DispatchTable) (display : N) (fence : VkFence) (answers : list VkResult)
    (Hdev : GetDeviceMapEntry (tables w) device = Some dev)
    (Hdt : d_dispatch_table dev = Some dt)
    (Hen : d_layer_enabled dev = true)
    (Hmode : is_delay_none (fence_delay_type dev) = false) :
  (∃ w1 w2 : World,
     SimulatorSync.RegisterDeviceEventEXT device VK_SUCCESS fence w
     = Done (VK_SUCCESS, [DC_RegisterDeviceEventEXT device]) w1 ∧
     status_queries device fence answers w1
     = Done (replicate (length answers) VK_NOT_READY) w2 ∧
     trace w2 = trace w) ∧
  (∃ w1 w2 : World,
     SimulatorSync.RegisterDisplayEventEXT device display VK_SUCCESS fence w
     = Done (VK_SUCCESS, [DC_RegisterDisplayEventEXT device display]) w1 ∧
     status_queries device fence answers w1
     = Done (replicate (length answers) VK_NOT_READY) w2 ∧
     trace w2 = trace w).
Proof.
  split.
  - unfold SimulatorSync.RegisterDeviceEventEXT, dispatch_device, Simulator.store_fence.
    run_monad. run_with Hdev. run_with Hdt. rewrite Hen. cbn [is_success andb]. run_monad.
    match goal with |- ∃ w1 _, Done _ ?x = _ ∧ _ =>
      destruct (status_queries_unsignalled device fence dev answers x
                  (SimulatorSync.event_fence_record device dev))
        as (w2 & f2 & Hrun & Ht & _) end;
      [exact Hdev | done | cbn; apply lookup_insert_eq | done | done |].
    eexists _, w2. split; [reflexivity|]. by split.
  - unfold SimulatorSync.RegisterDisplayEventEXT, dispatch_device, Simulator.store_fence.
    run_monad. run_with Hdev. run_with Hdt. rewrite Hen. cbn [is_success andb]. run_monad.
    match goal with |- ∃ w1 _, Done _ ?x = _ ∧ _ =>
      destruct (status_queries_unsignalled device fence dev answers x
                  (SimulatorSync.event_fence_record device dev))
        as (w2 & f2 & Hrun & Ht & _) end;
      [exact Hdev | done | cbn; apply lookup_insert_eq | done | done |].
    eexists _, w2. split; [reflexivity|]. by split.
Qed.

Lemma event_fence_is_never_ready_witness :
  returned ((SimulatorSync.RegisterDeviceEventEXT 1%N VK_SUCCESS 6%N;;
             status_queries 1%N 6%N [VK_SUCCESS; VK_SUCCESS; VK_SUCCESS; VK_SUCCESS])
              populated_world)
  = Some [VK_NOT_READY; VK_NOT_READY; VK_NOT_READY; VK_NOT_READY].
Proof.
  destruct (event_fence_is_never_ready populated_world 1%N sample_device
              {| has_GetProcAddr := true |} 0%N 6%N
              [VK_SUCCESS; VK_SUCCESS; VK_SUCCESS; VK_SUCCESS]
              eq_refl eq_refl eq_refl eq_refl) as [(w1 & w2 & H1 & H2 & _) _].
  unfold mbind, M_bind. by rewrite H1, H2.
Defined.

(** ** Waits for fences that are not held back *)

Lemma wait_loop_forwards_unsignalled (waitAll : bool) (timeout ms : Z)
    (pFences : list VkFence) :
  ∀ (acc : list N) (w : World),
    (∀ fence f, fence ∈ pFences → g_fence_map (tables w) !! fence = Some (Some f) →
                signalled f && negb (is_delay_none (delay_type f)) = false) →
    ∃ w', Simulator.wait_loop waitAll timeout ms pFences acc w
          = Done (Some (acc ++ pFences)) w' ∧
          trace w' = trace w ∧ clock w' = clock w ∧
          only_fences_differ (tables w) (tables w') ∧
          ∀ fence, GetFenceMapEntry (tables w') fence = GetFenceMapEntry (tables w) fence.
Proof.
  induction pFences as [|fence rest IH]; intros acc w Hall.
  - exists w. cbn. rewrite app_nil_r. split; [done|]. split; [done|]. split; [done|].
    split; [apply only_fences_differ_refl|done].
  - cbn [Simulator.wait_loop]. unfold Simulator.index_fence_map. run_monad.
    destruct (g_fence_map (tables w) !! fence) as [[f|]|] eqn:Hf; run_monad.
    + rewrite (Hall fence f) by (done || left).
      destruct (IH (acc ++ [fence]) w) as (w' & Hrun & Ht & Hc & Hd & Hl).
      { intros other g Hin. apply Hall. by right. }
      exists w'. rewrite Hrun, <- app_assoc. done.
    + destruct (IH (acc ++ [fence]) w) as (w' & Hrun & Ht & Hc & Hd & Hl).
      { intros other g Hin. apply Hall. by right. }
      exists w'. rewrite Hrun, <- app_assoc. done.
    + match goal with |- context [Simulator.wait_loop _ _ _ rest _ ?w1] =>
        destruct (IH (acc ++ [fence]) w1) as (w' & Hrun & Ht & Hc & Hd & Hl) end.
      { intros other g Hin. cbn.
        destruct (decide (other = fence)) as [->|Hne].
        - by rewrite lookup_insert_eq.
        - rewrite lookup_insert_ne by done. apply Hall. by right. }
      exists w'. rewrite Hrun, <- app_assoc. split; [done|]. split; [done|].
      split; [done|]. split; [by eapply only_fences_differ_step|].
      intros other. rewrite Hl. unfold GetFenceMapEntry. cbn.
      destruct (decide (other = fence)) as [->|Hne].
      * by rewrite lookup_insert_eq, Hf.
      * by rewrite lookup_insert_ne.
Qed.

(** [WaitForFences] holds back only fences whose record is signalled and
    in a delay mode.  A wait for fences of which none is such (fences
    without a record, with the delay mode none, or not seen signalled by
    the layer, for which [GetFenceStatus] answers [VK_NOT_READY] itself)
    is forwarded at once with the list as it was given, and the driver's
    result is returned; the records of the fences stay as they are. *)
Theorem WaitForFences_forwards_unsignalled (w : World) (device : VkDevice)
    (dev : DeviceMapStruct) (dt : DispatchTable) (pFences : list VkFence) (waitAll : bool)
    (timeout : Z) (next_result : VkResult)
    (Hdev : GetDeviceMapEntry (tables w) device = Some dev)
    (Hdt : d_dispatch_table dev = Some dt)
    (Hen : d_layer_enabled dev = true)
    (Hall : ∀ fence f, fence ∈ pFences → g_fence_map (tables w) !! fence = Some (Some f) →
                       signalled f = false ∨ is_delay_none (delay_type f) = true) :
  ∃ w', Simulator.WaitForFences device pFences waitAll timeout next_result w
        = Done next_result w' ∧
        trace w' = trace w ++ [Forwarded (DC_WaitForFences device pFences waitAll timeout)] ∧
        clock w' = clock w ∧
        only_fences_differ (tables w) (tables w') ∧
        ∀ fence, GetFenceMapEntry (tables w') fence = GetFenceMapEntry (tables w) fence.
Proof.
  destruct (wait_loop_forwards_unsignalled waitAll timeout (wrap32 (timeout / 1000000))
              pFences [] w) as (w1 & Hrun & Ht & Hc & Hd & Hl).
  { intros fence f Hin Hf. destruct (Hall fence f Hin Hf) as [-> | ->]; [done|].
    by rewrite andb_false_r. }
  rewrite (WaitForFences_enabled w w1 device dev dt pFences waitAll timeout next_result
             (Some ([] ++ pFences)) Hdev Hdt Hen Hrun).
  cbn [app]. destruct pFences as [|fence rest]; cbn [length Nat.eqb andb].
  - cbn. eexists. split; [reflexivity|]. cbn. by rewrite Ht.
  - rewrite andb_false_r. eexists. split; [reflexivity|]. cbn. by rewrite Ht.
Qed.

Lemma WaitForFences_forwards_unsignalled_witness :
  returned (Simulator.WaitForFences 1%N [5%N; 6%N] true 0 VK_TIMEOUT populated_world)
  = Some VK_TIMEOUT.
Proof.
  destruct (WaitForFences_forwards_unsignalled populated_world 1%N sample_device
              {| has_GetProcAddr := true |} [5%N; 6%N] true 0 VK_TIMEOUT
              eq_refl eq_refl eq_refl) as (w' & Hrun & _); [|by rewrite Hrun].
  intros fence f [->|[->|[]%elem_of_nil]%elem_of_cons]%elem_of_cons.
  - intros [= <-]. by left.
  - intros [=].
Defined.

(** ** The configuration of an instance *)

Lemma tolower_idempotent c : SimulatorSetup.tolower (SimulatorSetup.tolower c)
                             = SimulatorSetup.tolower c.
Proof. destruct c as [[] [] [] [] [] [] [] []]; reflexivity. Qed.

Lemma transform_tolower_idempotent value :
  SimulatorSetup.transform_tolower (SimulatorSetup.transform_tolower value)
  = SimulatorSetup.transform_tolower value.
Proof.
  induction value as [|c rest IH]; cbn; [done|]. by rewrite tolower_idempotent, IH.
Qed.

(** Whatever the settings and the application info are, the record that
    [CreateInstance] builds has a memory percentage between 1 and 100 and
    a delay count that is not negative; the layer is disabled in it
    exactly when no delay mode is set and the percentage is 100, as it is
    without any setting; the core-version flags are downward closed (1.3
    implies 1.2 implies 1.1); and the delay mode is read without regard to
    the case of the letters. *)
Theorem instance_configuration_in_range (dispatch_table : DispatchTable)
    (apiVersion : option Z) (enabled_extensions : list string)
    (settings : SimulatorSetup.LayerSettings) :
  let record := SimulatorSetup.new_instance_record dispatch_table apiVersion
                  enabled_extensions settings in
  1 ≤ i_memory_percent record ≤ 100 ∧
  0 ≤ i_fence_delay_count record ∧
  (i_layer_enabled record = false ↔
   i_fence_delay_type record = FENCE_DELAY_NONE ∧ i_memory_percent record = 100) ∧
  (SimulatorSetup.fence_delay_type_setting settings = None →
   SimulatorSetup.memory_percent_setting settings = None →
   i_layer_enabled record = false) ∧
  (i_core_1_3 (i_extension_enables record) = true →
   i_core_1_2 (i_extension_enables record) = true) ∧
  (i_core_1_2 (i_extension_enables record) = true →
   i_core_1_1 (i_extension_enables record) = true) ∧
  (∀ value count percent,
     SimulatorSetup.read_fence_delay_type
       {| SimulatorSetup.fence_delay_type_setting :=
            Some (SimulatorSetup.transform_tolower value);
          SimulatorSetup.fence_delay_count_setting := count;
          SimulatorSetup.memory_percent_setting := percent |}
     = SimulatorSetup.read_fence_delay_type
         {| SimulatorSetup.fence_delay_type_setting := Some value;
            SimulatorSetup.fence_delay_count_setting := count;
            SimulatorSetup.memory_percent_setting := percent |}).
Proof.
  intros record. subst record.
  unfold SimulatorSetup.new_instance_record, SimulatorSetup.read_memory_percent,
    SimulatorSetup.read_fence_delay_count.
  cbn [i_memory_percent i_fence_delay_count i_layer_enabled i_fence_delay_type
       i_extension_enables].
  split; [destruct (SimulatorSetup.memory_percent_setting settings); lia|].
  split; [destruct (SimulatorSetup.fence_delay_count_setting settings); lia|].
  split.
  { rewrite negb_false_iff, andb_true_iff, Z.eqb_eq.
    destruct (SimulatorSetup.read_fence_delay_type settings); cbn; intuition congruence. }
  split.
  { intros Ht Hp. unfold SimulatorSetup.read_fence_delay_type. by rewrite Ht, Hp. }
  unfold SimulatorSetup.read_extension_enables. cbn [i_core_1_1 i_core_1_2 i_core_1_3].
  split; [rewrite !Z.ltb_lt; lia|]. split; [rewrite !Z.ltb_lt; lia|].
  intros value count percent. unfold SimulatorSetup.read_fence_delay_type.
  cbn [SimulatorSetup.fence_delay_type_setting].
  by rewrite transform_tolower_idempotent.
Qed.

(** ** Physical devices *)

Lemma registered_idempotent instance record entry :
  registered instance record (Some (registered instance record entry))
  = registered instance record entry.
Proof. by destruct entry. Qed.

Lemma only_phys_devices_differ_refl s : only_phys_devices_differ s s.
Proof. by destruct s. Qed.

Lemma only_phys_devices_differ_step s s' f :
  only_phys_devices_differ (set_phys_device_map f s) s' → only_phys_devices_differ s s'.
Proof. unfold only_phys_devices_differ. by destruct s. Qed.

Lemma register_physical_device_runs instance record physicalDevice w :
  SimulatorSetup.register_physical_device instance record physicalDevice w
  = Done tt {| tables :=
                 set_phys_device_map
                   (<[physicalDevice :=
                        registered instance record
                          (g_phys_device_map (tables w) !! physicalDevice)]>) (tables w);
               trace := trace w; clock := clock w |}.
Proof.
  unfold SimulatorSetup.register_physical_device, registered. run_monad.
  by destruct (g_phys_device_map (tables w) !! physicalDevice).
Qed.

Lemma for_each_register instance record (devices : list VkPhysicalDevice) :
  ∀ w, ∃ w',
    for_each (SimulatorSetup.register_physical_device instance record) devices w
    = Done tt w' ∧
    trace w' = trace w ∧ clock w' = clock w ∧
    only_phys_devices_differ (tables w) (tables w') ∧
    ∀ pd, g_phys_device_map (tables w') !! pd
          = if decide (pd ∈ devices)
            then Some (registered instance record (g_phys_device_map (tables w) !! pd))
            else g_phys_device_map (tables w) !! pd.
Proof.
  induction devices as [|x l IH]; intros w.
  - exists w. cbn. split; [done|]. split; [done|]. split; [done|].
    split; [apply only_phys_devices_differ_refl|].
    intros pd. by rewrite decide_False by apply not_elem_of_nil.
  - cbn [for_each]. run_monad. rewrite register_physical_device_runs.
    match goal with |- context [for_each _ l ?w1] =>
      destruct (IH w1) as (w' & Hrun & Ht & Hc & Hd & Hl) end.
    exists w'. rewrite Hrun. split; [done|]. split; [done|]. split; [done|].
    split; [by eapply only_phys_devices_differ_step|].
    intros pd. rewrite Hl. cbn.
    destruct (decide (pd = x)) as [->|Hne].
    + rewrite lookup_insert_eq, registered_idempotent.
      rewrite (decide_True (P := x ∈ x :: l)) by left.
      by destruct (decide (x ∈ l)).
    + rewrite lookup_insert_ne by done.
      destruct (decide (pd ∈ l)) as [Hin|Hnin].
      * by rewrite decide_True by by right.
      * rewrite decide_False; [done|]. by intros [?|?]%elem_of_cons.
Qed.

(** [EnumeratePhysicalDevices] registers the handles of a successful call
    with an array: a handle seen for the first time gets a record with
    the instance, its layer switch and its memory percentage, zeroed
    memory properties and no extension; a handle that has a record keeps
    it and is moved to the instance; every other record and table stays.
    Any other result of the driver, [VK_INCOMPLETE] included, and a call
    without an array leave the tables as they are, so that handles
    returned together with [VK_INCOMPLETE] stay unknown to the layer. *)
Theorem EnumeratePhysicalDevices_registers (w : World) (instance : VkInstance)
    (record : InstanceMapStruct) (dt : DispatchTable) (devices : list VkPhysicalDevice)
    (Hinstance : GetInstanceMapEntry (tables w) instance = Some record)
    (Hdt : i_dispatch_table record = Some dt) :
  (∃ w', SimulatorSetup.EnumeratePhysicalDevices instance VK_SUCCESS (Some devices) w
         = Done (VK_SUCCESS, [DC_EnumeratePhysicalDevices instance]) w' ∧
         trace w' = trace w ∧
         only_phys_devices_differ (tables w) (tables w') ∧
         ∀ pd, g_phys_device_map (tables w') !! pd
               = if decide (pd ∈ devices)
                 then Some (registered instance record (g_phys_device_map (tables w) !! pd))
                 else g_phys_device_map (tables w) !! pd) ∧
  (∀ result next_devices, is_success result = false ∨ next_devices = None →
     SimulatorSetup.EnumeratePhysicalDevices instance result next_devices w
     = Done (result, [DC_EnumeratePhysicalDevices instance]) w).
Proof.
  unfold SimulatorSetup.EnumeratePhysicalDevices, dispatch_instance. split.
  - run_monad. run_with Hinstance. run_with Hdt. cbn [is_success]. run_monad.
    destruct (for_each_register instance record devices w) as (w' & Hrun & Ht & _ & Hd & Hl).
    rewrite Hrun. by exists w'.
  - intros result next_devices Hnone. run_monad. run_with Hinstance. run_with Hdt.
    destruct Hnone as [-> | ->]; [by destruct w|].
    destruct (is_success result); run_monad; by destruct w.
Qed.

Lemma EnumeratePhysicalDevices_registers_witness :
  SimulatorSetup.EnumeratePhysicalDevices 100%N VK_INCOMPLETE (Some [3%N]) populated_world
  = Done (VK_INCOMPLETE, [DC_EnumeratePhysicalDevices 100%N]) populated_world.
Proof.
  exact (proj2 (EnumeratePhysicalDevices_registers populated_world 100%N
                  (sample_instance false true) {| has_GetProcAddr := true |} []
                  eq_refl eq_refl)
           VK_INCOMPLETE (Some [3%N]) (or_introl eq_refl)).
Defined.

Lemma for_each_app {A : Type} (body : A → M unit) (l1 l2 : list A) (w : World) :
  for_each body (l1 ++ l2) w = (for_each body l1;; for_each body l2) w.
Proof.
  revert w. induction l1 as [|x l1 IH]; intros w; cbn [for_each app]; run_monad; [done|].
  destruct (body x w) as [[] w1| |]; [|done|done]. rewrite IH. by run_monad.
Qed.

Lemma for_each_concat {A : Type} (body : A → M unit) (ls : list (list A)) (w : World) :
  for_each (for_each body) ls w = for_each body (concat ls) w.
Proof.
  revert w. induction ls as [|l ls IH]; intros w; cbn [for_each concat]; [done|].
  rewrite for_each_app. run_monad.
  destruct (for_each body l w) as [[] w1| |]; [|done|done]. apply IH.
Qed.

(** [EnumeratePhysicalDeviceGroups] leaves the tables as
    [EnumeratePhysicalDevices] does when it is given the devices of all
    the groups in a row, and returns the driver's result as it does: a
    device is registered whether it is enumerated alone or in a group. *)
Theorem groups_register_like_devices (w : World) (instance : VkInstance)
    (result : VkResult) (groups : list (list VkPhysicalDevice)) :
  tables_after (SimulatorSetup.EnumeratePhysicalDeviceGroups instance result (Some groups) w)
  = tables_after (SimulatorSetup.EnumeratePhysicalDevices instance result
                    (Some (concat groups)) w) ∧
  fst <$> returned (SimulatorSetup.EnumeratePhysicalDeviceGroups instance result
                      (Some groups) w)
  = fst <$> returned (SimulatorSetup.EnumeratePhysicalDevices instance result
                        (Some (concat groups)) w).
Proof.
  unfold SimulatorSetup.EnumeratePhysicalDeviceGroups,
    SimulatorSetup.EnumeratePhysicalDevices, dispatch_instance. run_monad.
  destruct (GetInstanceMapEntry (tables w) instance) as [record|]; run_monad; [|done].
  destruct (i_dispatch_table record); run_monad; [|done].
  destruct (is_success result); run_monad; [|done].
  rewrite for_each_concat.
  by destruct (for_each _ (concat groups) w) as [[] w1| |].
Qed.

(** ** Destroying an instance *)

Lemma erase_physical_devices_of_cons instance k0 p0 entries m :
  erase_physical_devices_of instance ((k0, p0) :: entries) m
  = erase_physical_devices_of instance entries
      (if N.eqb (pd_instance p0) instance then delete k0 m else m).
Proof. reflexivity. Qed.

Lemma erase_physical_devices_of_None instance entries :
  ∀ m k, m !! k = None → erase_physical_devices_of instance entries m !! k = None.
Proof.
  induction entries as [|[k0 p0] l IH]; intros m k Hk; [done|].
  rewrite erase_physical_devices_of_cons.
  apply IH. destruct (N.eqb _ _); [|done].
  destruct (decide (k = k0)) as [->|Hne];
    [apply lookup_delete_eq | by rewrite lookup_delete_ne].
Qed.

Lemma erase_physical_devices_of_erased instance entries :
  ∀ m k p, (k, p) ∈ entries → pd_instance p = instance →
           erase_physical_devices_of instance entries m !! k = None.
Proof.
  induction entries as [|[k0 p0] l IH]; intros m k p Hin Hp; [by apply elem_of_nil in Hin|].
  rewrite erase_physical_devices_of_cons.
  apply elem_of_cons in Hin as [[= -> ->]|Hin].
  - rewrite Hp, N.eqb_refl. apply erase_physical_devices_of_None, lookup_delete_eq.
  - by apply (IH _ k p).
Qed.

Lemma erase_physical_devices_of_kept instance entries :
  ∀ m k, (∀ p, (k, p) ∈ entries → pd_instance p ≠ instance) →
         erase_physical_devices_of instance entries m !! k = m !! k.
Proof.
  induction entries as [|[k0 p0] l IH]; intros m k Hall; [done|].
  rewrite erase_physical_devices_of_cons.
  rewrite IH by (intros p Hp; apply Hall; by right).
  destruct (N.eqb_spec (pd_instance p0) instance) as [Heq|Hne]; [|done].
  apply lookup_delete_ne. intros ->. by apply (Hall p0); [left|].
Qed.

Lemma erase_physical_devices_of_filter instance (m : gmap N PhysDeviceMapStruct) :
  erase_physical_devices_of instance (map_to_list m) m
  = filter (λ entry, pd_instance entry.2 ≠ instance) m.
Proof.
  apply map_eq. intros k. destruct (m !! k) as [p|] eqn:Hk.
  - destruct (decide (pd_instance p = instance)) as [Heq|Hne].
    + rewrite (erase_physical_devices_of_erased instance _ m k p)
        by (done || by apply elem_of_map_to_list).
      symmetry. apply map_lookup_filter_None. right. intros p' Hp'. cbn. congruence.
    + rewrite erase_physical_devices_of_kept.
      * rewrite Hk. symmetry. by apply map_lookup_filter_Some.
      * intros p' Hp'%elem_of_map_to_list. congruence.
  - rewrite erase_physical_devices_of_None by done.
    symmetry. apply map_lookup_filter_None. by left.
Qed.

Lemma destroy_devices_of_none phs_dev w :
  (∀ device dev, g_device_map (tables w) !! device = Some dev →
                 physical_device dev ≠ phs_dev) →
  SimulatorSetup.destroy_devices_of phs_dev w = Done tt w.
Proof.
  intros Hnone. unfold SimulatorSetup.destroy_devices_of. run_monad.
  destruct (List.find _ _) as [[device dev]|] eqn:Hfind; [|done].
  apply find_some in Hfind as [Hin Heq]. cbn in Heq. apply N.eqb_eq in Heq.
  apply list_elem_of_In, elem_of_map_to_list in Hin. by destruct (Hnone device dev).
Qed.

Lemma destroy_instance_loop instance (entries : list (VkPhysicalDevice * PhysDeviceMapStruct)) :
  ∀ w,
    (∀ k p device dev, (k, p) ∈ entries → pd_instance p = instance →
                       g_device_map (tables w) !! device = Some dev →
                       physical_device dev ≠ k) →
    for_each
      (λ entry : VkPhysicalDevice * PhysDeviceMapStruct,
         when (N.eqb (pd_instance entry.2) instance)
           (SimulatorSetup.destroy_devices_of entry.1;;
            modify (set_phys_device_map (delete entry.1)))) entries w
    = Done tt {| tables :=
                   set_phys_device_map
                     (λ _, erase_physical_devices_of instance entries
                             (g_phys_device_map (tables w))) (tables w);
                 trace := trace w; clock := clock w |}.
Proof.
  induction entries as [|[k0 p0] l IH]; intros w Hno.
  - cbn. run_monad. by destruct w as [[] ? ?].
  - cbn [for_each]. run_monad. cbn [fst snd].
    rewrite erase_physical_devices_of_cons.
    destruct (N.eqb_spec (pd_instance p0) instance) as [Heq|Hne]; run_monad.
    + rewrite destroy_devices_of_none
        by (intros device dev Hd; apply (Hno k0 p0 device dev); by (left || done)).
      rewrite IH.
      * by destruct w as [[] ? ?].
      * intros k p device dev Hin Hp Hd. apply (Hno k p device dev); by (right || done).
    + rewrite IH; [done|].
      intros k p device dev Hin Hp Hd. apply (Hno k p device dev); by (right || done).
Qed.

(** [DestroyInstance] of an instance none of whose physical devices has a
    device left removes the records of its physical devices and its own
    record, leaves the records of the other instances and physical
    devices and every other table as they are, and hands nothing down the
    chain: the driver's [vkDestroyInstance] is not called. *)
Theorem DestroyInstance_erases_without_forwarding (w : World) (instance : VkInstance)
    (Hno : no_device_of instance (tables w)) :
  SimulatorSetup.DestroyInstance instance w
  = Done tt
      {| tables :=
           EraseInstanceMapEntry instance
             (set_phys_device_map (filter (λ entry, pd_instance entry.2 ≠ instance))
                (tables w));
         trace := trace w; clock := clock w |}.
Proof.
  pose proof (destroy_instance_loop instance (map_to_list (g_phys_device_map (tables w))) w)
    as Hloop.
  rewrite erase_physical_devices_of_filter in Hloop.
  unfold SimulatorSetup.DestroyInstance.
  unfold mbind, M_bind, get_tables in *. cbv beta iota in *.
  rewrite Hloop.
  - unfold modify. cbn [tables trace clock]. by destruct w as [[] ? ?].
  - intros k p device dev Hin%elem_of_map_to_list Hp Hd Heq. subst k.
    by apply (Hno device dev p).
Qed.

Lemma DestroyInstance_erases_without_forwarding_witness :
  SimulatorSetup.DestroyInstance 100%N two_instance_world
  = Done tt
      {| tables :=
           EraseInstanceMapEntry 100%N
             (set_phys_device_map (filter (λ entry, pd_instance entry.2 ≠ 100%N))
                (tables two_instance_world));
         trace := []; clock := 0 |}.
Proof.
  apply (DestroyInstance_erases_without_forwarding two_instance_world 100%N).
  intros device dev p Hd. cbn in Hd. by rewrite lookup_empty in Hd.
Defined.

(** ** Imported file descriptors *)

(** On an enabled device a successful [GetMemoryFdPropertiesKHR] with a
    properties structure records the file descriptor with the device and
    the memory type bits; after any other result of the driver, or without
    the structure, the tables are as before; and [DestroyDevice] of the
    device removes the record again. *)
Theorem imported_fd_lives_until_DestroyDevice (w : World) (device : VkDevice)
    (dev : DeviceMapStruct) (phys : PhysDeviceMapStruct) (dt : DispatchTable)
    (handleType fd memoryTypeBits : Z)
    (Hdev : GetDeviceMapEntry (tables w) device = Some dev)
    (Hdt : d_dispatch_table dev = Some dt)
    (Hen : d_layer_enabled dev = true)
    (Hphys : GetPhysicalDeviceMapEntry (tables w) (physical_device dev) = Some phys) :
  (∃ w1 w2 : World,
     SimulatorSetup.GetMemoryFdPropertiesKHR device handleType fd VK_SUCCESS
       (Some memoryTypeBits) w
     = Done (VK_SUCCESS, [DC_GetMemoryFdPropertiesKHR device handleType fd]) w1 ∧
     GetExternalMemFdMapEntry (tables w1) fd
     = Some {| fd_device := device; fd_memory_type := memoryTypeBits |} ∧
     Simulator.DestroyDevice device w1 = Done tt w2 ∧
     GetExternalMemFdMapEntry (tables w2) fd = None) ∧
  (∀ result bits, is_success result = false ∨ bits = None →
     SimulatorSetup.GetMemoryFdPropertiesKHR device handleType fd result bits w
     = Done (result, [DC_GetMemoryFdPropertiesKHR device handleType fd]) w).
Proof.
  unfold SimulatorSetup.GetMemoryFdPropertiesKHR, dispatch_device. split.
  - run_monad. run_with Hdev. run_with Hdt. rewrite Hen. cbn [is_success andb]. run_monad.
    eexists _, _. split; [reflexivity|]. cbn [tables].
    split; [unfold GetExternalMemFdMapEntry; cbn; apply lookup_insert_eq|].
    split.
    + by apply (DestroyDevice_runs device _ dev phys dt).
    + cbn [tables]. rewrite EraseExternalMemFdMapEntries_spec.
      unfold EraseDeviceMapEntry, GetExternalMemFdMapEntry.
      destruct (GetDeviceMapEntry _ device); cbn;
        apply map_lookup_filter_None; right; intros r;
        rewrite lookup_insert_eq; intros [= <-]; cbn; auto.
  - intros result bits Hnone. run_monad. run_with Hdev. run_with Hdt. rewrite Hen.
    destruct Hnone as [-> | ->]; [|by destruct w].
    destruct bits; cbn [andb]; run_monad; by destruct w.
Qed.

Lemma imported_fd_lives_until_DestroyDevice_witness :
  returned (SimulatorSetup.GetMemoryFdPropertiesKHR 1%N 1 7 VK_ERROR_DEVICE_LOST (Some 3)
              populated_world)
  = Some (VK_ERROR_DEVICE_LOST, [DC_GetMemoryFdPropertiesKHR 1%N 1 7]).
Proof.
  rewrite (proj2 (imported_fd_lives_until_DestroyDevice populated_world 1%N sample_device
                    (sample_phys no_device_extensions) {| has_GetProcAddr := true |} 1 7 3
                    eq_refl eq_refl eq_refl eq_refl)
             VK_ERROR_DEVICE_LOST (Some 3) (or_introl eq_refl)).
  reflexivity.
Defined.

(** ** The extensions of a new device *)

Lemma names_include_app names1 names2 name :
  SimulatorSetup.names_include (names1 ++ names2) name
  = SimulatorSetup.names_include names1 name || SimulatorSetup.names_include names2 name.
Proof. apply existsb_app. Qed.

(** The extension list that [CreateDevice] hands down starts with the
    list of the application and has at most the memory budget extension
    added at its end; it holds that extension whenever the physical device
    supports it together with core 1.1, so that the device record then
    has [EXT_mem_budget] set; the other flags of the record are those of
    the application's list; and forcing again changes nothing. *)
Theorem memory_budget_is_forced (supported : DeviceExtensions) (requested : list string) :
  let names := SimulatorSetup.force_memory_budget supported requested in
  let enables := SimulatorSetup.read_device_extension_enables in
  (names = requested ∨ names = requested ++ [SimulatorSetup.VK_EXT_MEMORY_BUDGET_EXTENSION_NAME]) ∧
  (core_1_1 supported = true → EXT_mem_budget supported = true →
   EXT_mem_budget (enables names) = true) ∧
  KHR_external_mem_fd (enables names) = KHR_external_mem_fd (enables requested) ∧
  KHR_swapchain (enables names) = KHR_swapchain (enables requested) ∧
  KHR_sync2 (enables names) = KHR_sync2 (enables requested) ∧
  EXT_display_control (enables names) = EXT_display_control (enables requested) ∧
  EXT_swapchain_maintenance1 (enables names)
  = EXT_swapchain_maintenance1 (enables requested) ∧
  SimulatorSetup.force_memory_budget supported names = names.
Proof.
  intros names enables. subst names enables. unfold SimulatorSetup.force_memory_budget.
  destruct (core_1_1 supported && EXT_mem_budget supported) eqn:Hsup.
  - destruct (SimulatorSetup.names_include requested
                SimulatorSetup.VK_EXT_MEMORY_BUDGET_EXTENSION_NAME) eqn:Hin.
    + split; [by left|]. split; [by intros _ _|]. do 5 (split; [done|]).
      by rewrite Hin.
    + split; [by right|]. cbn [SimulatorSetup.read_device_extension_enables
        EXT_mem_budget KHR_external_mem_fd KHR_swapchain KHR_sync2 EXT_display_control
        EXT_swapchain_maintenance1].
      rewrite !names_include_app. cbn.
      rewrite !orb_false_r, Hin. cbn. by repeat split.
  - split; [by left|]. split.
    + intros H1 H2. by rewrite H1, H2 in Hsup.
    + by repeat split.
Qed.

(** ** The second acquire *)

(** [AcquireNextImage2KHR] leaves the tables as [AcquireNextImageKHR] does
    with the fence of the acquire info, whatever the driver returns: the
    fence is marked signalled before the call is handed down.  Without an
    acquire info it only hands the call down. *)
Theorem AcquireNextImage2KHR_signals_like_the_first (w : World) (device : VkDevice)
    (info : VkAcquireNextImageInfoKHR) (result : VkResult) :
  tables_after (SimulatorSync.AcquireNextImage2KHR device (Some info) result w)
  = tables_after (Simulator.AcquireNextImageKHR device (ani_swapchain info)
                    (ani_timeout info) (ani_semaphore info) (ani_fence info) result w) ∧
  fst <$> returned (SimulatorSync.AcquireNextImage2KHR device (Some info) result w)
  = returned (Simulator.AcquireNextImageKHR device (ani_swapchain info)
                (ani_timeout info) (ani_semaphore info) (ani_fence info) result w) ∧
  (∀ dev dt, GetDeviceMapEntry (tables w) device = Some dev →
             d_dispatch_table dev = Some dt →
             SimulatorSync.AcquireNextImage2KHR device None result w
             = Done (result, [DC_AcquireNextImage2KHR device None]) w).
Proof.
  unfold SimulatorSync.AcquireNextImage2KHR, Simulator.AcquireNextImageKHR, dispatch_device.
  split; [|split].
  - run_monad. destruct (GetDeviceMapEntry (tables w) device) as [dev|]; run_monad; [|done].
    destruct (d_layer_enabled dev); run_monad.
    + destruct (Simulator.signal_fence (ani_fence info) w) as [[] w1| |]; [|done|done].
      by destruct (d_dispatch_table dev).
    + by destruct (d_dispatch_table dev).
  - run_monad. destruct (GetDeviceMapEntry (tables w) device) as [dev|]; run_monad; [|done].
    destruct (d_layer_enabled dev); run_monad.
    + destruct (Simulator.signal_fence (ani_fence info) w) as [[] w1| |]; [|done|done].
      by destruct (d_dispatch_table dev).
    + by destruct (d_dispatch_table dev).
  - intros dev dt Hdev Hdt. run_monad. run_with Hdev.
    destruct (d_layer_enabled dev); run_monad; run_with Hdt; by destruct w.
Qed.
